(** * ResearchCamera360: the HDRI metadata harvester and the asset downloader

    A shallow embedding of [get_json_360.py] (module [Harvester]) and of
    [crawl_360.py] (module [Downloader]), with the Python values and
    built-ins they rely on (module [Py]), the JSON text written by
    [save_to_json] and its reading back (module [Json]), the network, the
    clock and the disk as the scripts meet them (module [Outside]), and the
    notions the statements are written with (module [Notions]).  The
    lemmas follow, by subject.

    Conventions of the embedding.
    - Python values are the JSON-shaped ones the two scripts handle:
      [None], booleans, integers, strings, lists and dicts with string
      keys.  Fractional numbers are outside the model.
    - A string is a sequence of characters, one [ascii] per character; the
      characters from 128 on are the non-ASCII ones.
    - A dict is an association list in insertion order; a Python dict holds
      a key once, and [dict_set] keeps it that way.
    - Raising is explicit: a computation returns [Ok v] or [Raise e], where
      [e] tells only what the handlers of the scripts distinguish, the class
      [requests.exceptions.RequestException] from every other [Exception].
    - The network and the disk are oracles; what a run does to the outside
      is recorded in a [world]: the requests and pauses in order, and the
      files.  What the scripts print is left out. *)

From Stdlib Require Import ZArith String Ascii List Lia Bool.
From Stdlib Require Import Decimal DecimalFacts DecimalPos DecimalZ DecimalString.
From stdpp Require Import base option list gmap strings.

Import ListNotations.
Local Open Scope string_scope.
Local Open Scope list_scope.
Set Warnings "-register-all".

(* ===================================================================== *)
(** ** Python values and built-ins *)
(* ===================================================================== *)

Module Py.

Inductive value : Type :=
| VNone
| VBool (b : bool)
| VInt (n : Z)
| VStr (s : string)
| VList (l : list value)
| VDict (d : list (string * value)).

(** Induction on a value with the hypothesis for every item of a list
    and for every value of a dict. *)
Section NestedInduction.

Variable P : value -> Prop.
Hypothesis HNone : P VNone.
Hypothesis HBool : forall b, P (VBool b).
Hypothesis HInt : forall n, P (VInt n).
Hypothesis HStr : forall s, P (VStr s).
Hypothesis HList : forall l, Forall P l -> P (VList l).
Hypothesis HDict : forall d, Forall (fun kv => P (snd kv)) d -> P (VDict d).

Fixpoint value_ind_nested (v : value) : P v :=
  match v with
  | VNone => HNone
  | VBool b => HBool b
  | VInt n => HInt n
  | VStr s => HStr s
  | VList l =>
      HList l
        ((fix items (l : list value) : Forall P l :=
            match l with
            | [] => @List.Forall_nil _ P
            | x :: t => @List.Forall_cons _ P x t (value_ind_nested x) (items t)
            end) l)
  | VDict d =>
      HDict d
        ((fix members (d : list (string * value))
            : Forall (fun kv => P (snd kv)) d :=
            match d with
            | [] => @List.Forall_nil _ (fun kv => P (snd kv))
            | kv :: t =>
                @List.Forall_cons _ (fun kv => P (snd kv)) kv t
                  (value_ind_nested (snd kv)) (members t)
            end) d)
  end.

End NestedInduction.

(** The two classes of exception the handlers tell apart. *)
Inductive exn : Type :=
| RequestException   (* requests.exceptions.RequestException and subclasses *)
| OtherException.    (* any other Exception: TypeError, KeyError, OSError... *)

Inductive result (A : Type) : Type :=
| Ok (a : A)
| Raise (e : exn).
Arguments Ok {A} a.
Arguments Raise {A} e.

Definition rbind {A B} (r : result A) (k : A -> result B) : result B :=
  match r with
  | Ok a => k a
  | Raise e => Raise e
  end.

#[global] Instance result_ret : MRet result := @Ok.
#[global] Instance result_bind : MBind result := fun A B k r => rbind r k.

(** A [for] loop over a list whose body may raise: the first exception
    ends the loop. *)
Fixpoint for_each {A B} (body : B -> A -> result B) (l : list A) (acc : B)
  : result B :=
  match l with
  | [] => Ok acc
  | x :: t => rbind (body acc x) (for_each body t)
  end.

(** Computations that act on a state [S] and may raise; the state reached
    when the exception is raised is kept. *)
Definition prog (S A : Type) : Type := S -> result A * S.

#[global] Instance prog_ret {S} : MRet (prog S) := fun A a s => (Ok a, s).
#[global] Instance prog_bind {S} : MBind (prog S) :=
  fun A B k m s =>
    match m s with
    | (Ok a, s') => k a s'
    | (Raise e, s') => (Raise e, s')
    end.

Definition lift {S A} (r : result A) : prog S A := fun s => (r, s).

(** [bool(v)] *)
Definition truthy (v : value) : bool :=
  match v with
  | VNone => false
  | VBool b => b
  | VInt n => negb (n =? 0)%Z
  | VStr s => negb (String.eqb s EmptyString)
  | VList l => match l with [] => false | _ => true end
  | VDict d => match d with [] => false | _ => true end
  end.

(** The integer a value stands for in arithmetic: [bool] is a subclass of
    [int] in Python. *)
Definition as_int (v : value) : option Z :=
  match v with
  | VInt n => Some n
  | VBool b => Some (if b then 1 else 0)%Z
  | _ => None
  end.

(** [v == n] for an integer literal [n] *)
Definition eq_int (v : value) (n : Z) : bool :=
  match as_int v with
  | Some m => (m =? n)%Z
  | None => false
  end.

(** [v == s] for a string literal [s] *)
Definition eq_str (v : value) (s : string) : bool :=
  match v with
  | VStr t => String.eqb t s
  | _ => false
  end.

(** [needle in hay] on strings: substring test *)
Fixpoint str_contains (needle hay : string) : bool :=
  String.prefix needle hay ||
  match hay with
  | EmptyString => false
  | String _ t => str_contains needle t
  end.

Fixpoint dict_get (k : string) (d : list (string * value)) : option value :=
  match d with
  | [] => None
  | (k', v) :: t => if String.eqb k k' then Some v else dict_get k t
  end.

(** [d[k] = v]: an existing key keeps its place, a new one goes last *)
Fixpoint dict_set (k : string) (v : value) (d : list (string * value))
  : list (string * value) :=
  match d with
  | [] => [(k, v)]
  | (k', v') :: t =>
      if String.eqb k k' then (k, v) :: t else (k', v') :: dict_set k v t
  end.

Definition dict_keys (d : list (string * value)) : list string := map fst d.

(** [key in v] for a string literal [key] *)
Definition contains (key : string) (v : value) : result bool :=
  match v with
  | VDict d => Ok (match dict_get key d with Some _ => true | None => false end)
  | VList l => Ok (existsb (fun x => eq_str x key) l)
  | VStr s => Ok (str_contains key s)
  | _ => Raise OtherException                      (* TypeError *)
  end.

(** [v[key]] for a string literal [key] *)
Definition getitem (v : value) (key : string) : result value :=
  match v with
  | VDict d => match dict_get key d with
               | Some x => Ok x
               | None => Raise OtherException      (* KeyError *)
               end
  | _ => Raise OtherException                      (* TypeError *)
  end.

(** [v.items()] *)
Definition items (v : value) : result (list (string * value)) :=
  match v with
  | VDict d => Ok d
  | _ => Raise OtherException                      (* AttributeError *)
  end.

(** [v.get(key, default)] *)
Definition get (v : value) (key : string) (default : value) : result value :=
  match v with
  | VDict d => Ok (match dict_get key d with Some x => x | None => default end)
  | _ => Raise OtherException                      (* AttributeError *)
  end.

(** [a, b = v]: unpacking an iterable of exactly two elements *)
Definition unpack2 (v : value) : result (value * value) :=
  match v with
  | VList [a; b] => Ok (a, b)
  | VStr (String a (String b EmptyString)) =>
      Ok (VStr (String a EmptyString), VStr (String b EmptyString))
  | VDict [(a, _); (b, _)] => Ok (VStr a, VStr b)
  | _ => Raise OtherException                      (* ValueError, TypeError *)
  end.

(** [a * b > c] where [c] is an integer.  The product of two integers is
    compared as an integer; with any other operand either the product
    or the comparison with an integer raises [TypeError]. *)
Definition mul_gt (a b : value) (c : Z) : result bool :=
  match as_int a, as_int b with
  | Some x, Some y => Ok (c <? x * y)%Z
  | _, _ => Raise OtherException
  end.

(** [s.replace(old, new)] for single characters *)
Fixpoint replace_char (old new : ascii) (s : string) : string :=
  match s with
  | EmptyString => EmptyString
  | String c t =>
      String (if Ascii.eqb c old then new else c) (replace_char old new t)
  end.

Definition is_lower (c : ascii) : bool :=
  let n := nat_of_ascii c in (97 <=? n)%nat && (n <=? 122)%nat.
Definition is_upper (c : ascii) : bool :=
  let n := nat_of_ascii c in (65 <=? n)%nat && (n <=? 90)%nat.
Definition to_upper (c : ascii) : ascii :=
  if is_lower c then ascii_of_nat (nat_of_ascii c - 32) else c.
Definition to_lower (c : ascii) : ascii :=
  if is_upper c then ascii_of_nat (nat_of_ascii c + 32) else c.

(** [s.title()]: a letter that follows a letter is lowered, any other
    letter is raised.  Letters are the ASCII ones, which is exact on the
    catalogue's identifiers. *)
Fixpoint title_from (prev_cased : bool) (s : string) : string :=
  match s with
  | EmptyString => EmptyString
  | String c t =>
      let cased := is_lower c || is_upper c in
      String (if cased then (if prev_cased then to_lower c else to_upper c)
              else c)
             (title_from cased t)
  end.
Definition title (s : string) : string := title_from false s.

End Py.

(* ===================================================================== *)
(** ** The JSON text of [json.dump(data, f, indent=2, ensure_ascii=False)] *)
(* ===================================================================== *)

Module Json.
Import Py.

Definition hex_digit (n : nat) : ascii :=
  if (n <? 10)%nat then ascii_of_nat (48 + n) else ascii_of_nat (87 + n).

(** What [encode_basestring] writes for one character: the short escapes,
    [\u00xx] for the other characters below 32, the character itself
    otherwise (a non-ASCII one included). *)
Definition escape_char (c : ascii) : string :=
  let n := nat_of_ascii c in
  if (n =? 34)%nat then String "\" (String c EmptyString)
  else if (n =? 92)%nat then "\\"
  else if (n =? 8)%nat then "\b"
  else if (n =? 12)%nat then "\f"
  else if (n =? 10)%nat then "\n"
  else if (n =? 13)%nat then "\r"
  else if (n =? 9)%nat then "\t"
  else if (n <? 32)%nat then
    "\u00" +:+ String (hex_digit (n / 16)) (String (hex_digit (n mod 16)) EmptyString)
  else String c EmptyString.

Fixpoint escape (s : string) : string :=
  match s with
  | EmptyString => EmptyString
  | String c t => escape_char c +:+ escape t
  end.

Definition quote : string := String (ascii_of_nat 34) EmptyString.

Definition encode_basestring (s : string) : string :=
  quote +:+ escape s +:+ quote.

(** [int.__repr__] *)
Definition repr_int (n : Z) : string :=
  DecimalString.NilZero.string_of_int (Z.to_int n).

Fixpoint spaces (n : nat) : string :=
  match n with
  | O => EmptyString
  | S k => String " " (spaces k)
  end.

(** A line break followed by the indentation of nesting depth [level]
    (two spaces per level). *)
Definition newline_indent (level : nat) : string :=
  String (ascii_of_nat 10) (spaces (2 * level)).

(** The items of a container, the separator between two of them. *)
Fixpoint join_with (sep : string) (items : list string) : string :=
  match items with
  | [] => EmptyString
  | [x] => x
  | x :: t => x +:+ sep +:+ join_with sep t
  end.

(** The encoder at nesting depth [level]: an empty container is written
    closed on the spot, the items of another one go one per line, a comma
    after each but the last, a colon and a space between a key and its
    value. *)
Fixpoint encode (level : nat) (v : value) : string :=
  match v with
  | VNone => "null"
  | VBool true => "true"
  | VBool false => "false"
  | VInt n => repr_int n
  | VStr s => encode_basestring s
  | VList [] => "[]"
  | VList l =>
      "[" +:+ newline_indent (S level) +:+
      join_with ("," +:+ newline_indent (S level))
                (map (encode (S level)) l) +:+
      newline_indent level +:+ "]"
  | VDict [] => "{}"
  | VDict d =>
      "{" +:+ newline_indent (S level) +:+
      join_with ("," +:+ newline_indent (S level))
                (map (fun kv => encode_basestring (fst kv) +:+ ": " +:+
                                encode (S level) (snd kv)) d) +:+
      newline_indent level +:+ "}"
  end.

Definition dumps (v : value) : string := encode 0 v.

(** *** Reading the text back

    A decoder for JSON texts whose numbers are integers and whose
    characters are those of the model: a [\u] escape beyond 255, a fraction
    or an exponent, [NaN] and [Infinity] are refused.  As [json.load] does,
    it takes white space between tokens, refuses a raw control character in
    a string and a number with a leading zero, and keeps for a repeated key
    its last value at its first place. *)

Definition is_ws (c : ascii) : bool :=
  let n := nat_of_ascii c in
  (n =? 32)%nat || (n =? 10)%nat || (n =? 13)%nat || (n =? 9)%nat.

Fixpoint skip_ws (s : string) : string :=
  match s with
  | EmptyString => EmptyString
  | String c t => if is_ws c then skip_ws t else s
  end.

Definition hex_value (c : ascii) : option nat :=
  let n := nat_of_ascii c in
  if (48 <=? n)%nat && (n <=? 57)%nat then Some (n - 48)
  else if (97 <=? n)%nat && (n <=? 102)%nat then Some (n - 87)
  else if (65 <=? n)%nat && (n <=? 70)%nat then Some (n - 55)
  else None.

Definition hex4 (a b c d : ascii) : option nat :=
  match hex_value a, hex_value b, hex_value c, hex_value d with
  | Some x, Some y, Some z, Some w => Some (((x * 16 + y) * 16 + z) * 16 + w)
  | _, _, _, _ => None
  end.

(** The character a short escape stands for. *)
Definition unescape (e : ascii) : option ascii :=
  let n := nat_of_ascii e in
  if (n =? 34)%nat then Some e
  else if (n =? 92)%nat then Some e
  else if (n =? 47)%nat then Some e
  else if (n =? 98)%nat then Some (ascii_of_nat 8)
  else if (n =? 102)%nat then Some (ascii_of_nat 12)
  else if (n =? 110)%nat then Some (ascii_of_nat 10)
  else if (n =? 114)%nat then Some (ascii_of_nat 13)
  else if (n =? 116)%nat then Some (ascii_of_nat 9)
  else None.

Definition push (c : ascii) (r : option (string * string))
  : option (string * string) :=
  match r with
  | Some (str, rest) => Some (String c str, rest)
  | None => None
  end.

(** A string, from after its opening quote: the string and what follows
    its closing quote. *)
Fixpoint parse_string (s : string) : option (string * string) :=
  match s with
  | EmptyString => None
  | String c t =>
      if (nat_of_ascii c =? 34)%nat then Some (EmptyString, t)
      else if (nat_of_ascii c =? 92)%nat then
        match t with
        | String e t' =>
            if (nat_of_ascii e =? 117)%nat then
              match t' with
              | String h1 (String h2 (String h3 (String h4 t''))) =>
                  match hex4 h1 h2 h3 h4 with
                  | Some n =>
                      if (n <? 256)%nat
                      then push (ascii_of_nat n) (parse_string t'')
                      else None
                  | None => None
                  end
              | _ => None
              end
            else
              match unescape e with
              | Some ch => push ch (parse_string t')
              | None => None
              end
        | EmptyString => None
        end
      else if (nat_of_ascii c <? 32)%nat then None
      else push c (parse_string t)
  end.

Definition is_digit (c : ascii) : bool :=
  let n := nat_of_ascii c in (48 <=? n)%nat && (n <=? 57)%nat.

(** The longest run of digits at the head of [s], and the rest. *)
Fixpoint span_digits (s : string) : string * string :=
  match s with
  | EmptyString => (EmptyString, EmptyString)
  | String c t =>
      if is_digit c
      then let (digits, rest) := span_digits t in (String c digits, rest)
      else (EmptyString, s)
  end.

(** What cannot follow the digits of an integer: the start of a fraction
    or of an exponent. *)
Definition starts_fraction (s : string) : bool :=
  match s with
  | EmptyString => false
  | String c _ =>
      let n := nat_of_ascii c in
      (n =? 46)%nat || (n =? 101)%nat || (n =? 69)%nat
  end.

Definition parse_digits (negative : bool) (s : string) : option (Z * string) :=
  let (digits, rest) := span_digits s in
  if starts_fraction rest then None
  else
    match NilZero.uint_of_string digits with
    | Some d =>
        if Decimal.uint_beq (Decimal.unorm d) d
        then Some ((if negative then - Z.of_uint d else Z.of_uint d)%Z, rest)
        else None
    | None => None
    end.

Definition parse_number (s : string) : option (Z * string) :=
  match s with
  | String c t =>
      if (nat_of_ascii c =? 45)%nat then parse_digits true t
      else parse_digits false s
  | EmptyString => None
  end.

Fixpoint drop_str (n : nat) (s : string) : string :=
  match n, s with
  | S m, String _ t => drop_str m t
  | _, _ => s
  end.

(** [dict(pairs)] *)
Definition dict_of_pairs (pairs : list (string * value))
  : list (string * value) :=
  fold_left (fun d kv => dict_set (fst kv) (snd kv) d) pairs [].

(** A value, the elements of a list from after a [[] or a comma, and the
    members of an object likewise; [fuel] bounds the nesting and the
    number of items. *)
Fixpoint parse_value (fuel : nat) (s : string) : option (value * string) :=
  match fuel with
  | O => None
  | S fuel =>
      match skip_ws s with
      | EmptyString => None
      | String c t =>
          let n := nat_of_ascii c in
          if (n =? 34)%nat then
            match parse_string t with
            | Some (str, rest) => Some (VStr str, rest)
            | None => None
            end
          else if (n =? 91)%nat then
            if String.prefix "]" (skip_ws t)
            then Some (VList [], drop_str 1 (skip_ws t))
            else match parse_elements fuel t with
                 | Some (l, rest) => Some (VList l, rest)
                 | None => None
                 end
          else if (n =? 123)%nat then
            if String.prefix "}" (skip_ws t)
            then Some (VDict [], drop_str 1 (skip_ws t))
            else match parse_members fuel t with
                 | Some (pairs, rest) => Some (VDict (dict_of_pairs pairs), rest)
                 | None => None
                 end
          else if String.prefix "null" (String c t)
          then Some (VNone, drop_str 4 (String c t))
          else if String.prefix "true" (String c t)
          then Some (VBool true, drop_str 4 (String c t))
          else if String.prefix "false" (String c t)
          then Some (VBool false, drop_str 5 (String c t))
          else match parse_number (String c t) with
               | Some (z, rest) => Some (VInt z, rest)
               | None => None
               end
      end
  end
with parse_elements (fuel : nat) (s : string) : option (list value * string) :=
  match fuel with
  | O => None
  | S fuel =>
      match parse_value fuel s with
      | Some (v, rest) =>
          match skip_ws rest with
          | String c rest' =>
              if (nat_of_ascii c =? 44)%nat then
                match parse_elements fuel rest' with
                | Some (l, rest'') => Some (v :: l, rest'')
                | None => None
                end
              else if (nat_of_ascii c =? 93)%nat then Some ([v], rest')
              else None
          | EmptyString => None
          end
      | None => None
      end
  end
with parse_members (fuel : nat) (s : string)
  : option (list (string * value) * string) :=
  match fuel with
  | O => None
  | S fuel =>
      match skip_ws s with
      | String q t =>
          if (nat_of_ascii q =? 34)%nat then
            match parse_string t with
            | Some (key, rest) =>
                match skip_ws rest with
                | String colon rest1 =>
                    if (nat_of_ascii colon =? 58)%nat then
                      match parse_value fuel rest1 with
                      | Some (v, rest2) =>
                          match skip_ws rest2 with
                          | String c rest3 =>
                              if (nat_of_ascii c =? 44)%nat then
                                match parse_members fuel rest3 with
                                | Some (pairs, rest4) =>
                                    Some ((key, v) :: pairs, rest4)
                                | None => None
                                end
                              else if (nat_of_ascii c =? 125)%nat
                              then Some ([(key, v)], rest3)
                              else None
                          | EmptyString => None
                          end
                      | None => None
                      end
                    else None
                | EmptyString => None
                end
            | None => None
            end
          else None
      | EmptyString => None
      end
  end.

(** [json.loads]: one value, and nothing but white space after it. *)
Definition loads (s : string) : option value :=
  match parse_value (S (String.length s)) s with
  | Some (v, rest) =>
      match skip_ws rest with
      | EmptyString => Some v
      | String _ _ => None
      end
  | None => None
  end.

(** What may follow a value in a text: nothing, a comma or a line
    break. *)
Definition stops (rest : string) : bool :=
  match rest with
  | EmptyString => true
  | String c _ =>
      let n := nat_of_ascii c in (n =? 44)%nat || (n =? 10)%nat
  end.

(** The keys of every dict are distinct, as they are in Python. *)
Fixpoint distinct (keys : list string) : bool :=
  match keys with
  | [] => true
  | k :: t => negb (existsb (String.eqb k) t) && distinct t
  end.

Fixpoint well_formed (v : value) : bool :=
  match v with
  | VList l => forallb well_formed l
  | VDict d => distinct (map fst d) && forallb (fun kv => well_formed (snd kv)) d
  | _ => true
  end.

(** The fuel that lets the decoder through the text of [v]. *)
Fixpoint weight (v : value) : nat :=
  match v with
  | VList l => S (list_sum (map (fun x => S (weight x)) l))
  | VDict d => S (list_sum (map (fun kv => S (weight (snd kv))) d))
  | _ => 1
  end.

(** The decoder reads the text of [v] back, at any depth, with fuel
    enough, before whatever may follow a value. *)
Definition reads_back (v : value) : Prop :=
  forall level fuel rest,
    weight v <= fuel -> stops rest = true ->
    parse_value fuel (encode level v +:+ rest) = Some (v, rest).

End Json.

(* ===================================================================== *)
(** ** The outside: requests, pauses and files *)
(* ===================================================================== *)

Module Outside.
Import Py.

Inductive event : Type :=
| EGet (url : string)     (* requests.get(url, ...) *)
| ESleep (secs : Z).      (* time.sleep(secs) *)

(** The requests and pauses of a run, oldest first, and the files by path. *)
Record world : Type := World {
  trace : list event;
  files : gmap string string
}.

(** The disk as the scripts meet it: whether a path can be opened for
    writing, and how many characters can be written to it before the
    device fails ([None]: no limit). *)
Record disk : Type := Disk {
  can_open : string -> bool;
  room : string -> option nat
}.

Definition log (e : event) : prog world unit :=
  fun w => (Ok tt, World (trace w ++ [e]) (files w)).

Definition sleep (secs : Z) : prog world unit := log (ESleep secs).

(** [os.path.exists(path)] *)
Definition path_exists (path : string) : prog world bool :=
  fun w => (Ok (bool_decide (is_Some (files w !! path))), w).

(** [open(path, 'w')]: the file is created, or emptied, unless the disk
    refuses with [OSError]. *)
Definition open_w (dk : disk) (path : string) : prog world unit :=
  fun w =>
    if can_open dk path
    then (Ok tt, World (trace w) (<[path := EmptyString]> (files w)))
    else (Raise OtherException, w).

Definition take_str (n : nat) (s : string) : string := String.substring 0 n s.

(** [f.write(text)] on the file opened at [path]: the text is appended; when
    the file would outgrow the room the disk has for it, only what fits is
    kept and [OSError] is raised. *)
Definition write (dk : disk) (path text : string) : prog world unit :=
  fun w =>
    let old := default EmptyString (files w !! path) in
    match room dk path with
    | Some n =>
        if (n <? String.length old + String.length text)%nat
        then (Raise OtherException,
              World (trace w)
                    (<[path := take_str n (old +:+ text)]> (files w)))
        else (Ok tt, World (trace w) (<[path := old +:+ text]> (files w)))
    | None => (Ok tt, World (trace w) (<[path := old +:+ text]> (files w)))
    end.

End Outside.

(* ===================================================================== *)
(** ** get_json_360.py *)
(* ===================================================================== *)

Module Harvester.
Import Py Outside.

Definition API_URL : string := "https://api.polyhaven.com".

(** What [requests.get] returns: the status, and what [response.json()]
    gives, a value or the exception it raises on a body that is not JSON
    (a [RequestException] or not, by the version of [requests]). *)
Record response : Type := Response {
  status_code : Z;
  json : result value
}.

(** The remote API: what a request for [url] meets, given all that the run
    has done so far.  [Raise] is the exception [requests.get] raises. *)
Definition network : Type := list event -> string -> result response.

(** [response.raise_for_status()]: [HTTPError], a [RequestException], on a
    status from 400 to 599. *)
Definition raise_for_status (r : response) : result unit :=
  if ((400 <=? status_code r) && (status_code r <? 600))%Z
  then Raise RequestException
  else Ok tt.

Section WithOutside.

Variable net : network.
Variable dk : disk.

Definition requests_get (url : string) : prog world response :=
  fun w => (net (trace w) url, World (trace w ++ [EGet url]) (files w)).

(** *** get_asset_list *)

(** [isinstance(asset_data, dict) and asset_data.get('type') == 0] *)
Definition is_hdri (asset_data : value) : bool :=
  match asset_data with
  | VDict d =>
      match dict_get "type" d with
      | Some t => eq_int t 0
      | None => false                              (* None == 0 *)
      end
  | _ => false
  end.

(** The body of the loop over [all_assets.items()]. *)
Definition keep_hdri (hdri_assets : list (string * value))
    (entry : string * value) : list (string * value) :=
  let '(asset_id, asset_data) := entry in
  if is_hdri asset_data
  then dict_set asset_id (VStr "hdri") hdri_assets
  else hdri_assets.

Definition filter_hdri (all_assets : list (string * value))
  : list (string * value) :=
  fold_left keep_hdri all_assets [].

(** The URL [requests] builds from [f"{API_URL}/assets"] and the
    parameters [{'t': 'hdris'}]. *)
Definition listing_url : string := API_URL +:+ "/assets?t=hdris".

(** The body of the [try]. *)
Definition get_asset_list_try : prog world value :=
  response ← requests_get listing_url;
  _ ← lift (raise_for_status response);
  all_assets ← lift (json response);
  entries ← lift (items all_assets);
  mret (VDict (filter_hdri entries)).

(** [except Exception: ... return []] *)
Definition get_asset_list : prog world value :=
  fun w =>
    match get_asset_list_try w with
    | (Ok hdri_assets, w') => (Ok hdri_assets, w')
    | (Raise _, w') => (Ok (VList []), w')
    end.

(** *** get_asset_info *)

(** The local state of one call: the variable [asset_id], which the 404
    fallback rebinds, and the outside. *)
Record frame : Type := Frame {
  asset_id : string;
  outside : world
}.

Definition io {A} (m : prog world A) : prog frame A :=
  fun fr => let (r, w) := m (outside fr) in (r, Frame (asset_id fr) w).

Definition get_asset_id : prog frame string :=
  fun fr => (Ok (asset_id fr), fr).

Definition set_asset_id (new_id : string) : prog frame unit :=
  fun fr => (Ok tt, Frame new_id (outside fr)).

(** [w * h > max_res[0] * max_res[1]] *)
Definition larger_area (w h : value) (max_res : value * value) : result bool :=
  match as_int (fst max_res), as_int (snd max_res) with
  | Some m0, Some m1 => mul_gt w h (m0 * m1)
  | _, _ => Raise OtherException
  end.

(** The body of the inner loop, for one [file_info]. *)
Definition scan_file (max_res : value * value) (file_info : value)
  : result (value * value) :=
  has ← contains "resolution" file_info;
  if (has : bool) then
    resolution ← getitem file_info "resolution";
    if truthy resolution then
      '(w, h) ← unpack2 resolution;
      larger ← larger_area w h max_res;
      mret (if (larger : bool) then (w, h) else max_res)
    else mret max_res
  else mret max_res.

(** The body of the outer loop, for one resolution name and its formats. *)
Definition scan_formats (max_res : value * value) (entry : string * value)
  : result (value * value) :=
  file_infos ← items (snd entry);
  for_each scan_file (map snd file_infos) max_res.

(** [max_res] after the scan of [files_data], from [[0, 0]]. *)
Definition scan_max_res (files_data : value) : result (value * value) :=
  let max_res := (VInt 0, VInt 0) in
  has ← contains "hdri" files_data;
  if (has : bool) then
    hdri ← getitem files_data "hdri";
    by_res ← items hdri;
    for_each scan_formats by_res max_res
  else mret max_res.

(** [authors], a copy of [data['authors']] when the key is there. *)
Definition collect_authors (data : value) : result (list (string * value)) :=
  has ← contains "authors" data;
  if (has : bool) then
    a ← getitem data "authors";
    entries ← items a;
    mret (fold_left (fun authors '(author, role) => dict_set author role authors)
                    entries [])
  else mret [].

Definition default_thumbnail (asset_id : string) : string :=
  "https://cdn.polyhaven.com/asset_img/thumbs/" +:+ asset_id +:+
  ".png?width=256&height=256".

(** The dict literal [asset_info]. *)
Definition format_asset_info (asset_id : string) (data : value)
    (authors : list (string * value)) (max_res : value * value)
  : result value :=
  name ← get data "name" (VStr (title (replace_char "_" " " asset_id)));
  date_published ← get data "date_published" (VInt 0);
  download_count ← get data "download_count" (VInt 0);
  files_hash ← get data "files_hash" (VStr EmptyString);
  categories ← get data "categories" (VList []);
  tags ← get data "tags" (VList []);
  thumbnail_url ← get data "thumbnail_url" (VStr (default_thumbnail asset_id));
  mret (VDict
    [ ("name", name);
      ("type", VInt 0);
      ("date_published", date_published);
      ("download_count", download_count);
      ("files_hash", files_hash);
      ("authors", if truthy (VDict authors) then VDict authors
                  else VDict [("Unknown", VStr "All")]);
      ("categories", categories);
      ("tags", tags);
      ("max_resolution",
         if eq_int (fst max_res) 0 && eq_int (snd max_res) 0
         then VList [VInt 8192; VInt 4096]
         else VList [fst max_res; snd max_res]);
      ("dimensions", VList [VInt 30000; VInt 30000]);
      ("thumbnail_url", thumbnail_url) ]).

Definition info_url (asset_id : string) : string :=
  API_URL +:+ "/info/" +:+ asset_id.
Definition files_url (asset_id : string) : string :=
  API_URL +:+ "/files/" +:+ asset_id.

(** The first part of the body of the [try]: the detail request and, on
    404, the request for the identifier with [_4k] appended, which
    [asset_id] names from then on. *)
Definition request_info : prog frame response :=
  asset_id ← get_asset_id;
  response ← io (requests_get (info_url asset_id));
  if (status_code response =? 404)%Z then
    _ ← set_asset_id (asset_id +:+ "_4k");
    asset_id ← get_asset_id;
    io (requests_get (info_url asset_id))
  else mret response.

(** The rest of the body of the [try], from the second test for 404. *)
Definition build_asset_info (response : response) : prog frame (option value) :=
  if (status_code response =? 404)%Z then mret None
  else
    _ ← lift (raise_for_status response);
    data ← lift (json response);
    asset_id ← get_asset_id;
    files_response ← io (requests_get (files_url asset_id));
    files_data ← lift (if (status_code files_response =? 200)%Z
                       then json files_response else Ok (VDict []));
    max_res ← lift (scan_max_res files_data);
    authors ← lift (collect_authors data);
    asset_info ← lift (format_asset_info asset_id data authors max_res);
    mret (Some asset_info).

(** The body of the [try], one attempt. *)
Definition get_asset_info_try : prog frame (option value) :=
  response ← request_info;
  build_asset_info response.

(** [for attempt in range(max_retries)], with the two handlers; falling off
    the end of the loop, the function returns [None]. *)
Fixpoint get_asset_info_loop (attempts : list Z) (max_retries : Z)
  : prog frame (option value) :=
  match attempts with
  | [] => mret None
  | attempt :: rest =>
      fun fr =>
        match get_asset_info_try fr with
        | (Ok r, fr') => (Ok r, fr')
        | (Raise RequestException, fr') =>
            if (attempt =? max_retries - 1)%Z then (Ok None, fr')
            else (_ ← io (sleep 1); get_asset_info_loop rest max_retries) fr'
        | (Raise OtherException, fr') => (Ok None, fr')
        end
  end.

Definition get_asset_info (asset_id : string) (max_retries : Z)
  : prog world (option value) :=
  fun w =>
    let (r, fr) :=
      get_asset_info_loop (seqZ 0 max_retries) max_retries (Frame asset_id w)
    in (r, outside fr).

(** *** save_to_json *)

(** The body of the [try]. *)
Definition save_to_json_try (data : value) (filename : string)
  : prog world bool :=
  _ ← open_w dk filename;
  _ ← write dk filename (Json.dumps data);
  mret true.

(** [except Exception: ... return False] *)
Definition save_to_json (data : value) (filename : string) : prog world bool :=
  fun w =>
    match save_to_json_try data filename w with
    | (Ok b, w') => (Ok b, w')
    | (Raise _, w') => (Ok false, w')
    end.

(** *** main *)

(** The body of the loop over the listed identifiers. *)
Definition process_asset (assets_data : list (string * value))
    (asset_id : string) : prog world (list (string * value)) :=
  asset_info ← get_asset_info asset_id 3;
  let assets_data :=
    match asset_info with
    | Some info =>
        if truthy info then dict_set asset_id info assets_data else assets_data
    | None => assets_data
    end in
  _ ← sleep 1;
  mret assets_data.

Fixpoint process_assets (ids : list string) (assets_data : list (string * value))
  : prog world (list (string * value)) :=
  match ids with
  | [] => mret assets_data
  | asset_id :: rest =>
      assets_data ← process_asset assets_data asset_id;
      process_assets rest assets_data
  end.

(** [main] returns [None] when nothing was listed, [assets_data] otherwise. *)
Definition main : prog world (option value) :=
  hdri_assets ← get_asset_list;
  if negb (truthy hdri_assets) then mret None
  else
    entries ← lift (items hdri_assets);
    assets_data ← process_assets (take 843 (dict_keys entries)) [];
    _ ← (if truthy (VDict assets_data)
         then save_to_json (VDict assets_data) "hdri_metadata.json"
         else mret false);
    mret (Some (VDict assets_data)).

End WithOutside.

End Harvester.

(* ===================================================================== *)
(** ** crawl_360.py *)
(* ===================================================================== *)

Module Downloader.
Import Py Outside.

Definition RESOLUTION : string := "4k".
Definition SAVE_DIR : string := "hdri_" +:+ RESOLUTION.

(** What the streaming [requests.get] returns: the status, the chunks
    [iter_content] yields, and the exception it raises after the last of
    them when the transfer breaks. *)
Record response : Type := Response {
  status_code : Z;
  chunks : list string;
  broken : option exn
}.

Definition network : Type := list event -> string -> result response.

(** [s.split(sep)] for a single character *)
Fixpoint split_on (sep : ascii) (s : string) : list string :=
  match s with
  | EmptyString => [EmptyString]
  | String c t =>
      if Ascii.eqb c sep then EmptyString :: split_on sep t
      else match split_on sep t with
           | piece :: pieces => String c piece :: pieces
           | [] => [String c EmptyString]
           end
  end.

Fixpoint ends_with_slash (s : string) : bool :=
  match s with
  | EmptyString => false
  | String c EmptyString => Ascii.eqb c "/"
  | String _ t => ends_with_slash t
  end.

(** [os.path.join(a, b)] (POSIX) *)
Definition path_join (a b : string) : string :=
  if String.prefix "/" b then b
  else if String.eqb a EmptyString || ends_with_slash a then a +:+ b
  else a +:+ "/" +:+ b.

(** [url.split("/")[-1]] *)
Definition filename_of (url : string) : string :=
  List.last (split_on "/" url) EmptyString.

Section WithOutside.

Variable net : network.
Variable dk : disk.

Definition requests_get (url : string) : prog world response :=
  fun w => (net (trace w) url, World (trace w ++ [EGet url]) (files w)).

(** [for chunk in r.iter_content(1024): f.write(chunk)] *)
Fixpoint write_chunks (path : string) (cs : list string) : prog world unit :=
  match cs with
  | [] => mret tt
  | chunk :: rest => _ ← write dk path chunk; write_chunks path rest
  end.

(** The body of the [try]. *)
Definition download_file_try (url path : string) : prog world unit :=
  r ← requests_get url;
  if (status_code r =? 200)%Z then
    _ ← open_w dk path;
    _ ← write_chunks path (chunks r);
    lift (match broken r with
          | Some e => Raise e
          | None => Ok tt
          end)
  else mret tt.

(** The [try] with its handler: [except Exception], which only reports. *)
Definition download_file_guarded (url path : string) : prog world unit :=
  fun w =>
    match download_file_try url path w with
    | (Ok _, w') => (Ok tt, w')
    | (Raise _, w') => (Ok tt, w')
    end.

Definition download_file (url save_dir : string) : prog world unit :=
  let filename := filename_of url in
  let path := path_join save_dir filename in
  found ← path_exists path;
  if (found : bool) then mret tt
  else download_file_guarded url path.

End WithOutside.

(** *** get_asset_list, get_hdri_link, main *)

Definition API_URL : string := "https://api.polyhaven.com".
Definition DOWNLOAD_URL : string :=
  "https://dl.polyhaven.org/file/ph-assets/HDRIs".

Definition listing_url : string := API_URL +:+ "/assets?t=hdris".

(** [get_hdri_link(asset_name, resolution)]: the dict of the three links. *)
Definition get_hdri_link (asset_name resolution : string)
  : list (string * string) :=
  [ ("hdr", DOWNLOAD_URL +:+ "/hdr/" +:+ resolution +:+ "/" +:+
            asset_name +:+ "_" +:+ resolution +:+ ".hdr");
    ("exr", DOWNLOAD_URL +:+ "/exr/" +:+ resolution +:+ "/" +:+
            asset_name +:+ "_" +:+ resolution +:+ ".exr");
    ("jpg", DOWNLOAD_URL +:+ "/jpg/" +:+ resolution +:+ "/" +:+
            asset_name +:+ "_" +:+ resolution +:+ ".jpg") ].

(** [links[key]] *)
Fixpoint links_get (key : string) (links : list (string * string))
  : result string :=
  match links with
  | [] => Raise OtherException                     (* KeyError *)
  | (k, url) :: t => if String.eqb key k then Ok url else links_get key t
  end.

(** [list(v.keys())] *)
Definition keys_of (v : value) : result (list string) :=
  match v with
  | VDict d => Ok (dict_keys d)
  | _ => Raise OtherException                      (* AttributeError *)
  end.

Section WithApi.

(** The catalogue API, whose answers are JSON, beside the download
    origin. *)
Variable api : Harvester.network.
Variable net : network.
Variable dk : disk.

Definition api_get (url : string) : prog world Harvester.response :=
  fun w => (api (trace w) url, World (trace w ++ [EGet url]) (files w)).

(** The body of the [try]. *)
Definition get_asset_list_try : prog world (list string) :=
  response ← api_get listing_url;
  _ ← lift (Harvester.raise_for_status response);
  body ← lift (Harvester.json response);
  hdris ← lift (keys_of body);
  mret hdris.

(** [except Exception: ... return []] *)
Definition get_asset_list : prog world (list string) :=
  fun w =>
    match get_asset_list_try w with
    | (Ok hdris, w') => (Ok hdris, w')
    | (Raise _, w') => (Ok [], w')
    end.

Definition max_downloads : nat := 10.

(** The body of the loop of [main], for one asset. *)
Definition download_asset (asset : string) : prog world unit :=
  let links := get_hdri_link asset RESOLUTION in
  url ← lift (links_get "hdr" links);
  _ ← download_file net dk url SAVE_DIR;
  sleep 1.

Fixpoint download_assets (assets : list string) : prog world unit :=
  match assets with
  | [] => mret tt
  | asset :: rest => _ ← download_asset asset; download_assets rest
  end.

Definition main : prog world unit :=
  assets ← get_asset_list;
  match assets with
  | [] => mret tt                                  (* if not assets: return *)
  | _ => download_assets (take max_downloads assets)
  end.

End WithApi.

End Downloader.

(* ===================================================================== *)
(** ** Notions the statements use *)
(* ===================================================================== *)

Module Notions.
Import Py Outside Harvester.

(** [n] requests for the details of [id], a pause of one second between
    two of them. *)
Fixpoint retry_trace (id : string) (n : nat) : list event :=
  match n with
  | O => []
  | S O => [EGet (info_url id)]
  | S m => EGet (info_url id) :: ESleep 1 :: retry_trace id m
  end.

(** The resolution entry of one [file_info], when it has one: the two
    elements of a non-empty ['resolution']. *)
Definition file_resolutions (file_info : value) : list (value * value) :=
  match file_info with
  | VDict fields =>
      match dict_get "resolution" fields with
      | Some r =>
          if truthy r
          then match unpack2 r with Ok p => [p] | Raise _ => [] end
          else []
      | None => []
      end
  | _ => []
  end.

(** The resolution entries under one resolution name, over its formats. *)
Definition formats_resolutions (formats : value) : list (value * value) :=
  match formats with
  | VDict file_infos => flat_map (fun e => file_resolutions (snd e)) file_infos
  | _ => []
  end.

(** All the resolution entries of a file listing, in the order of the
    listing: under ['hdri'], over the resolution names and their formats. *)
Definition listed_resolutions (files_data : value) : list (value * value) :=
  match files_data with
  | VDict d =>
      match dict_get "hdri" d with
      | Some (VDict by_res) =>
          flat_map (fun e => formats_resolutions (snd e)) by_res
      | _ => []
      end
  | _ => []
  end.

(** Width times height of a pair of integers. *)
Definition area_of (p : value * value) : option Z :=
  match as_int (fst p), as_int (snd p) with
  | Some w, Some h => Some (w * h)%Z
  | _, _ => None
  end.

(** A file listing of the shape the API documents: a JSON object whose
    ['hdri'] member, when present, maps resolution names to objects that map
    format names to objects, each ['resolution'] in them being empty or a
    list of two integers. *)
Definition wf_resolution (r : value) : bool :=
  negb (truthy r) ||
  match r with
  | VList [a; b] =>
      match as_int a, as_int b with
      | Some _, Some _ => true
      | _, _ => false
      end
  | _ => false
  end.

Definition wf_file_info (file_info : value) : bool :=
  match file_info with
  | VDict fields =>
      match dict_get "resolution" fields with
      | Some r => wf_resolution r
      | None => true
      end
  | _ => false
  end.

Definition wf_formats (formats : value) : bool :=
  match formats with
  | VDict file_infos => forallb (fun e => wf_file_info (snd e)) file_infos
  | _ => false
  end.

Definition wf_files_data (files_data : value) : bool :=
  match files_data with
  | VDict d =>
      match dict_get "hdri" d with
      | Some (VDict by_res) => forallb (fun e => wf_formats (snd e)) by_res
      | Some _ => false
      | None => true
      end
  | _ => false
  end.

(** What the scan maintains, [seen] being the entries met so far: [max_res]
    is a pair of integers no entry met exceeds in area, and it is either
    the initial [[0, 0]], no entry met having a positive area, or an entry
    met, of positive area. *)
Definition scan_inv (seen : list (value * value)) (max_res : value * value)
  : Prop :=
  exists m,
    area_of max_res = Some m /\
    (forall p, In p seen -> exists a, area_of p = Some a /\ (a <= m)%Z) /\
    ((max_res = (VInt 0, VInt 0) /\ m = 0%Z) \/ (In max_res seen /\ (0 < m)%Z)).

(** A computation that only adds to the trace. *)
Definition extends {A} (m : prog frame A) : Prop :=
  forall fr, exists more,
    trace (outside (snd (m fr))) = trace (outside fr) ++ more.

(** The chunks of a body, end to end. *)
Definition join_chunks (cs : list string) : string :=
  fold_right String.append EmptyString cs.

(** The value a record holds under [key]. *)
Definition field (key : string) (record : value) : option value :=
  match record with
  | VDict d => dict_get key d
  | _ => None
  end.

(** A file listing with the three resolutions of the specification's
    example, over two resolution names and two formats. *)
Definition example_files_data : value :=
  VDict
    [ ("hdri", VDict
        [ ("2k", VDict
            [ ("hdr", VDict [("size", VInt 6000000);
                             ("resolution", VList [VInt 1920; VInt 1080])]);
              ("exr", VDict [("resolution", VList [VInt 3840; VInt 2160])]) ]);
          ("tiny", VDict
            [ ("jpg", VDict [("resolution", VList [VInt 100; VInt 100])]) ]) ]) ].


(** *** Runs to try the statements on *)

(** A world where nothing has happened yet. *)
Definition fresh : world := World [] ∅.

(** A disk that takes everything. *)
Definition disk_ok : disk := Disk (fun _ => true) (fun _ => None).

(** The API out of reach: every request meets a transport error. *)
Definition net_down : Harvester.network :=
  fun _ _ => Raise RequestException.


(** A small catalogue: two assets listed, one of them an HDRI, whose
    details are found under the identifier with [_4k] only, and no file
    listing. *)
Definition net_catalogue : Harvester.network :=
  fun _ url =>
    if String.eqb url listing_url then
      Ok (Harvester.Response 200
            (Ok (VDict [ ("rural_road", VDict [("type", VInt 0)]);
                         ("chair", VDict [("type", VInt 1)]) ])))
    else if String.eqb url (info_url "rural_road_4k") then
      Ok (Harvester.Response 200 (Ok (VDict [("name", VStr "Rural Road")])))
    else Ok (Harvester.Response 404 (Raise OtherException)).

Definition example_url : string :=
  "https://dl.polyhaven.org/file/ph-assets/HDRIs/hdr/4k/rural_road_4k.hdr".

(** A download origin that serves a body of two chunks. *)
Definition origin_ok : Downloader.network :=
  fun _ _ => Ok (Downloader.Response 200 ["RADIANCE"; "pixels"] None).

(** A download origin whose transfer breaks after the first chunk. *)
Definition origin_broken : Downloader.network :=
  fun _ _ => Ok (Downloader.Response 200 ["RADIANCE"] (Some RequestException)).

(** A collection of one record, with text outside ASCII. *)
Definition example_collection : value :=
  VDict
    [ ("rural_road", VDict
        [ ("name", VStr "Route de campagne, été");
          ("type", VInt 0);
          ("download_count", VInt 12345);
          ("authors", VDict [("Zoë", VStr "All")]);
          ("tags", VList [VStr "forêt"; VStr "ciel"]);
          ("max_resolution", VList [VInt 8192; VInt 4096]) ]) ].

(** *** Notions for the further properties *)

(** No ["/"] in the string. *)
Fixpoint no_slash (s : string) : bool :=
  match s with
  | EmptyString => true
  | String c t => negb (Ascii.eqb c "/") && no_slash t
  end.

(** The file [download_file] writes for [url] in [save_dir]. *)
Definition target (save_dir url : string) : string :=
  Downloader.path_join save_dir (Downloader.filename_of url).

(** The file [Downloader.main] writes for [asset]. *)
Definition asset_target (asset : string) : string :=
  "hdri_4k/" +:+ asset +:+ "_4k.hdr".

Definition is_get (e : event) : bool :=
  match e with EGet _ => true | ESleep _ => false end.

(** The requests of a trace, and its pauses. *)
Definition requests_of (tr : list event) : list event :=
  List.filter is_get tr.
Definition pauses_of (tr : list event) : list event :=
  List.filter (fun e => negb (is_get e)) tr.

(** A computation that adds at most [k] requests to the trace, no pause,
    and leaves the files alone. *)
Definition adds (k : nat) {A} (m : prog Harvester.frame A) : Prop :=
  forall fr, exists more,
    trace (Harvester.outside (snd (m fr))) =
      trace (Harvester.outside fr) ++ more /\
    files (Harvester.outside (snd (m fr))) = files (Harvester.outside fr) /\
    pauses_of more = [] /\
    length more <= k.

(** *** Further runs *)

(** A disk on which a file takes five characters and no more. *)
Definition disk_small : disk := Disk (fun _ => true) (fun _ => Some 5).

(** A disk on which no file can be opened. *)
Definition disk_locked : disk := Disk (fun _ => false) (fun _ => None).

(** A download origin out of reach. *)
Definition origin_down : Downloader.network :=
  fun _ _ => Raise RequestException.

(** An API in trouble: every request is answered 500. *)
Definition net_500 : Harvester.network :=
  fun _ _ => Ok (Harvester.Response 500 (Raise OtherException)).

(** An API whose answers are 200 with a body that is not JSON. *)
Definition net_garbled : Harvester.network :=
  fun _ _ => Ok (Harvester.Response 200 (Raise OtherException)).

(** An API that answers 404 for the details of [rural_road] and is out of
    reach for everything else. *)
Definition net_flaky : Harvester.network :=
  fun _ url =>
    if String.eqb url (Harvester.info_url "rural_road") then
      Ok (Harvester.Response 404 (Raise OtherException))
    else Raise RequestException.

Definition example_details : list (string * value) :=
  [ ("name", VStr "Rural Road");
    ("authors", VDict [("Greg Zaal", VStr "All"); ("Jarod Guest", VStr "Processing")]);
    ("download_count", VInt 12345) ].

(** An API that has the details of [rural_road] and its file listing. *)
Definition net_direct : Harvester.network :=
  fun _ url =>
    if String.eqb url (Harvester.info_url "rural_road") then
      Ok (Harvester.Response 200 (Ok (VDict example_details)))
    else if String.eqb url (Harvester.files_url "rural_road") then
      Ok (Harvester.Response 200 (Ok example_files_data))
    else Ok (Harvester.Response 404 (Raise OtherException)).

(** An API whose file listings hold a list where the resolutions should
    be. *)
Definition net_malformed : Harvester.network :=
  fun _ url =>
    if String.eqb url (Harvester.info_url "rural_road") then
      Ok (Harvester.Response 200 (Ok (VDict example_details)))
    else Ok (Harvester.Response 200 (Ok (VDict [("hdri", VList [])]))).

(** A world in which the [hdr] files of the two assets of the small
    catalogue are there. *)
Definition stocked : world :=
  World [] (<["hdri_4k/chair_4k.hdr" := "RADIANCE"]>
              (<["hdri_4k/rural_road_4k.hdr" := "RADIANCE"]> ∅)).

(** The fields of an Asset Metadata Record. *)
Definition required_fields : list string :=
  [ "name"; "type"; "date_published"; "download_count"; "files_hash";
    "authors"; "categories"; "tags"; "max_resolution"; "dimensions";
    "thumbnail_url" ].

End Notions.

(* ===================================================================== *)
(** ** The harvester: retries *)
(* ===================================================================== *)

Section HarvesterRetries.
Import Py Outside Harvester Notions.

Variable net : network.
Variable dk : disk.

Lemma retry_trace_step id n :
  retry_trace id (S (S n)) = EGet (info_url id) :: ESleep 1 :: retry_trace id (S n).
Proof. reflexivity. Qed.

(** An attempt whose detail request meets a transport error raises it, the
    request made and [asset_id] as it was. *)
Lemma get_asset_info_try_transport fr :
  net (trace (outside fr)) (info_url (asset_id fr)) = Raise RequestException ->
  get_asset_info_try net fr =
    (Raise RequestException,
     Frame (asset_id fr)
           (World (trace (outside fr) ++ [EGet (info_url (asset_id fr))])
                  (files (outside fr)))).
Proof.
  intros H.
  unfold get_asset_info_try, request_info, get_asset_id, io, requests_get.
  unfold mbind, prog_bind. cbn. rewrite H. reflexivity.
Qed.

Lemma get_asset_info_loop_transport id max_retries :
  (forall tr, net tr (info_url id) = Raise RequestException) ->
  forall (k : nat) (a : Z) tr fs,
    (a + Z.of_nat k)%Z = max_retries ->
    get_asset_info_loop net (seqZ a (Z.of_nat k)) max_retries
                        (Frame id (World tr fs)) =
      (Ok None, Frame id (World (tr ++ retry_trace id k) fs)).
Proof.
  intros Hnet k. induction k as [|k IH]; intros a tr fs Ha.
  - cbn. rewrite app_nil_r. reflexivity.
  - rewrite seqZ_cons by lia.
    replace (Z.pred (Z.of_nat (S k))) with (Z.of_nat k) by lia.
    cbn [get_asset_info_loop].
    rewrite get_asset_info_try_transport by apply Hnet.
    cbn [asset_id outside trace files].
    destruct k as [|k].
    + replace (a =? max_retries - 1)%Z with true by (symmetry; apply Z.eqb_eq; lia).
      reflexivity.
    + replace (a =? max_retries - 1)%Z with false by (symmetry; apply Z.eqb_neq; lia).
      unfold mbind, prog_bind, io, sleep, log.
      cbn -[retry_trace seqZ get_asset_info_loop Z.of_nat].
      replace (Z.succ a) with (a + 1)%Z by lia.
      rewrite IH by lia.
      rewrite retry_trace_step. rewrite <- !app_assoc. reflexivity.
Qed.

End HarvesterRetries.

Section PyFacts.
Import Py.

Lemma dict_keys_set k x v d :
  In k (dict_keys (dict_set x v d)) <-> k = x \/ In k (dict_keys d).
Proof.
  unfold dict_keys. induction d as [|[k' v'] d IH]; cbn.
  - intuition.
  - destruct (String.eqb x k') eqn:E; cbn.
    + apply String.eqb_eq in E. subst. intuition.
    + rewrite IH. intuition.
Qed.

Lemma append_nil_r s : s +:+ EmptyString = s.
Proof.
  induction s as [|c s IH]; [reflexivity|].
  change (String c (s +:+ EmptyString) = String c s). f_equal. exact IH.
Qed.

Lemma append_assoc s1 s2 s3 : (s1 +:+ s2) +:+ s3 = s1 +:+ (s2 +:+ s3).
Proof.
  induction s1 as [|c s IH]; [reflexivity|].
  change (String c ((s +:+ s2) +:+ s3) = String c (s +:+ (s2 +:+ s3))).
  f_equal. exact IH.
Qed.

Lemma append_cons c s1 s2 : String c s1 +:+ s2 = String c (s1 +:+ s2).
Proof. reflexivity. Qed.

Lemma length_append s1 s2 :
  String.length (s1 +:+ s2) = (String.length s1 + String.length s2)%nat.
Proof.
  induction s1 as [|c s IH]; [reflexivity|].
  rewrite append_cons. cbn [String.length]. rewrite IH. reflexivity.
Qed.

Lemma prog_bind_eq {S A B} (m : prog S A) (k : A -> prog S B) (s : S) :
  (m ≫= k) s =
    match m s with
    | (Ok a, s') => k a s'
    | (Raise e, s') => (Raise e, s')
    end.
Proof. reflexivity. Qed.

End PyFacts.

Section HarvesterRuns.
Import Py Outside Harvester Notions.

Variable net : network.
Variable dk : disk.

(** No exception leaves [get_asset_info]. *)
Lemma get_asset_info_loop_returns attempts max_retries fr :
  exists r fr', get_asset_info_loop net attempts max_retries fr = (Ok r, fr').
Proof.
  revert fr. induction attempts as [|a rest IH]; intros fr; cbn.
  - eauto.
  - destruct (get_asset_info_try net fr) as [[r|[]] fr']; eauto.
    destruct (a =? max_retries - 1)%Z; eauto.
    rewrite prog_bind_eq. cbn. apply IH.
Qed.

Lemma get_asset_info_returns id max_retries w :
  exists r w', get_asset_info net id max_retries w = (Ok r, w').
Proof.
  unfold get_asset_info.
  destruct (get_asset_info_loop_returns (seqZ 0 max_retries) max_retries
              (Frame id w)) as (r & fr' & ->).
  eauto.
Qed.

Lemma process_asset_returns acc id w :
  exists acc' w',
    process_asset net acc id w = (Ok acc', w') /\
    (acc' = acc \/ exists info, acc' = dict_set id info acc).
Proof.
  unfold process_asset. rewrite prog_bind_eq.
  destruct (get_asset_info_returns id 3 w) as (r & w' & ->).
  rewrite prog_bind_eq. cbn.
  do 2 eexists. split; [reflexivity|].
  destruct r as [info|]; [destruct (truthy info)|]; eauto.
Qed.

Lemma process_assets_returns ids : forall acc w,
  exists acc' w',
    process_assets net ids acc w = (Ok acc', w') /\
    forall k, In k (dict_keys acc') -> In k (dict_keys acc) \/ In k ids.
Proof.
  induction ids as [|id rest IH]; intros acc w; cbn [process_assets].
  - do 2 eexists. split; [reflexivity|]. auto.
  - rewrite prog_bind_eq.
    destruct (process_asset_returns acc id w) as (acc1 & w1 & -> & Hacc).
    destruct (IH acc1 w1) as (acc2 & w2 & -> & Hk).
    do 2 eexists. split; [reflexivity|].
    intros k Hin. destruct (Hk k Hin) as [H|H]; [|right; right; exact H].
    destruct Hacc as [->|[info ->]]; [auto|].
    apply dict_keys_set in H. destruct H as [->|H]; [right; left|]; auto.
Qed.

End HarvesterRuns.

Section ListingFacts.
Import Py Outside Harvester Notions.

Variable net : network.
Variable dk : disk.

Lemma dict_set_values k x v v' d :
  In (k, v') (dict_set x v d) -> In (k, v') d \/ (k = x /\ v' = v).
Proof.
  induction d as [|[k0 v0] d IH]; cbn.
  - intros [H|[]]. inversion H; subst. right; done.
  - destruct (String.eqb x k0) eqn:E; cbn.
    + intros [H|H]; [inversion H; subst; right; done|]. left; right; exact H.
    + intros [H|H]; [left; left; exact H|]. destruct (IH H) as [H'|H']; [left; right; exact H'|right; exact H'].
Qed.

Lemma dict_set_NoDup x v d :
  List.NoDup (dict_keys d) -> List.NoDup (dict_keys (dict_set x v d)).
Proof.
  unfold dict_keys. induction d as [|[k0 v0] d IH]; cbn; intros H.
  - constructor; [intros []|constructor].
  - inversion H as [|? ? Hnotin Hnd]; subst.
    destruct (String.eqb x k0) eqn:E; cbn.
    + apply String.eqb_eq in E. subst. constructor; assumption.
    + constructor; [|apply IH; assumption].
      intros Hin. apply (dict_keys_set k0 x v d) in Hin.
      destruct Hin as [->|Hin]; [|contradiction].
      rewrite String.eqb_refl in E. discriminate.
Qed.

Lemma filter_hdri_fold all_assets : forall acc,
  let r := fold_left keep_hdri all_assets acc in
  (forall k, In k (dict_keys r) <->
             In k (dict_keys acc) \/
             exists data, In (k, data) all_assets /\ is_hdri data = true) /\
  (forall k v, In (k, v) r -> In (k, v) acc \/ v = VStr "hdri") /\
  (List.NoDup (dict_keys acc) -> List.NoDup (dict_keys r)).
Proof.
  induction all_assets as [|[id data] rest IH]; intros acc; cbn.
  - split; [|split]; auto.
    intros k. split; auto. intros [H|(d & [] & _)]. exact H.
  - destruct (IH (keep_hdri acc (id, data))) as (Hk & Hv & Hnd).
    split; [|split].
    + intros k. rewrite Hk. unfold keep_hdri.
      destruct (is_hdri data) eqn:E.
      * rewrite dict_keys_set. split.
        -- intros [[->|H]|(d & H & Hd)]; eauto.
        -- intros [H|(d & [H|H] & Hd)]; eauto.
           inversion H; subst. auto.
      * split.
        -- intros [H|(d & H & Hd)]; eauto.
        -- intros [H|(d & [H|H] & Hd)]; eauto.
           inversion H; subst. congruence.
    + intros k v H. apply Hv in H. destruct H as [H|H]; auto.
      unfold keep_hdri in H. destruct (is_hdri data); auto.
      apply dict_set_values in H. destruct H as [H|[_ H]]; auto.
    + intros H. apply Hnd. unfold keep_hdri.
      destruct (is_hdri data); auto using dict_set_NoDup.
Qed.

End ListingFacts.

Section HarvesterMain.
Import Py Outside Harvester Notions.

Variable net : network.
Variable dk : disk.

(** A listing that goes through: the response has no error status and
    its body is a JSON object; the result is the filtered dict. *)
Lemma get_asset_list_try_ok w v w' :
  get_asset_list_try net w = (Ok v, w') ->
  exists r all_assets,
    net (trace w) listing_url = Ok r /\
    raise_for_status r = Ok tt /\
    json r = Ok (VDict all_assets) /\
    v = VDict (filter_hdri all_assets) /\
    w' = World (trace w ++ [EGet listing_url]) (files w).
Proof.
  unfold get_asset_list_try. rewrite prog_bind_eq. unfold requests_get.
  destruct (net (trace w) listing_url) as [r|e] eqn:Hr; [|discriminate].
  rewrite prog_bind_eq. unfold lift at 1.
  destruct (raise_for_status r) as [[]|e] eqn:Hs; [|discriminate].
  rewrite prog_bind_eq. unfold lift at 1.
  destruct (json r) as [all_assets|e] eqn:Hj; [|discriminate].
  rewrite prog_bind_eq. unfold lift at 1.
  destruct all_assets; cbn; try discriminate.
  intros H. inversion H; subst.
  exists r, d. repeat split; assumption.
Qed.

(** [get_asset_list] returns a dict, or the empty list. *)
Lemma get_asset_list_shape w :
  exists r w', get_asset_list net w = (Ok r, w') /\
               (r = VList [] \/ exists d, r = VDict d).
Proof.
  unfold get_asset_list.
  destruct (get_asset_list_try net w) as [[v|e] w'] eqn:E; [|eauto 10].
  apply get_asset_list_try_ok in E. destruct E as (r & a & _ & _ & _ & -> & _).
  eauto 10.
Qed.

Lemma main_inv w d :
  fst (main net dk w) = Ok (Some (VDict d)) ->
  exists listing w1 w2,
    get_asset_list net w = (Ok (VDict listing), w1) /\
    process_assets net (take 843 (dict_keys listing)) [] w1 = (Ok d, w2).
Proof.
  unfold main. rewrite prog_bind_eq.
  destruct (get_asset_list_shape w) as (r & w1 & E & [->|(listing & ->)]);
    rewrite E.
  - cbn. discriminate.
  - destruct (truthy (VDict listing)); cbn [negb]; [|cbn; discriminate].
    rewrite prog_bind_eq. cbn [lift items].
    rewrite prog_bind_eq.
    destruct (process_assets_returns net (take 843 (dict_keys listing)) [] w1)
      as (acc & w2 & E2 & _).
    rewrite E2. rewrite prog_bind_eq.
    intros H. exists listing, w1, w2. split; [reflexivity|].
    destruct (truthy (VDict acc)).
    + unfold save_to_json in H.
      destruct (save_to_json_try dk (VDict acc) _ w2) as [[b|e] w3];
        cbn in H; congruence.
    + cbn in H. congruence.
Qed.

End HarvesterMain.

Section TransportErrors.
Import Py Outside Harvester Notions.

Variable net : network.
Variable dk : disk.
Variable id : string.
Hypothesis Hnet : forall tr, net tr (info_url id) = Raise RequestException.

Lemma get_asset_info_transport max_retries w :
  get_asset_info net id max_retries w =
    (Ok None,
     World (trace w ++ retry_trace id (Z.to_nat max_retries)) (files w)).
Proof.
  unfold get_asset_info. destruct w as [tr fs].
  destruct (Z.le_gt_cases max_retries 0) as [Hle|Hgt].
  - rewrite seqZ_nil by lia.
    replace (Z.to_nat max_retries) with 0%nat by lia.
    cbn. rewrite app_nil_r. reflexivity.
  - rewrite <- (Z2Nat.id max_retries) at 1 by lia.
    rewrite (get_asset_info_loop_transport net id max_retries Hnet) by lia.
    reflexivity.
Qed.

Lemma process_asset_transport acc w :
  process_asset net acc id w =
    (Ok acc, World (trace w ++ retry_trace id 3 ++ [ESleep 1]) (files w)).
Proof.
  unfold process_asset. rewrite prog_bind_eq, get_asset_info_transport.
  rewrite prog_bind_eq. cbn. rewrite <- !app_assoc. reflexivity.
Qed.

Lemma process_assets_skip ids : forall acc w acc' w',
  ~ In id (dict_keys acc) ->
  process_assets net ids acc w = (Ok acc', w') ->
  ~ In id (dict_keys acc').
Proof.
  induction ids as [|x rest IH]; intros acc w acc' w' Hacc; cbn [process_assets].
  - intros H. inversion H; subst. exact Hacc.
  - rewrite prog_bind_eq.
    destruct (process_asset_returns net acc x w) as (acc1 & w1 & E & Hacc1).
    rewrite E. apply IH.
    destruct Hacc1 as [->|[info ->]]; [exact Hacc|].
    rewrite dict_keys_set. intros [Heq|H]; [|contradiction]. subst x.
    rewrite process_asset_transport in E. inversion E as [[Hd Hw]].
    apply Hacc. rewrite Hd. apply dict_keys_set. left. reflexivity.
Qed.

End TransportErrors.

Section SuccessfulFetch.
Import Py Outside Harvester Notions.

Variable net : network.

(** What a successful attempt went through: the detail request for [aid],
    which is the identifier the attempt started with or that identifier
    with [_4k] appended, answered by a JSON body [data]; the file listing
    requested for [aid]; the scan, the authors and the record. *)
Lemma get_asset_info_try_Some fr fr' info :
  get_asset_info_try net fr = (Ok (Some info), fr') ->
  exists aid tr r data tr' files_response files_data max_res authors,
    (aid = asset_id fr \/ aid = asset_id fr +:+ "_4k") /\
    net tr (info_url aid) = Ok r /\
    json r = Ok data /\
    net tr' (files_url aid) = Ok files_response /\
    (if (status_code files_response =? 200)%Z
     then json files_response else Ok (VDict [])) = Ok files_data /\
    scan_max_res files_data = Ok max_res /\
    collect_authors data = Ok authors /\
    format_asset_info aid data authors max_res = Ok info.
Proof.
  destruct fr as [id0 [tr0 fs0]].
  unfold get_asset_info_try. rewrite prog_bind_eq.
  assert (Hsel : exists aid tr fr1,
    request_info net (Frame id0 (World tr0 fs0)) =
      (net tr (info_url aid), fr1) /\
    asset_id fr1 = aid /\
    (aid = id0 \/ aid = id0 +:+ "_4k")).
  { unfold request_info, get_asset_id, set_asset_id, io, requests_get.
    unfold mbind, prog_bind. cbn.
    destruct (net tr0 (info_url id0)) as [r1|e] eqn:Hr1.
    - destruct (status_code r1 =? 404)%Z.
      + exists (id0 +:+ "_4k"), (tr0 ++ [EGet (info_url id0)]).
        eexists. cbn. split; [reflexivity|]. auto.
      + exists id0, tr0. eexists. cbn. rewrite Hr1. auto.
    - exists id0, tr0. eexists. rewrite Hr1. auto. }
  destruct Hsel as (aid & tr & fr1 & -> & Haid & Hor).
  destruct (net tr (info_url aid)) as [r2|e] eqn:Hr2; [|discriminate].
  unfold build_asset_info.
  destruct (status_code r2 =? 404)%Z; [discriminate|].
  rewrite prog_bind_eq. unfold lift at 1.
  destruct (raise_for_status r2) as [[]|e]; [|discriminate].
  rewrite prog_bind_eq. unfold lift at 1.
  destruct (json r2) as [data|e] eqn:Hdata; [|discriminate].
  rewrite prog_bind_eq. cbn [get_asset_id]. rewrite Haid.
  rewrite prog_bind_eq. unfold io at 1, requests_get at 1.
  destruct (net (trace (outside fr1)) (files_url aid)) as [fresp|e] eqn:Hf;
    [|discriminate].
  rewrite prog_bind_eq. unfold lift at 1.
  destruct (if (status_code fresp =? 200)%Z then json fresp else Ok (VDict []))
    as [files_data|e] eqn:Hfd; [|discriminate].
  rewrite prog_bind_eq. unfold lift at 1.
  destruct (scan_max_res files_data) as [max_res|e] eqn:Hscan; [|discriminate].
  rewrite prog_bind_eq. unfold lift at 1.
  destruct (collect_authors data) as [authors|e] eqn:Hauth; [|discriminate].
  rewrite prog_bind_eq. unfold lift at 1.
  destruct (format_asset_info aid data authors max_res) as [info'|e] eqn:Hfmt;
    [|discriminate].
  cbn. intros H. inversion H; subst info'.
  exists aid, tr, r2, data, (trace (outside fr1)), fresp, files_data, max_res, authors.
  repeat split; try assumption.
Qed.

End SuccessfulFetch.

Section Scan.
Import Py Outside Harvester Notions.

Lemma scan_inv_init : scan_inv [] (VInt 0, VInt 0).
Proof.
  exists 0%Z. split; [reflexivity|]. split; [intros p []|]. left. auto.
Qed.

Lemma scan_inv_more seen more max_res :
  more = [] -> scan_inv seen max_res -> scan_inv (seen ++ more) max_res.
Proof. intros ->. rewrite app_nil_r. auto. Qed.

Lemma scan_file_inv seen max_res file_info max_res' :
  scan_inv seen max_res ->
  scan_file max_res file_info = Ok max_res' ->
  scan_inv (seen ++ file_resolutions file_info) max_res'.
Proof.
  intros Hinv. unfold scan_file, file_resolutions.
  destruct file_info as [| | | s | l | fields]; cbn; try discriminate.
  - destruct (str_contains "resolution" s); cbn; [discriminate|].
    intros H; inversion H; subst. apply scan_inv_more; auto.
  - destruct (existsb _ l); cbn; [discriminate|].
    intros H; inversion H; subst. apply scan_inv_more; auto.
  - destruct (dict_get "resolution" fields) as [r|]; cbn;
      [|intros H; inversion H; subst; apply scan_inv_more; auto].
    destruct (truthy r);
      [|cbn; intros H; inversion H; subst; apply scan_inv_more; auto].
    destruct (unpack2 r) as [[w h]|e]; cbn; [|discriminate].
    unfold larger_area, mul_gt.
    destruct Hinv as (m & Hm & Hle & Hcase).
    pose proof Hm as Hm'. unfold area_of in Hm'.
    destruct (as_int (fst max_res)) as [m0|]; [|discriminate].
    destruct (as_int (snd max_res)) as [m1|]; [|discriminate].
    inversion Hm'; subst m. clear Hm'.
    destruct (as_int w) as [a|] eqn:Hw; [|discriminate].
    destruct (as_int h) as [b|] eqn:Hh; [|discriminate].
    cbn. intros H; inversion H; subst max_res'. clear H.
    assert (Hwh : area_of (w, h) = Some (a * b)%Z)
      by (unfold area_of; cbn; rewrite Hw, Hh; reflexivity).
    destruct (Z.ltb_spec (m0 * m1) (a * b)) as [Hlt|Hge].
    + exists (a * b)%Z. split; [exact Hwh|]. split.
      * intros p Hp. apply in_app_or in Hp. destruct Hp as [Hp|[<-|[]]].
        -- destruct (Hle p Hp) as (x & Hx & Hxm). exists x. split; [exact Hx|lia].
        -- exists (a * b)%Z. split; [exact Hwh|lia].
      * right. split; [apply in_or_app; right; left; reflexivity|].
        destruct Hcase as [[_ H0]|[_ H0]]; lia.
    + exists (m0 * m1)%Z. split; [exact Hm|]. split.
      * intros p Hp. apply in_app_or in Hp. destruct Hp as [Hp|[<-|[]]].
        -- apply Hle, Hp.
        -- exists (a * b)%Z. split; [exact Hwh|lia].
      * destruct Hcase as [H0|[Hin H0]]; [left; exact H0|].
        right. split; [apply in_or_app; left; exact Hin|exact H0].
Qed.

Lemma scan_files_inv file_infos : forall seen max_res max_res',
  scan_inv seen max_res ->
  for_each scan_file file_infos max_res = Ok max_res' ->
  scan_inv (seen ++ flat_map file_resolutions file_infos) max_res'.
Proof.
  induction file_infos as [|fi rest IH]; intros seen max_res max_res' Hinv; cbn.
  - intros H; inversion H; subst. rewrite app_nil_r. exact Hinv.
  - destruct (scan_file max_res fi) as [mr1|e] eqn:E; cbn; [|discriminate].
    intros H. rewrite app_assoc. eapply IH; [|exact H].
    eapply scan_file_inv; eassumption.
Qed.

Lemma flat_map_snd {A B C} (f : B -> list C) (l : list (A * B)) :
  flat_map f (map snd l) = flat_map (fun e => f (snd e)) l.
Proof. induction l as [|x l IH]; cbn; [reflexivity|]. rewrite IH. reflexivity. Qed.

Lemma scan_formats_inv seen max_res entry max_res' :
  scan_inv seen max_res ->
  scan_formats max_res entry = Ok max_res' ->
  scan_inv (seen ++ formats_resolutions (snd entry)) max_res'.
Proof.
  intros Hinv. unfold scan_formats, formats_resolutions.
  destruct (snd entry); cbn; try discriminate.
  intros H. rewrite <- flat_map_snd. eapply scan_files_inv; eassumption.
Qed.

Lemma scan_by_res_inv by_res : forall seen max_res max_res',
  scan_inv seen max_res ->
  for_each scan_formats by_res max_res = Ok max_res' ->
  scan_inv (seen ++ flat_map (fun e => formats_resolutions (snd e)) by_res)
           max_res'.
Proof.
  induction by_res as [|e rest IH]; intros seen max_res max_res' Hinv; cbn.
  - intros H; inversion H; subst. rewrite app_nil_r. exact Hinv.
  - destruct (scan_formats max_res e) as [mr1|x] eqn:E; cbn; [|discriminate].
    intros H. rewrite app_assoc. eapply IH; [|exact H].
    eapply scan_formats_inv; eassumption.
Qed.

Lemma scan_max_res_inv files_data max_res :
  scan_max_res files_data = Ok max_res ->
  scan_inv (listed_resolutions files_data) max_res.
Proof.
  unfold scan_max_res, listed_resolutions.
  destruct files_data as [| | | s | l | d]; cbn; try discriminate.
  - destruct (str_contains "hdri" s); cbn; [discriminate|].
    intros H; inversion H; subst. apply scan_inv_init.
  - destruct (existsb _ l); cbn; [discriminate|].
    intros H; inversion H; subst. apply scan_inv_init.
  - destruct (dict_get "hdri" d) as [hdri|]; cbn;
      [|intros H; inversion H; subst; apply scan_inv_init].
    destruct hdri; cbn; try discriminate.
    intros H. apply (scan_by_res_inv _ [] _ _ scan_inv_init H).
Qed.

End Scan.

Section ScanReturns.
Import Py Outside Harvester Notions.

Lemma scan_file_returns max_res file_info :
  wf_file_info file_info = true ->
  is_Some (area_of max_res) ->
  exists max_res', scan_file max_res file_info = Ok max_res' /\
                   is_Some (area_of max_res').
Proof.
  intros Hwf Hmr. unfold scan_file.
  destruct file_info as [| | | | |fields]; try discriminate. cbn in *.
  destruct (dict_get "resolution" fields) as [r|]; cbn; [|eauto].
  unfold wf_resolution in Hwf.
  destruct (truthy r); cbn in *; [|eauto].
  destruct r as [| | | |[|a [|b [|c l]]]|]; try discriminate. cbn.
  destruct (as_int a) as [x|] eqn:Ha; [|discriminate].
  destruct (as_int b) as [y|] eqn:Hb; [|discriminate].
  unfold larger_area, mul_gt. rewrite Ha, Hb.
  destruct Hmr as [m Hm]. unfold area_of in Hm.
  destruct (as_int (fst max_res)) as [m0|] eqn:H0; [|discriminate].
  destruct (as_int (snd max_res)) as [m1|] eqn:H1; [|discriminate].
  cbn. eexists. split; [reflexivity|].
  destruct (m0 * m1 <? x * y)%Z.
  - unfold area_of. cbn. rewrite Ha, Hb. eauto.
  - unfold area_of. rewrite H0, H1. eauto.
Qed.

Lemma scan_files_returns file_infos : forall max_res,
  forallb wf_file_info file_infos = true ->
  is_Some (area_of max_res) ->
  exists max_res', for_each scan_file file_infos max_res = Ok max_res' /\
                   is_Some (area_of max_res').
Proof.
  induction file_infos as [|fi rest IH]; intros max_res Hwf Hmr; cbn in *.
  - eauto.
  - apply andb_prop in Hwf. destruct Hwf as [Hfi Hrest].
    destruct (scan_file_returns max_res fi Hfi Hmr) as (mr1 & -> & Hmr1).
    cbn. apply IH; assumption.
Qed.

Lemma forallb_snd {A B} (f : B -> bool) (l : list (A * B)) :
  forallb f (map snd l) = forallb (fun e => f (snd e)) l.
Proof. induction l as [|x l IH]; cbn; [reflexivity|]. rewrite IH. reflexivity. Qed.

Lemma scan_by_res_returns by_res : forall max_res,
  forallb (fun e => wf_formats (snd e)) by_res = true ->
  is_Some (area_of max_res) ->
  exists max_res', for_each scan_formats by_res max_res = Ok max_res' /\
                   is_Some (area_of max_res').
Proof.
  induction by_res as [|e rest IH]; intros max_res Hwf Hmr; cbn in *.
  - eauto.
  - apply andb_prop in Hwf. destruct Hwf as [He Hrest].
    unfold scan_formats at 1. unfold wf_formats in He.
    destruct (snd e) as [| | | | |file_infos]; try discriminate. cbn.
    rewrite <- forallb_snd in He.
    destruct (scan_files_returns _ max_res He Hmr) as (mr1 & -> & Hmr1).
    cbn. apply IH; assumption.
Qed.

Lemma scan_max_res_returns files_data :
  wf_files_data files_data = true ->
  exists max_res, scan_max_res files_data = Ok max_res.
Proof.
  unfold wf_files_data, scan_max_res.
  destruct files_data as [| | | | |d]; try discriminate. cbn.
  destruct (dict_get "hdri" d) as [hdri|]; cbn; [|eauto].
  destruct hdri as [| | | | |by_res]; try discriminate. cbn.
  intros Hwf.
  destruct (scan_by_res_returns by_res (VInt 0, VInt 0) Hwf) as (mr & -> & _);
    eauto.
Qed.

End ScanReturns.

Section Record.
Import Py Outside Harvester Notions.

Variable net : network.

Lemma get_asset_info_loop_Some attempts max_retries : forall fr fr' info,
  get_asset_info_loop net attempts max_retries fr = (Ok (Some info), fr') ->
  exists fr0, get_asset_info_try net fr0 = (Ok (Some info), fr').
Proof.
  induction attempts as [|a rest IH]; intros fr fr' info; cbn.
  - discriminate.
  - destruct (get_asset_info_try net fr) as [[r|[]] fr1] eqn:E.
    + intros H. inversion H; subst. eauto.
    + destruct (a =? max_retries - 1)%Z; [discriminate|].
      rewrite prog_bind_eq. cbn. apply IH.
    + discriminate.
Qed.

Lemma get_asset_info_Some id max_retries w info w' :
  get_asset_info net id max_retries w = (Ok (Some info), w') ->
  exists fr0 fr', get_asset_info_try net fr0 = (Ok (Some info), fr').
Proof.
  unfold get_asset_info.
  destruct (get_asset_info_loop net _ max_retries _) as [r fr'] eqn:E.
  intros H. inversion H; subst.
  apply get_asset_info_loop_Some in E. destruct E as [fr0 E]. eauto.
Qed.

(** The record, field by field. *)
Lemma format_asset_info_ok aid data authors max_res info :
  format_asset_info aid data authors max_res = Ok info ->
  exists fields,
    data = VDict fields /\
    info = VDict
      [ ("name", default (VStr (title (replace_char "_" " " aid)))
                         (dict_get "name" fields));
        ("type", VInt 0);
        ("date_published", default (VInt 0) (dict_get "date_published" fields));
        ("download_count", default (VInt 0) (dict_get "download_count" fields));
        ("files_hash", default (VStr EmptyString) (dict_get "files_hash" fields));
        ("authors", if truthy (VDict authors) then VDict authors
                    else VDict [("Unknown", VStr "All")]);
        ("categories", default (VList []) (dict_get "categories" fields));
        ("tags", default (VList []) (dict_get "tags" fields));
        ("max_resolution",
           if eq_int (fst max_res) 0 && eq_int (snd max_res) 0
           then VList [VInt 8192; VInt 4096]
           else VList [fst max_res; snd max_res]);
        ("dimensions", VList [VInt 30000; VInt 30000]);
        ("thumbnail_url", default (VStr (default_thumbnail aid))
                                  (dict_get "thumbnail_url" fields)) ].
Proof.
  unfold format_asset_info.
  destruct data as [| | | | |fields]; try discriminate.
  cbn. intros H. inversion H; subst. exists fields.
  split; [reflexivity|].
  repeat match goal with
         | |- context [dict_get ?k fields] => destruct (dict_get k fields)
         end; reflexivity.
Qed.

Lemma collect_authors_omitted fields authors :
  dict_get "authors" fields = None ->
  collect_authors (VDict fields) = Ok authors -> authors = [].
Proof.
  unfold collect_authors. cbn. intros ->. cbn.
  unfold mret, result_ret. congruence.
Qed.

End Record.

Section Traces.
Import Py Outside Harvester Notions.

Variable net : network.

Lemma extends_bind {A B} (m : prog frame A) (k : A -> prog frame B) :
  extends m -> (forall a, extends (k a)) -> extends (m ≫= k).
Proof.
  intros Hm Hk fr. rewrite prog_bind_eq.
  destruct (Hm fr) as [more1 H1].
  destruct (m fr) as [[a|e] fr1]; cbn in H1.
  - destruct (Hk a fr1) as [more2 H2].
    exists (more1 ++ more2). rewrite H2, H1, app_assoc. reflexivity.
  - exists more1. exact H1.
Qed.

Lemma extends_ret {A} (a : A) : extends (mret a).
Proof. intros fr. exists []. cbn. rewrite app_nil_r. reflexivity. Qed.

Lemma extends_lift {A} (r : result A) : extends (lift r).
Proof. intros fr. exists []. cbn. rewrite app_nil_r. reflexivity. Qed.

Lemma extends_get_asset_id : extends get_asset_id.
Proof. intros fr. exists []. cbn. rewrite app_nil_r. reflexivity. Qed.

Lemma extends_set_asset_id new_id : extends (set_asset_id new_id).
Proof. intros fr. exists []. cbn. rewrite app_nil_r. reflexivity. Qed.

Lemma extends_requests_get url : extends (io (requests_get net url)).
Proof. intros fr. exists [EGet url]. reflexivity. Qed.

Lemma extends_sleep secs : extends (io (sleep secs)).
Proof. intros fr. exists [ESleep secs]. reflexivity. Qed.

Lemma extends_if {A} (b : bool) (m1 m2 : prog frame A) :
  extends m1 -> extends m2 -> extends (if b then m1 else m2).
Proof. destruct b; auto. Qed.

End Traces.

Create HintDb extends_db.
#[local] Hint Resolve extends_ret extends_lift extends_get_asset_id
  extends_set_asset_id extends_requests_get extends_sleep : extends_db.

Ltac extends_tac :=
  repeat first
    [ solve [auto with extends_db]
    | apply extends_bind
    | apply extends_if
    | match goal with |- forall _, Notions.extends _ => intro end ].

Section TraceOfAttempts.
Import Py Outside Harvester Notions.

Variable net : network.

Lemma extends_build_asset_info r : extends (build_asset_info net r).
Proof. unfold build_asset_info. extends_tac. Qed.

Lemma extends_try : extends (get_asset_info_try net).
Proof.
  unfold get_asset_info_try, request_info.
  pose proof extends_build_asset_info. extends_tac.
Qed.

Lemma extends_loop attempts max_retries :
  extends (get_asset_info_loop net attempts max_retries).
Proof.
  induction attempts as [|a rest IH]; cbn.
  - apply extends_ret.
  - intros fr. destruct (extends_try fr) as [more1 H1].
    destruct (get_asset_info_try net fr) as [[r|[]] fr1]; cbn in H1;
      try (exists more1; exact H1).
    destruct (a =? max_retries - 1)%Z; [exists more1; exact H1|].
    destruct (extends_bind (io (sleep 1))
                (fun _ => get_asset_info_loop net rest max_retries)
                (extends_sleep 1) (fun _ => IH) fr1) as [more2 H2].
    exists (more1 ++ more2). rewrite H2, H1, app_assoc. reflexivity.
Qed.

End TraceOfAttempts.

Section NotFound.
Import Py Outside Harvester Notions.

Variable net : network.

(** An attempt whose detail request is answered 404 asks next for the
    identifier with [_4k] appended; a second 404 ends the attempt with
    [None], these two requests made and nothing else. *)
Lemma get_asset_info_try_404 id tr fs r1 :
  net tr (info_url id) = Ok r1 ->
  status_code r1 = 404%Z ->
  (exists more,
     trace (outside (snd (get_asset_info_try net (Frame id (World tr fs))))) =
       tr ++ [EGet (info_url id); EGet (info_url (id +:+ "_4k"))] ++ more) /\
  (forall r2,
     net (tr ++ [EGet (info_url id)]) (info_url (id +:+ "_4k")) = Ok r2 ->
     status_code r2 = 404%Z ->
     get_asset_info_try net (Frame id (World tr fs)) =
       (Ok None,
        Frame (id +:+ "_4k")
              (World (tr ++ [EGet (info_url id); EGet (info_url (id +:+ "_4k"))])
                     fs))).
Proof.
  intros Hr1 Hs1.
  assert (Hreq : request_info net (Frame id (World tr fs)) =
    (net (tr ++ [EGet (info_url id)]) (info_url (id +:+ "_4k")),
     Frame (id +:+ "_4k")
           (World (tr ++ [EGet (info_url id); EGet (info_url (id +:+ "_4k"))])
                  fs))).
  { unfold request_info, get_asset_id, set_asset_id, io, requests_get.
    unfold mbind, prog_bind. cbn. rewrite Hr1, Hs1. cbn.
    rewrite <- !app_assoc. reflexivity. }
  unfold get_asset_info_try. rewrite prog_bind_eq, Hreq. split.
  - destruct (net (tr ++ [EGet (info_url id)]) (info_url (id +:+ "_4k")))
      as [r2|e].
    + destruct (extends_build_asset_info net r2
                  (Frame (id +:+ "_4k")
                     (World (tr ++ [EGet (info_url id);
                                    EGet (info_url (id +:+ "_4k"))]) fs)))
        as [more HM].
      exists more. rewrite HM. cbn. rewrite <- ?app_assoc. reflexivity.
    + exists []. cbn. rewrite ?app_nil_r. reflexivity.
  - intros r2 Hr2 Hs2. rewrite Hr2. unfold build_asset_info. rewrite Hs2.
    reflexivity.
Qed.

End NotFound.

(* ===================================================================== *)
(** ** The harvester: the claims *)
(* ===================================================================== *)

Section HarvesterClaims.
Import Py Outside Harvester Notions.

(** C1. When every request for the details of [id] meets a transport
    error, [get_asset_info] makes [max_retries] requests, a pause of one
    second between two of them, and returns [None] without raising; in
    [main] the loop goes on with the next identifier, its collection as it
    was, and the final collection has no key [id]. *)
Theorem transport_errors_exhaust_retries (net : network) (dk : disk) (id : string) :
  (forall tr, net tr (info_url id) = Raise RequestException) ->
  (forall max_retries w,
     get_asset_info net id max_retries w =
       (Ok None,
        World (trace w ++ retry_trace id (Z.to_nat max_retries)) (files w))) /\
  (forall rest acc w,
     process_assets net (id :: rest) acc w =
     process_assets net rest acc
       (World (trace w ++ retry_trace id 3 ++ [ESleep 1]) (files w))) /\
  (forall w d,
     fst (main net dk w) = Ok (Some (VDict d)) -> ~ In id (dict_keys d)).
Proof.
  intros Hnet. split; [|split].
  - intros max_retries w. apply get_asset_info_transport, Hnet.
  - intros rest acc w. cbn [process_assets]. rewrite prog_bind_eq.
    rewrite (process_asset_transport net id Hnet). reflexivity.
  - intros w d H. apply main_inv in H.
    destruct H as (listing & w1 & w2 & _ & H).
    eapply (process_assets_skip net id Hnet); [|exact H]. intros [].
Qed.


(** C10. Every key of the collection [main] returns is among the first 843
    identifiers of the listing, in its order; and whatever identifier the
    details were found under, the loop stores a record under the
    identifier it took from the listing. *)
Theorem collection_keys_from_listing (net : network) (dk : disk) :
  (forall w d,
     fst (main net dk w) = Ok (Some (VDict d)) ->
     exists listing w1,
       get_asset_list net w = (Ok (VDict listing), w1) /\
       forall k, In k (dict_keys d) -> In k (take 843 (dict_keys listing))) /\
  (forall acc id w info w',
     get_asset_info net id 3 w = (Ok (Some info), w') ->
     fst (process_asset net acc id w) = Ok (dict_set id info acc)).
Proof.
  split.
  - intros w d H. apply main_inv in H.
    destruct H as (listing & w1 & w2 & Hl & Hp).
    exists listing, w1. split; [exact Hl|].
    destruct (process_assets_returns net (take 843 (dict_keys listing)) [] w1)
      as (acc' & w' & E & Hk).
    rewrite Hp in E. inversion E; subst acc' w'.
    intros k Hin. destruct (Hk k Hin) as [[]|H]. exact H.
  - intros acc id w info w' H.
    unfold process_asset. rewrite prog_bind_eq, H.
    apply get_asset_info_Some in H. destruct H as (fr0 & fr' & H).
    apply get_asset_info_try_Some in H.
    destruct H as (aid & tr & r & data & tr' & fresp & fd & mr & au & H).
    destruct H as (_ & _ & _ & _ & _ & _ & _ & H).
    apply format_asset_info_ok in H. destruct H as (fields & _ & ->).
    reflexivity.
Qed.

End HarvesterClaims.

Section HarvesterRecords.
Import Py Outside Harvester Notions.

Lemma is_hdri_true data :
  is_hdri data = true <->
  exists fields t,
    data = VDict fields /\ dict_get "type" fields = Some t /\ eq_int t 0 = true.
Proof.
  unfold is_hdri. split.
  - destruct data as [| | | | |fields]; try discriminate.
    destruct (dict_get "type" fields) as [t|] eqn:E; [|discriminate].
    intros H. exists fields, t. auto.
  - intros (fields & t & -> & -> & H). exact H.
Qed.

(** C2, amended. [get_asset_list] never raises.  When the listing request
    fails, by a transport error, an error status, or a body that is not a
    JSON object, it returns the empty list [[]], which is empty and false
    like the empty dict but is not a mapping.  When the request goes
    through it returns a dict whose keys are exactly the identifiers of
    the entries that are objects with a ['type'] equal to 0, each once and
    each mapped to ["hdri"]. *)
Theorem get_asset_list_result (net : network) (w : world) :
  (exists r w', get_asset_list net w = (Ok r, w')) /\
  (forall e, net (trace w) listing_url = Raise e ->
             fst (get_asset_list net w) = Ok (VList [])) /\
  (forall r e, net (trace w) listing_url = Ok r ->
               raise_for_status r = Raise e \/ json r = Raise e \/
               (exists body, json r = Ok body /\ items body = Raise e) ->
               fst (get_asset_list net w) = Ok (VList [])) /\
  (forall r all_assets,
     net (trace w) listing_url = Ok r ->
     raise_for_status r = Ok tt ->
     json r = Ok (VDict all_assets) ->
     exists d,
       fst (get_asset_list net w) = Ok (VDict d) /\
       (forall id, In id (dict_keys d) <->
                   exists fields t,
                     In (id, VDict fields) all_assets /\
                     dict_get "type" fields = Some t /\ eq_int t 0 = true) /\
       (forall id v, In (id, v) d -> v = VStr "hdri") /\
       List.NoDup (dict_keys d)).
Proof.
  split; [|split; [|split]].
  - destruct (get_asset_list_shape net w) as (r & w' & E & _). eauto.
  - intros e He. unfold get_asset_list, get_asset_list_try.
    rewrite prog_bind_eq. unfold requests_get. rewrite He. reflexivity.
  - intros r e Hr Hfail. unfold get_asset_list, get_asset_list_try.
    rewrite prog_bind_eq. unfold requests_get. rewrite Hr.
    rewrite prog_bind_eq. unfold lift at 1.
    destruct (raise_for_status r) as [[]|e']; [|reflexivity].
    destruct Hfail as [Hfail|[Hfail|(body & Hbody & Hfail)]]; [discriminate| |].
    + rewrite prog_bind_eq. unfold lift at 1. rewrite Hfail. reflexivity.
    + rewrite prog_bind_eq. unfold lift at 1. rewrite Hbody.
      rewrite prog_bind_eq. unfold lift at 1. rewrite Hfail. reflexivity.
  - intros r all_assets Hr Hs Hj.
    exists (filter_hdri all_assets). split.
    + unfold get_asset_list, get_asset_list_try.
      rewrite prog_bind_eq. unfold requests_get. rewrite Hr.
      rewrite prog_bind_eq. unfold lift at 1. rewrite Hs.
      rewrite prog_bind_eq. unfold lift at 1. rewrite Hj.
      reflexivity.
    + destruct (filter_hdri_fold all_assets []) as (Hk & Hv & Hnd).
      fold (filter_hdri all_assets) in Hk, Hv, Hnd.
      split; [|split].
      * intros id. rewrite Hk. split.
        -- intros [[]|(data & Hin & Hd)].
           apply is_hdri_true in Hd. destruct Hd as (fields & t & -> & Ht & H0).
           eauto.
        -- intros (fields & t & Hin & Ht & H0). right.
           exists (VDict fields). split; [exact Hin|].
           apply is_hdri_true. eauto.
      * intros id v Hin. destruct (Hv id v Hin) as [[]|H]. exact H.
      * apply Hnd. constructor.
Qed.



(** C6. The record [get_asset_info] returns has the eleven fields, in
    this order and no other; each field taken from the API's answer has the
    answer's value when the answer has the member and its default when it
    has not: the identifier in title case for the name, 0 for the date and
    the count, the empty string for the hash, the empty list for the
    categories and the tags, the thumbnail address built from the
    identifier, and the one author ["Unknown"] when no author is given. *)
Theorem asset_record_complete (net : network) (id : string)
    (max_retries : Z) (w w' : world) (info : value) :
  get_asset_info net id max_retries w = (Ok (Some info), w') ->
  exists aid tr r data record,
    net tr (info_url aid) = Ok r /\ json r = Ok (VDict data) /\
    info = VDict record /\
    dict_keys record = required_fields /\
    (forall key, In key required_fields -> is_Some (field key info)) /\
    field "name" info =
      Some (default (VStr (title (replace_char "_" " " aid)))
                    (dict_get "name" data)) /\
    field "type" info = Some (VInt 0) /\
    field "date_published" info =
      Some (default (VInt 0) (dict_get "date_published" data)) /\
    field "download_count" info =
      Some (default (VInt 0) (dict_get "download_count" data)) /\
    field "files_hash" info =
      Some (default (VStr EmptyString) (dict_get "files_hash" data)) /\
    (exists authors,
       field "authors" info = Some (VDict authors) /\ authors <> [] /\
       (dict_get "authors" data = None ->
        authors = [("Unknown", VStr "All")])) /\
    field "categories" info =
      Some (default (VList []) (dict_get "categories" data)) /\
    field "tags" info = Some (default (VList []) (dict_get "tags" data)) /\
    (exists width height,
       field "max_resolution" info = Some (VList [width; height])) /\
    field "dimensions" info = Some (VList [VInt 30000; VInt 30000]) /\
    field "thumbnail_url" info =
      Some (default (VStr (default_thumbnail aid))
                    (dict_get "thumbnail_url" data)).
Proof.
  intros H.
  apply get_asset_info_Some in H. destruct H as (fr0 & fr' & H).
  apply get_asset_info_try_Some in H.
  destruct H as (aid & tr & r & data & tr' & fresp & fd & mr & au & H).
  destruct H as (_ & Hr & Hdata & _ & _ & _ & Hau & Hfmt).
  apply format_asset_info_ok in Hfmt. destruct Hfmt as (fields & -> & ->).
  exists aid, tr, r, fields. eexists.
  split; [exact Hr|]. split; [exact Hdata|]. split; [reflexivity|].
  split; [reflexivity|].
  split.
  { intros key Hkey. cbn in Hkey.
    repeat (destruct Hkey as [<-|Hkey]; [cbn; eauto|]). destruct Hkey. }
  repeat (split; [reflexivity|]).
  split.
  { cbn [field dict_get String.eqb Ascii.eqb Bool.eqb].
    destruct au as [|a au'] eqn:Eau; cbn [truthy].
    - eexists. split; [reflexivity|]. split; [discriminate|]. reflexivity.
    - eexists. split; [reflexivity|]. split; [discriminate|].
      intros Hnone. pose proof (collect_authors_omitted _ _ Hnone Hau).
      discriminate. }
  repeat (split; [reflexivity|]).
  split.
  { cbn. destruct (eq_int (fst mr) 0 && eq_int (snd mr) 0); eauto. }
  split; reflexivity.
Qed.

End HarvesterRecords.

(* ===================================================================== *)
(** ** The downloader *)
(* ===================================================================== *)

Section DownloaderFacts.
Import Py Outside Downloader Notions.

Variable net : network.
Variable dk : disk.

(** A file that is there is left alone: no request, no write. *)
Lemma download_file_skip url save_dir w :
  is_Some (files w !! path_join save_dir (filename_of url)) ->
  download_file net dk url save_dir w = (Ok tt, w).
Proof.
  intros H. unfold download_file. cbv zeta. rewrite prog_bind_eq.
  unfold path_exists.
  rewrite bool_decide_eq_true_2 by exact H. reflexivity.
Qed.

(** Writing keeps the file in place, whatever the disk does. *)
Lemma write_bound path text w :
  is_Some (files (snd (write dk path text w)) !! path) /\
  trace (snd (write dk path text w)) = trace w.
Proof.
  unfold write.
  destruct (room dk path) as [n|];
    [destruct (n <? _)%nat|]; cbn; rewrite lookup_insert_eq; eauto.
Qed.

Lemma write_chunks_bound path cs : forall w,
  is_Some (files w !! path) ->
  is_Some (files (snd (write_chunks dk path cs w)) !! path) /\
  trace (snd (write_chunks dk path cs w)) = trace w.
Proof.
  induction cs as [|c rest IH]; intros w Hw; cbn [write_chunks].
  - auto.
  - rewrite prog_bind_eq.
    destruct (write_bound path c w) as [Hb Ht].
    destruct (write dk path c w) as [[[]|e] w1]; cbn [snd] in *.
    + destruct (IH w1 Hb) as [Hb' Ht']. rewrite Ht'. auto.
    + auto.
Qed.

(** With room on the disk every chunk lands, in order. *)
Lemma write_chunks_all path cs : forall w old,
  room dk path = None ->
  files w !! path = Some old ->
  exists w',
    write_chunks dk path cs w = (Ok tt, w') /\
    trace w' = trace w /\
    files w' !! path = Some (old +:+ join_chunks cs).
Proof.
  induction cs as [|c rest IH]; intros w old Hroom Hold; cbn [write_chunks].
  - exists w. cbn. rewrite append_nil_r. auto.
  - assert (Hw : write dk path c w =
                   (Ok tt, World (trace w) (<[path := old +:+ c]> (files w))))
      by (unfold write; rewrite Hroom, Hold; reflexivity).
    rewrite prog_bind_eq, Hw.
    destruct (IH (World (trace w) (<[path := old +:+ c]> (files w)))
                 (old +:+ c) Hroom) as (w' & -> & Ht & Hf).
    { cbn. apply lookup_insert_eq. }
    exists w'. split; [reflexivity|]. split; [exact Ht|].
    rewrite Hf. cbn. rewrite append_assoc. reflexivity.
Qed.

(** A 200 answer with the file opened and room on the disk: the chunks
    delivered are on the disk afterwards, the transfer broken or not, and
    nothing is raised. *)
Lemma download_file_200 url save_dir w r :
  let path := path_join save_dir (filename_of url) in
  files w !! path = None ->
  net (trace w) url = Ok r ->
  status_code r = 200%Z ->
  can_open dk path = true ->
  room dk path = None ->
  exists w1,
    download_file net dk url save_dir w = (Ok tt, w1) /\
    trace w1 = trace w ++ [EGet url] /\
    files w1 !! path = Some (join_chunks (chunks r)).
Proof.
  intros path Hnone Hr Hs Hopen Hroom.
  unfold download_file. cbv zeta. fold path. rewrite prog_bind_eq.
  unfold path_exists.
  rewrite bool_decide_eq_false_2 by (rewrite Hnone; intros [? ?]; discriminate).
  unfold download_file_guarded, download_file_try.
  rewrite prog_bind_eq. unfold requests_get.
  rewrite Hr, Hs. cbn [Z.eqb Pos.eqb].
  rewrite prog_bind_eq. unfold open_w. rewrite Hopen.
  cbn [trace files].
  destruct (write_chunks_all path (chunks r)
              (World (trace w ++ [EGet url]) (<[path := EmptyString]> (files w)))
              EmptyString Hroom) as (w1 & E & Ht & Hf).
  { cbn. apply lookup_insert_eq. }
  rewrite prog_bind_eq, E. exists w1.
  split; [destruct (broken r); reflexivity|]. split; [exact Ht|exact Hf].
Qed.

End DownloaderFacts.

Section DownloaderClaims.
Import Py Outside Downloader Notions.

Lemma download_file_try_200 (net : network) (dk : disk) url path w r :
  net (trace w) url = Ok r ->
  status_code r = 200%Z ->
  can_open dk path = true ->
  room dk path = None ->
  exists w1,
    download_file_try net dk url path w =
      (match broken r with Some e => Raise e | None => Ok tt end, w1) /\
    files w1 !! path = Some (join_chunks (chunks r)).
Proof.
  intros Hr Hs Hopen Hroom.
  unfold download_file_try. rewrite prog_bind_eq. unfold requests_get.
  rewrite Hr, Hs. cbn [Z.eqb Pos.eqb].
  rewrite prog_bind_eq. unfold open_w. rewrite Hopen. cbn [trace files].
  destruct (write_chunks_all dk path (chunks r)
              (World (trace w ++ [EGet url]) (<[path := EmptyString]> (files w)))
              EmptyString Hroom) as (w1 & E & Ht & Hf).
  { cbn. apply lookup_insert_eq. }
  rewrite prog_bind_eq, E. exists w1. split; [reflexivity|exact Hf].
Qed.

Lemma download_file_opened (net : network) (dk : disk) url save_dir w r :
  let path := path_join save_dir (filename_of url) in
  files w !! path = None ->
  net (trace w) url = Ok r ->
  status_code r = 200%Z ->
  can_open dk path = true ->
  is_Some (files (snd (download_file net dk url save_dir w)) !! path).
Proof.
  intros path Hnone Hr Hs Hopen.
  unfold download_file. cbv zeta. fold path. rewrite prog_bind_eq.
  unfold path_exists.
  rewrite bool_decide_eq_false_2 by (rewrite Hnone; intros [? ?]; discriminate).
  unfold download_file_guarded, download_file_try.
  rewrite prog_bind_eq. unfold requests_get.
  rewrite Hr, Hs. cbn [Z.eqb Pos.eqb].
  rewrite prog_bind_eq. unfold open_w. rewrite Hopen. cbn [trace files].
  rewrite prog_bind_eq.
  destruct (write_chunks_bound dk path (chunks r)
              (World (trace w ++ [EGet url]) (<[path := EmptyString]> (files w))))
    as [Hb _].
  { cbn. rewrite lookup_insert_eq. eauto. }
  destruct (write_chunks dk path (chunks r) _) as [[[]|e] w1]; cbn [snd] in Hb.
  - destruct (broken r); exact Hb.
  - exact Hb.
Qed.

Lemma download_file_other_status (net : network) (dk : disk) url save_dir w r :
  files w !! path_join save_dir (filename_of url) = None ->
  net (trace w) url = Ok r ->
  status_code r <> 200%Z ->
  download_file net dk url save_dir w =
    (Ok tt, World (trace w ++ [EGet url]) (files w)).
Proof.
  intros Hnone Hr Hs.
  unfold download_file. cbv zeta. rewrite prog_bind_eq. unfold path_exists.
  rewrite bool_decide_eq_false_2 by (rewrite Hnone; intros [? ?]; discriminate).
  unfold download_file_guarded, download_file_try.
  rewrite prog_bind_eq. unfold requests_get. rewrite Hr.
  destruct (Z.eqb_spec (status_code r) 200) as [E|_]; [contradiction|].
  reflexivity.
Qed.

(** C8. When the file named after the URL is in the directory,
    [download_file] makes no request and leaves the files as they are;
    so it is after a first call that went through: the body is on the
    disk, and a second call, whatever the network and the disk have
    become, changes nothing. *)
Theorem download_file_idempotent (net : network) (dk : disk)
    (url save_dir : string) :
  let path := path_join save_dir (filename_of url) in
  (forall w, is_Some (files w !! path) ->
             download_file net dk url save_dir w = (Ok tt, w)) /\
  (forall w r,
     files w !! path = None ->
     net (trace w) url = Ok r ->
     status_code r = 200%Z ->
     can_open dk path = true ->
     room dk path = None ->
     broken r = None ->
     exists w1,
       download_file net dk url save_dir w = (Ok tt, w1) /\
       trace w1 = trace w ++ [EGet url] /\
       files w1 !! path = Some (join_chunks (chunks r)) /\
       forall net' dk', download_file net' dk' url save_dir w1 = (Ok tt, w1)).
Proof.
  intros path. split.
  - intros w H. apply download_file_skip, H.
  - intros w r Hnone Hr Hs Hopen Hroom _.
    destruct (download_file_200 net dk url save_dir w r Hnone Hr Hs Hopen Hroom)
      as (w1 & E & Ht & Hf).
    exists w1. repeat split; try assumption.
    intros net' dk'. apply download_file_skip.
    subst path. cbv zeta in Hf. rewrite Hf. eauto.
Qed.

(** C9. A transfer that breaks after a 200 answer leaves on the disk the
    chunks delivered before the exception, which the handler swallows;
    the file being there, every later call skips it, so the truncated file
    stays as it is.  After a 200 answer the file exists as soon as it
    could be opened; after any other status the files are unchanged. *)
Theorem broken_download_kept (net : network) (dk : disk)
    (url save_dir : string) (w : world) (r : response) :
  let path := path_join save_dir (filename_of url) in
  files w !! path = None ->
  net (trace w) url = Ok r ->
  (forall e,
     status_code r = 200%Z -> can_open dk path = true ->
     room dk path = None -> broken r = Some e ->
     exists w1,
       download_file_try net dk url path w = (Raise e, w1) /\
       download_file net dk url save_dir w = (Ok tt, w1) /\
       files w1 !! path = Some (join_chunks (chunks r)) /\
       forall net' dk', download_file net' dk' url save_dir w1 = (Ok tt, w1)) /\
  (status_code r = 200%Z -> can_open dk path = true ->
   is_Some (files (snd (download_file net dk url save_dir w)) !! path)) /\
  (status_code r <> 200%Z ->
   download_file net dk url save_dir w =
     (Ok tt, World (trace w ++ [EGet url]) (files w))).
Proof.
  intros path Hnone Hr. split; [|split].
  - intros e Hs Hopen Hroom Hbroken.
    destruct (download_file_try_200 net dk url path w r Hr Hs Hopen Hroom)
      as (w1 & E & Hf).
    rewrite Hbroken in E. exists w1. split; [exact E|]. split; [|split].
    + unfold download_file. cbv zeta. fold path. rewrite prog_bind_eq.
      unfold path_exists.
      rewrite bool_decide_eq_false_2
        by (rewrite Hnone; intros [? ?]; discriminate).
      unfold download_file_guarded. rewrite E. reflexivity.
    + exact Hf.
    + intros net' dk'. apply download_file_skip. fold path. rewrite Hf. eauto.
  - intros Hs Hopen. eapply download_file_opened; eassumption.
  - intros Hs. eapply download_file_other_status; eassumption.
Qed.

End DownloaderClaims.

(* ===================================================================== *)
(** ** The statements at work on concrete runs *)
(* ===================================================================== *)

Section Runs.
Import Py Outside Notions.

Lemma transport_errors_exhaust_retries_witness :
  (forall tr, net_down tr (Harvester.info_url "rural_road") =
              Raise RequestException) /\
  Harvester.get_asset_info net_down "rural_road" 3 fresh =
    (Ok None,
     World [ EGet (Harvester.info_url "rural_road"); ESleep 1;
             EGet (Harvester.info_url "rural_road"); ESleep 1;
             EGet (Harvester.info_url "rural_road") ] ∅).
Proof.
  split; [reflexivity|].
  exact (proj1 (transport_errors_exhaust_retries net_down disk_ok "rural_road"
                  (fun _ => eq_refl)) 3%Z fresh).
Defined.

(** The claim C2 as it is written fails: with the API out of reach
    [get_asset_list] returns the empty list, which is not the empty
    dict. *)
Lemma get_asset_list_failure_not_mapping :
  fst (Harvester.get_asset_list net_down fresh) = Ok (VList []) /\
  fst (Harvester.get_asset_list net_down fresh) <> Ok (VDict []).
Proof. split; [reflexivity|discriminate]. Qed.

Lemma get_asset_list_result_witness :
  exists d,
    fst (Harvester.get_asset_list net_catalogue fresh) = Ok (VDict d) /\
    (forall id, In id (dict_keys d) <->
                exists fields t,
                  In (id, VDict fields)
                     [ ("rural_road", VDict [("type", VInt 0)]);
                       ("chair", VDict [("type", VInt 1)]) ] /\
                  dict_get "type" fields = Some t /\ eq_int t 0 = true) /\
    (forall id v, In (id, v) d -> v = VStr "hdri") /\
    List.NoDup (dict_keys d).
Proof.
  exact (proj2 (proj2 (proj2 (get_asset_list_result net_catalogue fresh)))
           _ _ eq_refl eq_refl eq_refl).
Defined.




Lemma asset_record_complete_witness :
  exists info w',
    Harvester.get_asset_info net_catalogue "rural_road" 3 fresh =
      (Ok (Some info), w') /\
    dict_keys (match info with VDict record => record | _ => [] end) =
      required_fields /\
    field "type" info = Some (VInt 0).
Proof.
  eexists _, _. split; [vm_compute; reflexivity|].
  edestruct (asset_record_complete net_catalogue "rural_road" 3 fresh)
    as (aid & tr & r & data & record & _ & _ & E & Hkeys & _ & _ & Htype & _);
    [vm_compute; reflexivity|].
  split; [|exact Htype]. inversion E; subst record. exact Hkeys.
Defined.

Lemma collection_keys_from_listing_witness :
  exists d,
    fst (Harvester.main net_catalogue disk_ok fresh) = Ok (Some (VDict d)) /\
    dict_keys d = ["rural_road"] /\
    exists listing w1,
      Harvester.get_asset_list net_catalogue fresh = (Ok (VDict listing), w1) /\
      forall k, In k (dict_keys d) -> In k (take 843 (dict_keys listing)).
Proof.
  eexists. split; [vm_compute; reflexivity|]. split; [reflexivity|].
  apply (proj1 (collection_keys_from_listing net_catalogue disk_ok) fresh).
  vm_compute. reflexivity.
Defined.

Lemma download_file_idempotent_witness :
  exists w1,
    Downloader.download_file origin_ok disk_ok example_url Downloader.SAVE_DIR
      fresh = (Ok tt, w1) /\
    files w1 !! "hdri_4k/rural_road_4k.hdr" = Some "RADIANCEpixels" /\
    Downloader.download_file origin_ok disk_ok example_url Downloader.SAVE_DIR
      w1 = (Ok tt, w1).
Proof.
  destruct (proj2 (download_file_idempotent origin_ok disk_ok example_url
                     Downloader.SAVE_DIR) fresh _
              eq_refl eq_refl eq_refl eq_refl eq_refl eq_refl)
    as (w1 & E & _ & Hf & Hagain).
  exists w1. split; [exact E|]. split; [exact Hf|]. apply Hagain.
Defined.

Lemma broken_download_kept_witness :
  exists w1,
    Downloader.download_file origin_broken disk_ok example_url
      Downloader.SAVE_DIR fresh = (Ok tt, w1) /\
    files w1 !! "hdri_4k/rural_road_4k.hdr" = Some "RADIANCE" /\
    Downloader.download_file origin_ok disk_ok example_url Downloader.SAVE_DIR
      w1 = (Ok tt, w1).
Proof.
  destruct (proj1 (broken_download_kept origin_broken disk_ok example_url
                     Downloader.SAVE_DIR fresh _ eq_refl eq_refl)
              RequestException eq_refl eq_refl eq_refl eq_refl)
    as (w1 & _ & E & Hf & Hagain).
  exists w1. split; [exact E|]. split; [exact Hf|]. apply Hagain.
Defined.

End Runs.

(* ===================================================================== *)
(** ** The JSON text read back *)
(* ===================================================================== *)

Section JsonStrings.
Import Py Json.

(** The decoder undoes what the encoder writes for one character. *)
Lemma parse_string_escape_char c t :
  parse_string (escape_char c +:+ t) = push c (parse_string t).
Proof.
  destruct c as [[] [] [] [] [] [] [] []]; reflexivity.
Qed.

Lemma parse_string_escape s rest :
  parse_string (escape s +:+ quote +:+ rest) = Some (s, rest).
Proof.
  induction s as [|c s IH].
  - reflexivity.
  - cbn [escape]. rewrite append_assoc, parse_string_escape_char, IH.
    reflexivity.
Qed.

Lemma parse_string_basestring s rest :
  exists t, encode_basestring s +:+ rest = String (ascii_of_nat 34) t /\
            parse_string t = Some (s, rest).
Proof.
  exists (escape s +:+ quote +:+ rest). split.
  - unfold encode_basestring, quote. rewrite !append_assoc. reflexivity.
  - apply parse_string_escape.
Qed.

(** A character above 127 is written as it is. *)
Lemma escape_char_non_ascii c :
  (128 <= nat_of_ascii c)%nat -> escape_char c = String c EmptyString.
Proof.
  destruct c as [[] [] [] [] [] [] [] []]; vm_compute; intros H;
    first [reflexivity | exfalso; lia].
Qed.

End JsonStrings.

Section JsonNumbers.
Import Py Json.

Lemma stops_not_digit rest :
  stops rest = true ->
  span_digits rest = (EmptyString, rest) /\ starts_fraction rest = false.
Proof.
  destruct rest as [|c t]; [auto|].
  destruct c as [[] [] [] [] [] [] [] []]; intros H;
    first [discriminate H | split; reflexivity].
Qed.

Lemma span_digits_uint d rest :
  stops rest = true ->
  span_digits (NilEmpty.string_of_uint d +:+ rest) =
    (NilEmpty.string_of_uint d, rest).
Proof.
  intros Hrest. induction d as [|d IH|d IH|d IH|d IH|d IH|d IH|d IH|d IH|d IH|d IH];
    cbn [NilEmpty.string_of_uint];
    [apply stops_not_digit, Hrest|..];
    rewrite append_cons; cbn [span_digits];
    change (is_digit _) with true; cbv iota; rewrite IH; reflexivity.
Qed.

Lemma uint_beq_refl d : uint_beq d d = true.
Proof. induction d; cbn; auto. Qed.

(** A positive number in decimal has digits, no leading zero, and reads
    back as itself. *)
Lemma pos_to_uint_facts p :
  Pos.to_uint p <> Nil /\
  unorm (Pos.to_uint p) = Pos.to_uint p /\
  Z.of_uint (Pos.to_uint p) = Z.pos p.
Proof.
  split; [apply Unsigned.to_uint_nonnil|]. split.
  - pose proof (Unsigned.to_of (Pos.to_uint p)) as H.
    rewrite Unsigned.of_to in H. cbn in H. congruence.
  - unfold Z.of_uint. rewrite Unsigned.of_to. reflexivity.
Qed.

Lemma parse_digits_uint d negative rest :
  d <> Nil -> unorm d = d -> stops rest = true ->
  parse_digits negative (NilEmpty.string_of_uint d +:+ rest) =
    Some ((if negative then - Z.of_uint d else Z.of_uint d)%Z, rest).
Proof.
  intros Hd Hnorm Hrest. unfold parse_digits.
  rewrite span_digits_uint by exact Hrest.
  destruct (stops_not_digit rest Hrest) as [_ ->].
  replace (NilZero.uint_of_string (NilEmpty.string_of_uint d)) with (Some d).
  - rewrite Hnorm, uint_beq_refl. reflexivity.
  - symmetry. rewrite <- (NilZero.usu d Hd). f_equal.
    destruct d; [contradiction|..]; reflexivity.
Qed.

Lemma head_of_uint d :
  d <> Nil ->
  exists c t, NilEmpty.string_of_uint d = String c t /\ is_digit c = true.
Proof.
  destruct d; [contradiction|..]; intros _; cbn; eauto.
Qed.

Lemma parse_number_repr n rest :
  stops rest = true ->
  parse_number (repr_int n +:+ rest) = Some (n, rest).
Proof.
  intros Hrest. unfold repr_int.
  assert (Hcases : exists (d : uint) (negative : bool),
    d <> Nil /\ unorm d = d /\
    NilZero.string_of_int (Z.to_int n) =
      (if negative then String "-"%char (NilEmpty.string_of_uint d)
       else NilEmpty.string_of_uint d) /\
    (if negative then - Z.of_uint d else Z.of_uint d)%Z = n).
  { destruct n as [|p|p].
    - exists (D0 Nil), false. repeat split; try reflexivity. discriminate.
    - destruct (pos_to_uint_facts p) as (H1 & H2 & H3).
      exists (Pos.to_uint p), false. repeat split; try assumption.
      cbn. destruct (Pos.to_uint p); [contradiction|..]; reflexivity.
    - destruct (pos_to_uint_facts p) as (H1 & H2 & H3).
      exists (Pos.to_uint p), true. repeat split; try assumption.
      + cbn. destruct (Pos.to_uint p); [contradiction|..]; reflexivity.
      + rewrite H3. reflexivity. }
  destruct Hcases as (d & negative & Hd & Hnorm & -> & Hval).
  destruct negative.
  - rewrite append_cons. cbn [parse_number].
    change (nat_of_ascii "-" =? 45)%nat with true. cbv iota.
    rewrite parse_digits_uint by assumption. rewrite Hval. reflexivity.
  - destruct (head_of_uint d Hd) as (c & t & E & Hc).
    pose proof (parse_digits_uint d false rest Hd Hnorm Hrest) as H.
    rewrite E in *. rewrite append_cons in *. cbn [parse_number].
    replace (nat_of_ascii c =? 45)%nat with false.
    + rewrite H, Hval. reflexivity.
    + symmetry. apply Nat.eqb_neq. intros Hc'.
      unfold is_digit in Hc. rewrite Hc' in Hc. discriminate.
Qed.

End JsonNumbers.

Section JsonValues.
Import Py Json.

Lemma skip_ws_spaces n s : skip_ws (spaces n +:+ s) = skip_ws s.
Proof.
  induction n as [|n IH]; [reflexivity|].
  cbn [spaces]. rewrite append_cons. cbn [skip_ws].
  change (is_ws " ") with true. cbv iota. exact IH.
Qed.

Lemma skip_ws_newline_indent k s : skip_ws (newline_indent k +:+ s) = skip_ws s.
Proof.
  unfold newline_indent. rewrite append_cons. cbn [skip_ws].
  change (is_ws (ascii_of_nat 10)) with true. cbv iota.
  apply skip_ws_spaces.
Qed.

Lemma parse_value_ws fuel k s :
  parse_value fuel (newline_indent k +:+ s) = parse_value fuel s.
Proof.
  destruct fuel; [reflexivity|].
  cbn [parse_value]. rewrite skip_ws_newline_indent. reflexivity.
Qed.

Lemma parse_value_space fuel s :
  parse_value fuel (String " " s) = parse_value fuel s.
Proof. destruct fuel; reflexivity. Qed.

Lemma parse_elements_ws fuel k s :
  parse_elements fuel (newline_indent k +:+ s) = parse_elements fuel s.
Proof.
  destruct fuel; [reflexivity|].
  cbn [parse_elements]. rewrite parse_value_ws. reflexivity.
Qed.

Lemma parse_members_ws fuel k s :
  parse_members fuel (newline_indent k +:+ s) = parse_members fuel s.
Proof.
  destruct fuel; [reflexivity|].
  cbn [parse_members]. rewrite skip_ws_newline_indent. reflexivity.
Qed.

(** The decoder on the first character of a number. *)
Lemma parse_value_number fuel c t :
  (nat_of_ascii c =? 45)%nat || is_digit c = true ->
  parse_value (S fuel) (String c t) =
    match parse_number (String c t) with
    | Some (z, rest) => Some (VInt z, rest)
    | None => None
    end.
Proof.
  destruct c as [[] [] [] [] [] [] [] []];
    (intros H; vm_compute in H; first [discriminate H | reflexivity]).
Qed.

Lemma repr_int_head n rest :
  exists c t,
    repr_int n +:+ rest = String c t /\
    (nat_of_ascii c =? 45)%nat || is_digit c = true.
Proof.
  unfold repr_int. destruct n as [|p|p]; cbn [Z.to_int NilZero.string_of_int].
  - exists "0"%char, rest. split; reflexivity.
  - destruct (pos_to_uint_facts p) as (Hd & _ & _).
    destruct (head_of_uint _ Hd) as (c & t & E & Hc).
    exists c, (t +:+ rest). split.
    + replace (NilZero.string_of_uint (Pos.to_uint p))
        with (NilEmpty.string_of_uint (Pos.to_uint p))
        by (destruct (Pos.to_uint p); [contradiction|..]; reflexivity).
      rewrite E. reflexivity.
    + rewrite Hc. apply orb_true_r.
  - eexists _, _. split; [apply append_cons|]. reflexivity.
Qed.

(** The text of a value starts with a character that is neither white
    space nor a closing bracket. *)
Lemma encode_head level v rest :
  exists c t,
    encode level v +:+ rest = String c t /\
    is_ws c = false /\
    (nat_of_ascii c =? 93)%nat = false.
Proof.
  destruct v as [|[]|n|s|[|x l]|[|kv d]];
    try (eexists _, _; split; [reflexivity|split; reflexivity]).
  destruct (repr_int_head n rest) as (c & t & E & Hc).
  exists c, t. split; [exact E|].
  destruct c as [[] [] [] [] [] [] [] []]; vm_compute in Hc;
    first [discriminate Hc | split; reflexivity].
Qed.

End JsonValues.

Section JsonContainers.
Import Py Json.

Lemma list_sum_cons a t : list_sum (a :: t) = a + list_sum t.
Proof. reflexivity. Qed.

Lemma append_nil_l s : EmptyString +:+ s = s.
Proof. reflexivity. Qed.

Lemma parse_elements_join level l :
  Forall reads_back l -> l <> [] ->
  forall fuel rest,
    list_sum (map (fun x => S (weight x)) l) <= fuel ->
    parse_elements fuel
      (join_with ("," +:+ newline_indent (S level))
                 (map (encode (S level)) l) +:+
       newline_indent level +:+ "]" +:+ rest) = Some (l, rest).
Proof.
  induction l as [|x l IH]; [contradiction|].
  intros Hall _ fuel rest Hfuel.
  inversion Hall as [|? ? Hx Hl]; subst.
  cbn [map] in Hfuel. rewrite list_sum_cons in Hfuel.
  destruct fuel as [|fuel]; [lia|].
  cbn [parse_elements].
  destruct l as [|y l'].
  - cbn [map join_with].
    rewrite (Hx (S level) fuel) by (cbn in Hfuel; first [lia | reflexivity]).
    rewrite skip_ws_newline_indent. reflexivity.
  - change (join_with ?sep (map ?f (x :: y :: l')))
      with (f x +:+ sep +:+ join_with sep (map f (y :: l'))).
    rewrite !append_assoc.
    rewrite (Hx (S level) fuel) by (first [lia | reflexivity]).
    rewrite append_cons, append_nil_l. cbn [skip_ws].
    change (is_ws ",") with false. cbv iota.
    change (nat_of_ascii "," =? 44)%nat with true. cbv iota.
    rewrite parse_elements_ws.
    rewrite IH; [reflexivity|exact Hl|discriminate|lia].
Qed.

End JsonContainers.

Section JsonObjects.
Import Py Json.

Lemma skip_ws_head c t : is_ws c = false -> skip_ws (String c t) = String c t.
Proof. intros H. cbn [skip_ws]. rewrite H. reflexivity. Qed.

Lemma parse_members_join level d :
  Forall (fun kv => reads_back (snd kv)) d -> d <> [] ->
  forall fuel rest,
    list_sum (map (fun kv => S (weight (snd kv))) d) <= fuel ->
    parse_members fuel
      (join_with ("," +:+ newline_indent (S level))
                 (map (fun kv => encode_basestring (fst kv) +:+ ": " +:+
                                 encode (S level) (snd kv)) d) +:+
       newline_indent level +:+ "}" +:+ rest) = Some (d, rest).
Proof.
  induction d as [|[k x] d IH]; [contradiction|].
  intros Hall _ fuel rest Hfuel.
  inversion Hall as [|? ? Hx Hd]; subst. cbn [snd] in Hx.
  cbn [map snd] in Hfuel. rewrite list_sum_cons in Hfuel.
  destruct fuel as [|fuel]; [lia|].
  cbn [parse_members].
  assert (Hkey : forall tail,
    match skip_ws ((encode_basestring k +:+ ": " +:+ encode (S level) x) +:+ tail)
    with
    | String q t =>
        (nat_of_ascii q =? 34)%nat = true /\
        parse_string t =
          Some (k, String ":" (String " " (encode (S level) x +:+ tail)))
    | EmptyString => False
    end).
  { intros tail. unfold encode_basestring, quote.
    rewrite !append_assoc, append_cons, append_nil_l.
    rewrite skip_ws_head by reflexivity.
    split; [reflexivity|].
    fold quote. rewrite parse_string_escape. reflexivity. }
  destruct d as [|kv' d'].
  - cbn [map join_with fst snd].
    specialize (Hkey (newline_indent level +:+ "}" +:+ rest)).
    destruct (skip_ws _) as [|q t]; [contradiction|].
    destruct Hkey as [-> ->].
    rewrite skip_ws_head by reflexivity.
    change (nat_of_ascii ":" =? 58)%nat with true. cbv iota.
    rewrite parse_value_space.
    rewrite (Hx (S level) fuel) by (first [lia | reflexivity]).
    rewrite skip_ws_newline_indent. reflexivity.
  - change (join_with ?sep (map ?f ((k, x) :: kv' :: d')))
      with (f (k, x) +:+ sep +:+ join_with sep (map f (kv' :: d'))).
    cbn [fst snd]. rewrite (append_assoc (_ +:+ _ +:+ _)).
    match goal with
    | |- context [skip_ws ((encode_basestring k +:+ ": " +:+
                             encode (S level) x) +:+ ?tail)] =>
        specialize (Hkey tail)
    end.
    destruct (skip_ws _) as [|q t]; [contradiction|].
    destruct Hkey as [-> ->].
    rewrite skip_ws_head by reflexivity.
    change (nat_of_ascii ":" =? 58)%nat with true. cbv iota.
    rewrite parse_value_space.
    rewrite !append_assoc.
    rewrite (Hx (S level) fuel) by (first [lia | reflexivity]).
    rewrite append_cons, append_nil_l.
    rewrite skip_ws_head by reflexivity.
    change (nat_of_ascii "," =? 44)%nat with true. cbv iota.
    rewrite parse_members_ws.
    rewrite IH; [reflexivity|exact Hd|discriminate|lia].
Qed.

End JsonObjects.

Section JsonRoundTrip.
Import Py Json.

Lemma distinct_NoDup keys : distinct keys = true -> List.NoDup keys.
Proof.
  induction keys as [|k t IH]; cbn; intros H; [constructor|].
  apply andb_prop in H. destruct H as [Hk Ht].
  constructor; [|apply IH, Ht].
  intros Hin. apply negb_true_iff in Hk.
  assert (existsb (String.eqb k) t = true); [|congruence].
  apply existsb_exists. exists k. split; [exact Hin|apply String.eqb_refl].
Qed.

Lemma dict_set_fresh k v d :
  ~ In k (map fst d) -> dict_set k v d = d ++ [(k, v)].
Proof.
  induction d as [|[k' v'] d IH]; cbn; intros H; [reflexivity|].
  destruct (String.eqb_spec k k') as [->|_]; [tauto|].
  rewrite IH by tauto. reflexivity.
Qed.

(** Pairs with distinct keys make the dict that lists them. *)
Lemma dict_of_pairs_NoDup pairs : forall acc,
  List.NoDup (map fst acc ++ map fst pairs) ->
  fold_left (fun d kv => dict_set (fst kv) (snd kv) d) pairs acc = acc ++ pairs.
Proof.
  induction pairs as [|[k v] pairs IH]; intros acc H; cbn [fold_left map fst snd] in *.
  - rewrite app_nil_r. reflexivity.
  - pose proof (NoDup_remove_2 _ _ _ H) as Hk.
    rewrite dict_set_fresh by (intros Hin; apply Hk, in_or_app; left; exact Hin).
    rewrite IH.
    + rewrite <- app_assoc. reflexivity.
    + rewrite map_app, <- app_assoc. exact H.
Qed.

Lemma dict_of_pairs_distinct d :
  distinct (map fst d) = true -> dict_of_pairs d = d.
Proof.
  intros H. unfold dict_of_pairs.
  rewrite dict_of_pairs_NoDup; [reflexivity|].
  apply distinct_NoDup, H.
Qed.

Lemma join_with_head sep a t r :
  exists r', join_with sep (a :: t) +:+ r = a +:+ r'.
Proof.
  destruct t as [|b t]; cbn [join_with]; eexists;
    [reflexivity | rewrite !append_assoc; reflexivity].
Qed.

Lemma prefix_other c d t :
  (nat_of_ascii d =? nat_of_ascii c)%nat = false ->
  String.prefix (String c EmptyString) (String d t) = false.
Proof.
  intros H. cbn [String.prefix].
  destruct (ascii_dec c d) as [->|_]; [|reflexivity].
  rewrite Nat.eqb_refl in H. discriminate.
Qed.

(** The decoder reads back the text of every value whose dicts have
    distinct keys. *)
Lemma well_formed_reads_back v : well_formed v = true -> reads_back v.
Proof.
  induction v as [|b|n|s|l IH|d IH] using value_ind_nested; intros Hwf;
    intros level fuel rest Hfuel Hrest;
    (destruct fuel as [|fuel]; [cbn in Hfuel; lia|]).
  - destruct rest; reflexivity.
  - destruct b, rest; reflexivity.
  - cbn [encode].
    destruct (repr_int_head n rest) as (c & t & E & Hc).
    pose proof (parse_number_repr n rest Hrest) as Hnum.
    rewrite E in *. rewrite parse_value_number by exact Hc.
    rewrite Hnum. reflexivity.
  - cbn [encode].
    destruct (parse_string_basestring s rest) as (t & -> & Ht).
    change (parse_value (S fuel) (String (ascii_of_nat 34) t))
      with (match parse_string t with
            | Some (str, rest) => Some (VStr str, rest)
            | None => None
            end).
    rewrite Ht. reflexivity.
  - destruct l as [|x l']; [destruct rest; reflexivity|].
    assert (Hall : Forall reads_back (x :: l')).
    { cbn [well_formed] in Hwf. rewrite forallb_forall in Hwf.
      rewrite List.Forall_forall in IH |- *.
      intros y Hy. apply IH; [exact Hy|]. apply Hwf, Hy. }
    change (encode level (VList (x :: l')))
      with ("[" +:+ newline_indent (S level) +:+
            join_with ("," +:+ newline_indent (S level))
                      (map (encode (S level)) (x :: l')) +:+
            newline_indent level +:+ "]").
    rewrite !append_assoc, append_cons, append_nil_l.
    match goal with
    | |- parse_value (S fuel) (String "[" ?t) = _ =>
        change (parse_value (S fuel) (String "[" t))
          with (if String.prefix "]" (skip_ws t)
                then Some (VList [], drop_str 1 (skip_ws t))
                else match parse_elements fuel t with
                     | Some (l, rest) => Some (VList l, rest)
                     | None => None
                     end)
    end.
    rewrite skip_ws_newline_indent.
    destruct (join_with_head ("," +:+ newline_indent (S level))
                (encode (S level) x) (map (encode (S level)) l')
                (newline_indent level +:+ "]" +:+ rest)) as [r' Hr'].
    cbn [map] in Hr' |- *. rewrite Hr'.
    destruct (encode_head (S level) x r') as (c & t & E & Hws & Hc).
    rewrite E, skip_ws_head by exact Hws.
    rewrite prefix_other by exact Hc.
    rewrite <- E, <- Hr'. rewrite parse_elements_ws.
    rewrite (parse_elements_join level (x :: l') Hall); [reflexivity|discriminate|].
    cbn [weight] in Hfuel. lia.
  - destruct d as [|[k x] d']; [destruct rest; reflexivity|].
    cbn [well_formed] in Hwf. apply andb_prop in Hwf. destruct Hwf as [Hkeys Hwf].
    assert (Hall : Forall (fun kv => reads_back (snd kv)) ((k, x) :: d')).
    { rewrite forallb_forall in Hwf.
      rewrite List.Forall_forall in IH |- *.
      intros y Hy. apply IH; [exact Hy|]. apply Hwf, Hy. }
    change (encode level (VDict ((k, x) :: d')))
      with ("{" +:+ newline_indent (S level) +:+
            join_with ("," +:+ newline_indent (S level))
                      (map (fun kv => encode_basestring (fst kv) +:+ ": " +:+
                                      encode (S level) (snd kv))
                           ((k, x) :: d')) +:+
            newline_indent level +:+ "}").
    rewrite !append_assoc, append_cons, append_nil_l.
    match goal with
    | |- parse_value (S fuel) (String "{" ?t) = _ =>
        change (parse_value (S fuel) (String "{" t))
          with (if String.prefix "}" (skip_ws t)
                then Some (VDict [], drop_str 1 (skip_ws t))
                else match parse_members fuel t with
                     | Some (pairs, rest) =>
                         Some (VDict (dict_of_pairs pairs), rest)
                     | None => None
                     end)
    end.
    rewrite skip_ws_newline_indent.
    destruct (join_with_head ("," +:+ newline_indent (S level))
                (encode_basestring k +:+ ": " +:+ encode (S level) x)
                (map (fun kv => encode_basestring (fst kv) +:+ ": " +:+
                                encode (S level) (snd kv)) d')
                (newline_indent level +:+ "}" +:+ rest)) as [r' Hr'].
    cbn [map fst snd] in Hr' |- *. rewrite Hr'.
    assert (Hhead : String.prefix "}"
              (skip_ws ((encode_basestring k +:+ ": " +:+ encode (S level) x)
                        +:+ r')) = false).
    { unfold encode_basestring, quote.
      rewrite !append_assoc, append_cons, append_nil_l.
      rewrite skip_ws_head by reflexivity.
      apply prefix_other. reflexivity. }
    rewrite Hhead. rewrite <- Hr'. rewrite parse_members_ws.
    pose proof (parse_members_join level ((k, x) :: d') Hall) as Hm.
    cbn [map fst snd] in Hm.
    rewrite Hm; [|discriminate|cbn [weight map snd] in Hfuel; lia].
    rewrite dict_of_pairs_distinct by exact Hkeys. reflexivity.
Qed.

End JsonRoundTrip.

Section JsonFuel.
Import Py Json.

Lemma join_with_weight {A} (w : A -> nat) (f : A -> string) sep l :
  Forall (fun a => w a <= String.length (f a)) l ->
  1 <= String.length sep ->
  list_sum (map (fun a => S (w a)) l) <=
    String.length (join_with sep (map f l)) + 1.
Proof.
  intros Hall Hsep. induction Hall as [|a l Ha Hall IH]; [cbn; lia|].
  cbn [map]. rewrite list_sum_cons.
  destruct l as [|b l'].
  - cbn. lia.
  - change (join_with sep (f a :: map f (b :: l')))
      with (f a +:+ sep +:+ join_with sep (map f (b :: l'))).
    rewrite !length_append. lia.
Qed.

Lemma length_newline_indent k : 1 <= String.length (newline_indent k).
Proof. unfold newline_indent. cbn [String.length]. lia. Qed.

(** The text of a value has a character at least for each unit of fuel
    the decoder needs. *)
Lemma weight_le_length v : forall level,
  weight v <= String.length (encode level v).
Proof.
  induction v as [|b|n|s|l IH|d IH] using value_ind_nested; intros level.
  - cbn. lia.
  - destruct b; cbn; lia.
  - cbn [weight encode].
    destruct (repr_int_head n EmptyString) as (c & t & E & _).
    rewrite append_nil_r in E. rewrite E. cbn [String.length]. lia.
  - cbn [weight encode]. unfold encode_basestring, quote.
    rewrite append_cons. cbn [String.length]. lia.
  - destruct l as [|x l']; [cbn; lia|].
    change (encode level (VList (x :: l')))
      with ("[" +:+ newline_indent (S level) +:+
            join_with ("," +:+ newline_indent (S level))
                      (map (encode (S level)) (x :: l')) +:+
            newline_indent level +:+ "]").
    cbn [weight]. rewrite !length_append.
    pose proof (join_with_weight weight (encode (S level))
                  ("," +:+ newline_indent (S level)) (x :: l')) as H.
    pose proof (length_newline_indent level).
    pose proof (length_newline_indent (S level)).
    change (String.length "[") with 1. change (String.length "]") with 1.
    assert (list_sum (map (fun a => S (weight a)) (x :: l')) <=
            String.length
              (join_with ("," +:+ newline_indent (S level))
                         (map (encode (S level)) (x :: l'))) + 1); [|lia].
    apply H.
    + rewrite List.Forall_forall in IH |- *. intros y Hy. apply IH, Hy.
    + rewrite length_append. change (String.length ",") with 1. lia.
  - destruct d as [|kv d']; [cbn; lia|].
    change (encode level (VDict (kv :: d')))
      with ("{" +:+ newline_indent (S level) +:+
            join_with ("," +:+ newline_indent (S level))
                      (map (fun kv => encode_basestring (fst kv) +:+ ": " +:+
                                      encode (S level) (snd kv))
                           (kv :: d')) +:+
            newline_indent level +:+ "}").
    cbn [weight]. rewrite !length_append.
    pose proof (join_with_weight (fun kv => weight (snd kv))
                  (fun kv => encode_basestring (fst kv) +:+ ": " +:+
                             encode (S level) (snd kv))
                  ("," +:+ newline_indent (S level)) (kv :: d')) as H.
    pose proof (length_newline_indent level).
    pose proof (length_newline_indent (S level)).
    change (String.length "{") with 1. change (String.length "}") with 1.
    assert (list_sum (map (fun kv => S (weight (snd kv))) (kv :: d')) <=
            String.length
              (join_with ("," +:+ newline_indent (S level))
                 (map (fun kv => encode_basestring (fst kv) +:+ ": " +:+
                                 encode (S level) (snd kv)) (kv :: d'))) + 1);
      [|lia].
    apply H.
    + rewrite List.Forall_forall in IH |- *. intros y Hy.
      rewrite !length_append. specialize (IH y Hy (S level)). lia.
    + rewrite length_append. change (String.length ",") with 1. lia.
Qed.

(** What [json.dump] writes for a value whose dicts have distinct keys,
    [json.load] reads as that value. *)
Lemma loads_dumps v : well_formed v = true -> loads (dumps v) = Some v.
Proof.
  intros Hwf. unfold loads, dumps.
  pose proof (well_formed_reads_back v Hwf 0
                (S (String.length (encode 0 v))) EmptyString) as H.
  rewrite append_nil_r in H. rewrite H; [reflexivity| |reflexivity].
  pose proof (weight_le_length v 0). lia.
Qed.

End JsonFuel.

(* ===================================================================== *)
(** ** The collection kept well formed, and saved *)
(* ===================================================================== *)

Section WellFormed.
Import Py Json Outside Harvester Notions.

Lemma NoDup_distinct keys : List.NoDup keys -> distinct keys = true.
Proof.
  induction 1 as [|k t Hk Hnd IH]; [reflexivity|].
  cbn. rewrite IH, andb_true_r. apply negb_true_iff.
  destruct (existsb (String.eqb k) t) eqn:E; [|reflexivity].
  apply existsb_exists in E. destruct E as (x & Hx & Hkx).
  apply String.eqb_eq in Hkx. subst x. contradiction.
Qed.

Lemma well_formed_dict_set k v d :
  well_formed (VDict d) = true -> well_formed v = true ->
  well_formed (VDict (dict_set k v d)) = true.
Proof.
  cbn [well_formed]. intros Hd Hv.
  apply andb_prop in Hd. destruct Hd as [Hkeys Hvals].
  apply andb_true_intro. split.
  - apply NoDup_distinct, (dict_set_NoDup k v d), distinct_NoDup, Hkeys.
  - rewrite forallb_forall in Hvals |- *. intros [k' v'] Hin.
    apply dict_set_values in Hin. destruct Hin as [Hin|[_ ->]].
    + apply (Hvals _ Hin).
    + exact Hv.
Qed.

Lemma well_formed_dict_get k d v :
  well_formed (VDict d) = true -> dict_get k d = Some v ->
  well_formed v = true.
Proof.
  cbn [well_formed]. intros Hd. apply andb_prop in Hd. destruct Hd as [_ Hvals].
  induction d as [|[k' v'] d IH]; cbn in *; [discriminate|].
  apply andb_prop in Hvals. destruct Hvals as [Hv' Hrest].
  destruct (String.eqb k k'); [intros H; inversion H; subst; exact Hv'|].
  apply IH, Hrest.
Qed.

Lemma well_formed_default k d x :
  well_formed (VDict d) = true -> well_formed x = true ->
  well_formed (default x (dict_get k d)) = true.
Proof.
  intros Hd Hx. destruct (dict_get k d) as [v|] eqn:E; [|exact Hx].
  eapply well_formed_dict_get; eassumption.
Qed.

Lemma as_int_well_formed v n : as_int v = Some n -> well_formed v = true.
Proof. destruct v; cbn; intros H; first [reflexivity | discriminate]. Qed.

Lemma well_formed_fold_set entries : forall acc,
  well_formed (VDict acc) = true ->
  forallb (fun kv => well_formed (snd kv)) entries = true ->
  well_formed
    (VDict (fold_left (fun authors '(author, role) => dict_set author role authors)
                      entries acc)) = true.
Proof.
  induction entries as [|[k v] entries IH]; intros acc Hacc Hall; [exact Hacc|].
  cbn [fold_left]. cbn in Hall. apply andb_prop in Hall.
  destruct Hall as [Hv Hrest].
  apply IH; [|exact Hrest]. apply well_formed_dict_set; assumption.
Qed.

Lemma collect_authors_well_formed data authors :
  well_formed data = true ->
  collect_authors data = Ok authors ->
  well_formed (VDict authors) = true.
Proof.
  intros Hwf. unfold collect_authors.
  destruct data as [| | | s | l | d]; cbn; try discriminate.
  - destruct (str_contains "authors" s); cbn; [discriminate|].
    unfold mret, result_ret. intros H; inversion H; reflexivity.
  - destruct (existsb _ l); cbn; [discriminate|].
    unfold mret, result_ret. intros H; inversion H; reflexivity.
  - destruct (dict_get "authors" d) as [a|] eqn:E; cbn;
      [|unfold mret, result_ret; intros H; inversion H; reflexivity].
    pose proof (well_formed_dict_get _ _ _ Hwf E) as Ha.
    destruct a as [| | | | |entries]; cbn; try discriminate.
    unfold mret, result_ret. intros H; inversion H; subst authors.
    apply well_formed_fold_set; [reflexivity|].
    cbn [well_formed] in Ha. apply andb_prop in Ha. apply Ha.
Qed.

Variable net : network.
Hypothesis Hnet : forall tr url r body,
  net tr url = Ok r -> json r = Ok body -> well_formed body = true.

Lemma get_asset_info_well_formed id max_retries w info w' :
  get_asset_info net id max_retries w = (Ok (Some info), w') ->
  well_formed info = true.
Proof.
  intros H.
  apply get_asset_info_Some in H. destruct H as (fr0 & fr' & H).
  apply get_asset_info_try_Some in H.
  destruct H as (aid & tr & r & data & tr' & fresp & fd & mr & au & H).
  destruct H as (_ & Hr & Hdata & _ & _ & Hscan & Hau & Hfmt).
  pose proof (Hnet _ _ _ _ Hr Hdata) as Hwf.
  pose proof (collect_authors_well_formed _ _ Hwf Hau) as Hauwf.
  apply scan_max_res_inv in Hscan. destruct Hscan as (m & Hm & _ & _).
  unfold area_of in Hm.
  destruct (as_int (fst mr)) as [m0|] eqn:H0; [|discriminate].
  destruct (as_int (snd mr)) as [m1|] eqn:H1; [|discriminate].
  apply as_int_well_formed in H0, H1.
  apply format_asset_info_ok in Hfmt. destruct Hfmt as (fields & -> & ->).
  cbn [well_formed map fst snd forallb].
  change (distinct _) with true. cbn [andb].
  rewrite !well_formed_default by (first [exact Hwf | reflexivity]).
  destruct (truthy (VDict au));
    destruct (eq_int (fst mr) 0 && eq_int (snd mr) 0);
    cbn [well_formed map fst snd forallb distinct existsb negb andb] in *;
    rewrite ?Hauwf, ?H0, ?H1; reflexivity.
Qed.

Lemma process_assets_well_formed ids : forall acc w acc' w',
  well_formed (VDict acc) = true ->
  process_assets net ids acc w = (Ok acc', w') ->
  well_formed (VDict acc') = true.
Proof.
  induction ids as [|id rest IH]; intros acc w acc' w' Hacc; cbn [process_assets].
  - intros H. inversion H; subst. exact Hacc.
  - rewrite prog_bind_eq. unfold process_asset at 1. rewrite prog_bind_eq.
    destruct (get_asset_info net id 3 w) as [[[info|]|e] w1] eqn:E;
      [| |discriminate].
    + rewrite prog_bind_eq. cbn [sleep log]. apply IH.
      destruct (truthy info); [|exact Hacc].
      apply well_formed_dict_set; [exact Hacc|].
      eapply get_asset_info_well_formed, E.
    + rewrite prog_bind_eq. cbn [sleep log]. apply IH. exact Hacc.
Qed.

Lemma main_well_formed dk w d :
  fst (main net dk w) = Ok (Some (VDict d)) -> well_formed (VDict d) = true.
Proof.
  intros H. apply main_inv in H. destruct H as (listing & w1 & w2 & _ & H).
  eapply process_assets_well_formed; [|exact H]. reflexivity.
Qed.

End WellFormed.

Section Persist.
Import Py Json Outside Harvester Notions.

Lemma save_to_json_refused dk data filename w :
  can_open dk filename = false ->
  save_to_json dk data filename w = (Ok false, w).
Proof.
  intros H. unfold save_to_json, save_to_json_try.
  rewrite prog_bind_eq. unfold open_w. rewrite H. reflexivity.
Qed.

Lemma save_to_json_opened dk data filename w :
  can_open dk filename = true ->
  save_to_json dk data filename w =
    match write dk filename (dumps data)
            (World (trace w) (<[filename := EmptyString]> (files w))) with
    | (Ok _, w') => (Ok true, w')
    | (Raise _, w') => (Ok false, w')
    end.
Proof.
  intros H. unfold save_to_json, save_to_json_try.
  rewrite prog_bind_eq. unfold open_w. rewrite H.
  rewrite prog_bind_eq.
  destruct (write dk filename (dumps data) _) as [[[]|e] w']; reflexivity.
Qed.

(** C7. [save_to_json] never raises.  When the file can be opened and the
    disk has room for the text, it returns [True] and the file holds the
    text of [json.dump], every other file as it was; read back, that text
    gives the collection, key for key and value for value, whenever the
    dicts of the collection have distinct keys, as those of the collection
    [main] builds from well-formed answers have; a character outside ASCII
    is written as it is.  When the file cannot be opened, or the disk fails
    before the end of the text, it returns [False]. *)
Theorem save_to_json_round_trip (dk : disk) (data : value)
    (filename : string) (w : world) :
  (exists b w', save_to_json dk data filename w = (Ok b, w')) /\
  (can_open dk filename = true ->
   match room dk filename with
   | Some n => String.length (dumps data) <= n
   | None => True
   end ->
   exists w',
     save_to_json dk data filename w = (Ok true, w') /\
     trace w' = trace w /\
     files w' !! filename = Some (dumps data) /\
     (forall path, path <> filename -> files w' !! path = files w !! path)) /\
  (well_formed data = true -> loads (dumps data) = Some data) /\
  (forall net w0 d,
     (forall tr url r body,
        net tr url = Ok r -> json r = Ok body -> well_formed body = true) ->
     fst (main net dk w0) = Ok (Some (VDict d)) ->
     well_formed (VDict d) = true) /\
  (forall c, 128 <= nat_of_ascii c -> escape_char c = String c EmptyString) /\
  (can_open dk filename = false ->
   save_to_json dk data filename w = (Ok false, w)) /\
  (forall n,
     can_open dk filename = true ->
     room dk filename = Some n ->
     n < String.length (dumps data) ->
     fst (save_to_json dk data filename w) = Ok false).
Proof.
  split; [|split; [|split; [|split; [|split; [|split]]]]].
  - unfold save_to_json.
    destruct (save_to_json_try dk data filename w) as [[b|e] w']; eauto.
  - intros Hopen. rewrite save_to_json_opened by exact Hopen.
    unfold write. cbn [files trace]. rewrite lookup_insert_eq. cbn [default from_option id].
    destruct (room dk filename) as [n|]; intros Hroom;
      [match goal with
       | |- context [(?a <? ?b)%nat] =>
           replace (a <? b)%nat with false
             by (symmetry; apply Nat.ltb_ge; cbn [String.length]; lia)
       end|];
      (eexists; split; [reflexivity|]; cbn [trace files];
       split; [reflexivity|]; split;
       [rewrite lookup_insert_eq, append_nil_l; reflexivity|];
       intros path Hpath; rewrite !lookup_insert_ne by congruence;
       reflexivity).
  - apply loads_dumps.
  - intros net w0 d Hnet. apply (main_well_formed net Hnet).
  - apply escape_char_non_ascii.
  - apply save_to_json_refused.
  - intros n Hopen Hroom Hn. rewrite save_to_json_opened by exact Hopen.
    unfold write. cbn [files trace]. rewrite lookup_insert_eq. cbn [default from_option id].
    rewrite Hroom.
    match goal with
    | |- context [(?a <? ?b)%nat] =>
        replace (a <? b)%nat with true
          by (symmetry; apply Nat.ltb_lt; cbn [String.length]; lia)
    end.
    reflexivity.
Qed.

Lemma save_to_json_round_trip_witness :
  loads (dumps example_collection) = Some example_collection /\
  exists w',
    save_to_json disk_ok example_collection "hdri_metadata.json" fresh =
      (Ok true, w') /\
    option_map loads (files w' !! "hdri_metadata.json") =
      Some (Some example_collection).
Proof.
  pose proof (save_to_json_round_trip disk_ok example_collection
                "hdri_metadata.json" fresh) as (_ & Hsave & Hload & _).
  specialize (Hload eq_refl). split; [exact Hload|].
  destruct (Hsave eq_refl I) as (w' & E & _ & Hfile & _).
  exists w'. split; [exact E|]. rewrite Hfile. cbn [option_map].
  rewrite Hload. reflexivity.
Defined.

End Persist.

(* ===================================================================== *)
(** ** The downloader: names of files *)
(* ===================================================================== *)

Section FileNames.
Import Py Outside Downloader Notions.

Lemma split_on_nonempty sep s : split_on sep s <> [].
Proof.
  destruct s as [|c t]; cbn; [discriminate|].
  destruct (Ascii.eqb c sep); [discriminate|].
  destruct (split_on sep t); discriminate.
Qed.

Lemma last_cons_nonempty {A} (x : A) l d : l <> [] -> List.last (x :: l) d = List.last l d.
Proof. destruct l; [contradiction|reflexivity]. Qed.

(** A string without a slash is its own last piece. *)
Lemma filename_of_no_slash s : no_slash s = true -> filename_of s = s.
Proof.
  unfold filename_of.
  assert (H : no_slash s = true -> split_on "/" s = [s]).
  { induction s as [|c t IH]; cbn; [reflexivity|].
    intros H. apply andb_prop in H. destruct H as [Hc Ht].
    apply negb_true_iff in Hc. rewrite Hc, (IH Ht). reflexivity. }
  intros Hs. rewrite (H Hs). reflexivity.
Qed.

Lemma split_on_two a b :
  exists p q l, split_on "/" (a +:+ String "/" b) = p :: q :: l.
Proof.
  induction a as [|c a IH].
  - rewrite append_nil_l. cbn [split_on].
    change (Ascii.eqb "/" "/") with true. cbv iota.
    destruct (split_on "/" b) as [|q l] eqn:E; [|eauto].
    exfalso. exact (split_on_nonempty _ _ E).
  - rewrite append_cons. cbn [split_on].
    destruct IH as (p & q & l & ->).
    destruct (Ascii.eqb c "/"); eauto.
Qed.

(** What comes after a slash decides the last piece. *)
Lemma filename_of_after_slash a b :
  filename_of (a +:+ String "/" b) = filename_of b.
Proof.
  unfold filename_of. induction a as [|c a IH].
  - rewrite append_nil_l. cbn [split_on].
    change (Ascii.eqb "/" "/") with true. cbv iota.
    apply last_cons_nonempty, split_on_nonempty.
  - rewrite append_cons. cbn [split_on].
    destruct (split_on_two a b) as (p & q & l & E).
    rewrite E in *. rewrite <- IH.
    destruct (Ascii.eqb c "/"); reflexivity.
Qed.

(** Every string is without a slash, or ends in a slash and a piece
    without one. *)
Lemma last_slash s :
  no_slash s = true \/
  exists a b, s = a +:+ String "/" b /\ no_slash b = true.
Proof.
  induction s as [|c t IH]; [left; reflexivity|].
  destruct IH as [Ht|(a & b & -> & Hb)].
  - cbn [no_slash]. destruct (Ascii.eqb_spec c "/") as [->|Hc].
    + right. exists EmptyString, t. split; [reflexivity|exact Ht].
    + left. rewrite Ht. reflexivity.
  - right. exists (String c a), b. split; [reflexivity|exact Hb].
Qed.

End FileNames.

Section FileNameProperties.
Import Py Outside Downloader Notions.

Lemma no_slash_app a b : no_slash (a +:+ b) = no_slash a && no_slash b.
Proof.
  induction a as [|c a IH]; [reflexivity|].
  rewrite append_cons. cbn [no_slash]. rewrite IH, andb_assoc. reflexivity.
Qed.

Lemma ends_with_slash_app a : ends_with_slash (a +:+ "/") = true.
Proof.
  induction a as [|c a IH]; [reflexivity|].
  rewrite append_cons. cbn [ends_with_slash].
  destruct (a +:+ "/") eqn:E; [destruct a; discriminate|exact IH].
Qed.

Lemma no_slash_prefix s : no_slash s = true -> String.prefix "/" s = false.
Proof.
  destruct s as [|c t]; [reflexivity|]. cbn [no_slash String.prefix].
  intros H. apply andb_prop in H. destruct H as [Hc _].
  apply negb_true_iff, Ascii.eqb_neq in Hc.
  destruct (ascii_dec "/" c) as [<-|_]; [contradiction|reflexivity].
Qed.

(** X1. The name [download_file] gives the file is the part of the URL after
    its last slash: it holds no slash, the URL is that name after nothing
    or after a part ending in a slash, and the file goes straight into
    the directory. *)
Theorem filename_is_last_piece (save_dir url : string) :
  no_slash (filename_of url) = true /\
  (exists dir, url = dir +:+ filename_of url /\
               (dir = EmptyString \/ ends_with_slash dir = true)) /\
  target save_dir url =
    (if String.eqb save_dir EmptyString || ends_with_slash save_dir
     then save_dir else save_dir +:+ "/") +:+ filename_of url.
Proof.
  assert (Hname : no_slash (filename_of url) = true /\
    exists dir, url = dir +:+ filename_of url /\
                (dir = EmptyString \/ ends_with_slash dir = true)).
  { destruct (last_slash url) as [H|(a & b & -> & Hb)].
    - rewrite filename_of_no_slash by exact H. split; [exact H|].
      exists EmptyString. split; [reflexivity|left; reflexivity].
    - rewrite filename_of_after_slash, filename_of_no_slash by exact Hb.
      split; [exact Hb|]. exists (a +:+ "/"). split.
      + rewrite append_assoc. reflexivity.
      + right. apply ends_with_slash_app. }
  destruct Hname as [Hno Hdir]. split; [exact Hno|]. split; [exact Hdir|].
  unfold target, path_join. rewrite no_slash_prefix by exact Hno.
  destruct (String.eqb save_dir EmptyString || ends_with_slash save_dir);
    [reflexivity|]. rewrite append_assoc. reflexivity.
Qed.

(** X2. For an asset name and a resolution without a slash, the three
    links of [get_hdri_link] end in the asset name, the resolution and the
    format, and that is the name of the downloaded file; with the
    script's resolution the file of the [hdr] link is
    [hdri_4k/<asset>_4k.hdr]. *)
Theorem hdri_link_names (asset_name resolution : string) :
  no_slash asset_name = true ->
  no_slash resolution = true ->
  (forall ext url,
     In (ext, url) (get_hdri_link asset_name resolution) ->
     filename_of url = asset_name +:+ "_" +:+ resolution +:+ "." +:+ ext) /\
  (forall url,
     links_get "hdr" (get_hdri_link asset_name RESOLUTION) = Ok url ->
     target SAVE_DIR url = asset_target asset_name).
Proof.
  intros Ha Hr.
  assert (Hone : forall ext res, no_slash ext = true -> no_slash res = true ->
    filename_of (DOWNLOAD_URL +:+ String "/" (ext +:+ String "/" (res +:+
                   String "/" (asset_name +:+ "_" +:+ res +:+ "." +:+ ext)))) =
      asset_name +:+ "_" +:+ res +:+ "." +:+ ext).
  { intros ext res He Hres.
    rewrite !filename_of_after_slash. apply filename_of_no_slash.
    rewrite !no_slash_app, Ha, Hres, He. reflexivity. }
  split.
  - intros ext url Hin. cbn [get_hdri_link In] in Hin.
    destruct Hin as [H|[H|[H|[]]]]; inversion H; subst ext url.
    + exact (Hone "hdr" resolution eq_refl Hr).
    + exact (Hone "exr" resolution eq_refl Hr).
    + exact (Hone "jpg" resolution eq_refl Hr).
  - intros url H. cbn in H. inversion H; subst url.
    unfold target, path_join.
    pose proof (Hone "hdr" RESOLUTION eq_refl eq_refl) as E.
    change (filename_of _) with
      (filename_of (DOWNLOAD_URL +:+ String "/" ("hdr" +:+ String "/" (RESOLUTION +:+
                   String "/" (asset_name +:+ "_" +:+ RESOLUTION +:+ "." +:+ "hdr"))))).
    rewrite E. rewrite no_slash_prefix
      by (rewrite !no_slash_app, Ha; reflexivity).
    reflexivity.
Qed.

End FileNameProperties.

Section DownloadFrame.
Import Py Outside Downloader Notions.

Lemma open_w_frame (dk : disk) path w :
  trace (snd (open_w dk path w)) = trace w /\
  forall p, p <> path -> files (snd (open_w dk path w)) !! p = files w !! p.
Proof.
  unfold open_w. destruct (can_open dk path); cbn; split; try reflexivity;
    intros p Hp; rewrite ?lookup_insert_ne by congruence; reflexivity.
Qed.

Lemma write_frame (dk : disk) path text w :
  trace (snd (write dk path text w)) = trace w /\
  forall p, p <> path -> files (snd (write dk path text w)) !! p = files w !! p.
Proof.
  unfold write.
  destruct (room dk path) as [n|]; [destruct (n <? _)%nat|]; cbn;
    (split; [reflexivity|]);
    intros p Hp; rewrite lookup_insert_ne by congruence; reflexivity.
Qed.

Lemma write_chunks_frame (dk : disk) path cs : forall w,
  trace (snd (write_chunks dk path cs w)) = trace w /\
  forall p, p <> path ->
            files (snd (write_chunks dk path cs w)) !! p = files w !! p.
Proof.
  induction cs as [|c rest IH]; intros w; cbn [write_chunks].
  - cbn. auto.
  - rewrite prog_bind_eq. destruct (write_frame dk path c w) as [Ht Hf].
    destruct (write dk path c w) as [[[]|e] w1]; cbn [snd] in *.
    + destruct (IH w1) as [Ht' Hf']. split; [congruence|].
      intros p Hp. rewrite Hf', Hf by exact Hp. reflexivity.
    + auto.
Qed.

Lemma download_file_try_frame (net : network) (dk : disk) url path w :
  trace (snd (download_file_try net dk url path w)) = trace w ++ [EGet url] /\
  forall p, p <> path ->
            files (snd (download_file_try net dk url path w)) !! p =
            files w !! p.
Proof.
  unfold download_file_try. rewrite prog_bind_eq. unfold requests_get.
  destruct (net (trace w) url) as [r|e]; [|cbn; auto].
  destruct (status_code r =? 200)%Z; [|cbn; auto].
  rewrite prog_bind_eq.
  set (w0 := World (trace w ++ [EGet url]) (files w)).
  destruct (open_w_frame dk path w0) as [Ht Hf].
  destruct (open_w dk path w0) as [[[]|e] w1]; cbn [snd] in *; [|auto].
  rewrite prog_bind_eq.
  destruct (write_chunks_frame dk path (chunks r) w1) as [Ht' Hf'].
  destruct (write_chunks dk path (chunks r) w1) as [[[]|e] w2]; cbn [snd] in *.
  - assert (Hw2 : trace w2 = trace w ++ [EGet url] /\
                  forall p, p <> path -> files w2 !! p = files w !! p).
    { split; [rewrite Ht', Ht; reflexivity|].
      intros p Hp. rewrite Hf', Hf by exact Hp. reflexivity. }
    unfold lift. destruct (broken r); exact Hw2.
  - split; [rewrite Ht', Ht; reflexivity|].
    intros p Hp. rewrite Hf', Hf by exact Hp. reflexivity.
Qed.

(** A call of [download_file]: what it returns and what it may touch. *)
Lemma download_file_frame (net : network) (dk : disk)
    (url save_dir : string) (w : world) :
  exists w',
    download_file net dk url save_dir w = (Ok tt, w') /\
    (trace w' = trace w \/ trace w' = trace w ++ [EGet url]) /\
    forall p, p <> target save_dir url -> files w' !! p = files w !! p.
Proof.
  unfold download_file, target. cbv zeta. rewrite prog_bind_eq.
  unfold path_exists. destruct (bool_decide _).
  - exists w. cbn. auto.
  - unfold download_file_guarded.
    destruct (download_file_try_frame net dk url
                (path_join save_dir (filename_of url)) w) as [Ht Hf].
    destruct (download_file_try net dk url _ w) as [[[]|e] w']; cbn [snd] in *;
      exists w'; auto.
Qed.

(** X3. [download_file] never raises, makes no request or the one for its
    URL, and leaves every file other than its own as it was; the file it
    may write is the one named after the last piece of the URL, in
    [save_dir]. *)
Theorem download_file_confined (net : network) (dk : disk)
    (url save_dir : string) (w : world) :
  exists w',
    download_file net dk url save_dir w = (Ok tt, w') /\
    (trace w' = trace w \/ trace w' = trace w ++ [EGet url]) /\
    (forall p, p <> target save_dir url -> files w' !! p = files w !! p) /\
    (is_Some (files w !! target save_dir url) -> w' = w).
Proof.
  destruct (download_file_frame net dk url save_dir w) as (w' & E & Ht & Hf).
  exists w'. split; [exact E|]. split; [exact Ht|]. split; [exact Hf|].
  intros Hthere. rewrite download_file_skip in E.
  - inversion E. reflexivity.
  - exact Hthere.
Qed.

(** X4. A download that fails before anything is written leaves no file:
    when the request raises, or the file cannot be opened after a 200
    answer, the files are as they were, nothing is raised, and the next
    call, finding no file, asks again. *)
Theorem download_failure_leaves_no_file (net : network) (dk : disk)
    (url save_dir : string) (w : world) :
  files w !! target save_dir url = None ->
  (exists e, net (trace w) url = Raise e) \/
  (exists r, net (trace w) url = Ok r /\ status_code r = 200%Z /\
             can_open dk (target save_dir url) = false) ->
  download_file net dk url save_dir w =
    (Ok tt, World (trace w ++ [EGet url]) (files w)) /\
  forall net' dk',
    trace (snd (download_file net' dk' url save_dir
                  (World (trace w ++ [EGet url]) (files w)))) =
    trace w ++ [EGet url; EGet url].
Proof.
  intros Hnone Hfail. split.
  - unfold download_file. cbv zeta. fold (target save_dir url).
    rewrite prog_bind_eq. unfold path_exists.
    rewrite bool_decide_eq_false_2
      by (rewrite Hnone; intros [? ?]; discriminate).
    unfold download_file_guarded, download_file_try.
    rewrite prog_bind_eq. unfold requests_get.
    destruct Hfail as [[e ->]|(r & -> & Hs & Hopen)]; [reflexivity|].
    rewrite Hs. cbn [Z.eqb Pos.eqb]. rewrite prog_bind_eq.
    unfold open_w. rewrite Hopen. reflexivity.
  - intros net' dk'.
    unfold download_file. cbv zeta. fold (target save_dir url).
    rewrite prog_bind_eq. unfold path_exists. cbn [files].
    rewrite bool_decide_eq_false_2
      by (rewrite Hnone; intros [? ?]; discriminate).
    unfold download_file_guarded.
    destruct (download_file_try_frame net' dk' url (target save_dir url)
                (World (trace w ++ [EGet url]) (files w))) as [Ht _].
    destruct (download_file_try net' dk' url _ _) as [[[]|e] w'];
      cbn [snd trace] in *; rewrite Ht, <- app_assoc; reflexivity.
Qed.

End DownloadFrame.

Section DiskFull.
Import Py Outside Downloader Notions.

Lemma take_str_app_le n a b :
  n <= String.length a -> take_str n (a +:+ b) = take_str n a.
Proof.
  unfold take_str. revert n. induction a as [|c a IH]; intros n Hn.
  - cbn in Hn. replace n with 0 by lia. destruct b; reflexivity.
  - rewrite append_cons. destruct n as [|n]; [reflexivity|].
    cbn [String.substring]. rewrite IH by (cbn in Hn; lia). reflexivity.
Qed.

(** Chunks written to a file of [old] on a disk with room for [n]
    characters: all of them when they fit, the first [n] characters when
    they do not. *)
Lemma write_chunks_room dk path n cs : forall w old,
  room dk path = Some n ->
  files w !! path = Some old ->
  String.length old <= n ->
  exists w',
    snd (write_chunks dk path cs w) = w' /\
    if (n <? String.length old + String.length (join_chunks cs))%nat
    then fst (write_chunks dk path cs w) = Raise OtherException /\
         files w' !! path = Some (take_str n (old +:+ join_chunks cs))
    else fst (write_chunks dk path cs w) = Ok tt /\
         files w' !! path = Some (old +:+ join_chunks cs).
Proof.
  induction cs as [|c rest IH]; intros w old Hroom Hold Hlen;
    cbn [write_chunks join_chunks fold_right].
  - eexists. split; [reflexivity|].
    match goal with
    | |- context [(n <? ?b)%nat] =>
        replace (n <? b)%nat with false
          by (symmetry; apply Nat.ltb_ge; cbn [String.length]; lia)
    end.
    cbn. rewrite append_nil_r. auto.
  - fold (join_chunks rest). rewrite prog_bind_eq.
    assert (Hw : write dk path c w =
      if (n <? String.length old + String.length c)%nat
      then (Raise OtherException,
            World (trace w) (<[path := take_str n (old +:+ c)]> (files w)))
      else (Ok tt, World (trace w) (<[path := old +:+ c]> (files w))))
      by (unfold write; rewrite Hroom, Hold; reflexivity).
    rewrite Hw. clear Hw.
    destruct (Nat.ltb_spec n (String.length old + String.length c)) as [Hc|Hc].
    + eexists. split; [reflexivity|].
      match goal with
      | |- context [(n <? ?b)%nat] =>
          replace (n <? b)%nat with true
            by (symmetry; apply Nat.ltb_lt; rewrite length_append; lia)
      end.
      cbn [fst snd files]. split; [reflexivity|].
      rewrite lookup_insert_eq. rewrite <- append_assoc.
      rewrite (take_str_app_le n (old +:+ c) (join_chunks rest))
        by (rewrite length_append; lia).
      reflexivity.
    + destruct (IH (World (trace w) (<[path := old +:+ c]> (files w)))
                   (old +:+ c) Hroom) as (w' & Hw' & Hres).
      { cbn. apply lookup_insert_eq. }
      { rewrite length_append. lia. }
      exists w'. split; [exact Hw'|].
      rewrite !length_append in *. rewrite append_assoc in Hres.
      rewrite Nat.add_assoc. exact Hres.
Qed.

(** X5. When the disk fails before the end of the body, the file is left
    with the characters that fitted, nothing is raised, and every later
    call skips the truncated file. *)
Theorem download_disk_full (net : network) (dk : disk)
    (url save_dir : string) (w : world) (r : response) (n : nat) :
  files w !! target save_dir url = None ->
  net (trace w) url = Ok r ->
  status_code r = 200%Z ->
  can_open dk (target save_dir url) = true ->
  room dk (target save_dir url) = Some n ->
  n < String.length (join_chunks (chunks r)) ->
  exists w1,
    download_file net dk url save_dir w = (Ok tt, w1) /\
    files w1 !! target save_dir url =
      Some (take_str n (join_chunks (chunks r))) /\
    forall net' dk', download_file net' dk' url save_dir w1 = (Ok tt, w1).
Proof.
  intros Hnone Hr Hs Hopen Hroom Hn.
  set (w0 := World (trace w ++ [EGet url])
                   (<[target save_dir url := EmptyString]> (files w))).
  destruct (write_chunks_room dk (target save_dir url) n (chunks r) w0
              EmptyString Hroom) as (w1 & Hw1 & Hres).
  { cbn. apply lookup_insert_eq. }
  { cbn. lia. }
  match type of Hres with
  | context [(n <? ?b)%nat] =>
      replace (n <? b)%nat with true in Hres
        by (symmetry; apply Nat.ltb_lt; cbn [String.length]; lia)
  end.
  destruct Hres as [Hraise Hfile]. rewrite append_nil_l in Hfile.
  exists w1. split; [|split].
  - unfold download_file. cbv zeta. fold (target save_dir url).
    rewrite prog_bind_eq. unfold path_exists.
    rewrite bool_decide_eq_false_2
      by (rewrite Hnone; intros [? ?]; discriminate).
    unfold download_file_guarded, download_file_try.
    rewrite prog_bind_eq. unfold requests_get. rewrite Hr, Hs.
    cbn [Z.eqb Pos.eqb]. rewrite prog_bind_eq. unfold open_w.
    rewrite Hopen. cbn [trace files]. fold w0. rewrite prog_bind_eq.
    destruct (write_chunks dk (target save_dir url) (chunks r) w0)
      as [res w1'] eqn:E.
    cbn [fst snd] in *. subst w1' res. reflexivity.
  - exact Hfile.
  - intros net' dk'. apply download_file_skip.
    fold (target save_dir url). rewrite Hfile. eauto.
Qed.

End DiskFull.

(* ===================================================================== *)
(** ** The downloader: listing and main loop *)
(* ===================================================================== *)

Section DownloaderMain.
Import Py Outside Downloader Notions.

(** X6. The downloader's [get_asset_list] never raises: it returns the
    empty list when the request raises, when the status is an error, when
    the body is not JSON or not an object; otherwise the keys of the
    object, all of them, in its order. *)
Theorem downloader_get_asset_list_result (api : Harvester.network)
    (w : world) :
  let w' := World (trace w ++ [EGet listing_url]) (files w) in
  (forall e, api (trace w) listing_url = Raise e ->
             get_asset_list api w = (Ok [], w')) /\
  (forall r e,
     api (trace w) listing_url = Ok r ->
     Harvester.raise_for_status r = Raise e \/ Harvester.json r = Raise e \/
     (exists body, Harvester.json r = Ok body /\ keys_of body = Raise e) ->
     get_asset_list api w = (Ok [], w')) /\
  (forall r d,
     api (trace w) listing_url = Ok r ->
     Harvester.raise_for_status r = Ok tt ->
     Harvester.json r = Ok (VDict d) ->
     get_asset_list api w = (Ok (dict_keys d), w')).
Proof.
  intros w'. unfold get_asset_list, get_asset_list_try.
  rewrite prog_bind_eq. unfold api_get. fold w'.
  split; [|split].
  - intros e ->. reflexivity.
  - intros r e -> Hfail. rewrite prog_bind_eq. unfold lift at 1.
    destruct (Harvester.raise_for_status r) as [[]|e']; [|reflexivity].
    destruct Hfail as [Hfail|[Hfail|(body & Hbody & Hfail)]]; [discriminate| |].
    + rewrite prog_bind_eq. unfold lift at 1. rewrite Hfail. reflexivity.
    + rewrite prog_bind_eq. unfold lift at 1. rewrite Hbody.
      rewrite prog_bind_eq. unfold lift at 1. rewrite Hfail. reflexivity.
  - intros r d -> Hs Hj. rewrite prog_bind_eq. unfold lift at 1. rewrite Hs.
    rewrite prog_bind_eq. unfold lift at 1. rewrite Hj. reflexivity.
Qed.

Lemma downloader_get_asset_list_returns (api : Harvester.network) w :
  exists assets,
    get_asset_list api w =
      (Ok assets, World (trace w ++ [EGet listing_url]) (files w)).
Proof.
  unfold get_asset_list.
  assert (H : snd (get_asset_list_try api w) =
              World (trace w ++ [EGet listing_url]) (files w)).
  { unfold get_asset_list_try. rewrite prog_bind_eq. unfold api_get.
    destruct (api (trace w) listing_url) as [r|e]; [|reflexivity].
    rewrite prog_bind_eq. unfold lift at 1.
    destruct (Harvester.raise_for_status r) as [[]|e]; [|reflexivity].
    rewrite prog_bind_eq. unfold lift at 1.
    destruct (Harvester.json r) as [body|e]; [|reflexivity].
    rewrite prog_bind_eq. unfold lift at 1.
    destruct (keys_of body); reflexivity. }
  destruct (get_asset_list_try api w) as [[assets|e] w']; cbn [snd] in H;
    subst w'; eauto.
Qed.

(** The link [main] takes for an asset. *)
Lemma hdr_link asset :
  exists url, links_get "hdr" (get_hdri_link asset RESOLUTION) = Ok url.
Proof. eexists. reflexivity. Qed.

(** One turn of the loop of [main]: no exception, the request for the
    link or none, one pause, and no file touched but the asset's. *)
Lemma download_asset_spec (net : network) (dk : disk) asset w :
  exists url w' reqs,
    links_get "hdr" (get_hdri_link asset RESOLUTION) = Ok url /\
    download_asset net dk asset w = (Ok tt, w') /\
    trace w' = trace w ++ reqs ++ [ESleep 1] /\
    (reqs = [] \/ reqs = [EGet url]) /\
    (is_Some (files w !! target SAVE_DIR url) -> reqs = [] /\ files w' = files w) /\
    forall p, p <> target SAVE_DIR url -> files w' !! p = files w !! p.
Proof.
  destruct (hdr_link asset) as [url Hurl].
  destruct (download_file_frame net dk url SAVE_DIR w)
    as (w1 & E & Htr & Hf).
  exists url, (World (trace w1 ++ [ESleep 1]) (files w1)).
  exists (if bool_decide (is_Some (files w !! target SAVE_DIR url))
          then [] else [EGet url]).
  split; [exact Hurl|].
  assert (Hrun : download_asset net dk asset w =
                 (Ok tt, World (trace w1 ++ [ESleep 1]) (files w1))).
  { unfold download_asset. cbv zeta. rewrite Hurl.
    rewrite prog_bind_eq. cbn [lift]. rewrite prog_bind_eq, E. reflexivity. }
  split; [exact Hrun|]. cbn [trace files].
  destruct (bool_decide (is_Some (files w !! target SAVE_DIR url))) eqn:Hd.
  - apply bool_decide_eq_true_1 in Hd.
    rewrite (download_file_skip net dk url SAVE_DIR w Hd) in E.
    inversion E; subst w1. repeat split; auto.
  - apply bool_decide_eq_false_1 in Hd.
    assert (Htr' : trace w1 = trace w ++ [EGet url]).
    { revert E. unfold download_file. cbv zeta. fold (target SAVE_DIR url).
      rewrite prog_bind_eq. unfold path_exists.
      rewrite bool_decide_eq_false_2 by exact Hd.
      unfold download_file_guarded.
      destruct (download_file_try_frame net dk url (target SAVE_DIR url) w)
        as [Ht _].
      destruct (download_file_try net dk url _ w) as [[[]|e] w2];
        cbn [snd] in Ht; intros H; inversion H; subst w2; exact Ht. }
    rewrite Htr', <- app_assoc. repeat split; auto; contradiction.
Qed.

End DownloaderMain.

Section DownloaderLoop.
Import Py Outside Downloader Notions.

Lemma download_assets_spec (net : network) (dk : disk) assets : forall w,
  exists w' more,
    download_assets net dk assets w = (Ok tt, w') /\
    trace w' = trace w ++ more /\
    pauses_of more = repeat (ESleep 1) (length assets) /\
    length (requests_of more) <= length assets /\
    (forall p,
       (forall asset url,
          In asset assets ->
          links_get "hdr" (get_hdri_link asset RESOLUTION) = Ok url ->
          p <> target SAVE_DIR url) ->
       files w' !! p = files w !! p) /\
    ((forall asset url,
        In asset assets ->
        links_get "hdr" (get_hdri_link asset RESOLUTION) = Ok url ->
        is_Some (files w !! target SAVE_DIR url)) ->
     more = repeat (ESleep 1) (length assets) /\ files w' = files w).
Proof.
  induction assets as [|asset rest IH]; intros w; cbn [download_assets].
  - exists w, []. cbn. rewrite app_nil_r. repeat split; auto.
  - rewrite prog_bind_eq.
    destruct (download_asset_spec net dk asset w)
      as (url & w1 & reqs & Hurl & -> & Ht1 & Hreqs & Hskip & Hf1).
    destruct (IH w1) as (w2 & more & -> & Ht2 & Hp & Hr & Hf2 & Hall).
    exists w2, (reqs ++ [ESleep 1] ++ more).
    split; [reflexivity|]. split.
    { rewrite Ht2, Ht1, <- !app_assoc. reflexivity. }
    unfold pauses_of, requests_of in *. rewrite !List.filter_app.
    split; [|split; [|split]].
    + cbn [List.filter is_get negb app length repeat]. rewrite Hp.
      destruct Hreqs as [->| ->]; reflexivity.
    + cbn [List.filter is_get app]. rewrite length_app.
      destruct Hreqs as [->| ->]; cbn [List.filter is_get length]; lia.
    + intros p Hp'. rewrite Hf2, Hf1.
      * reflexivity.
      * apply (Hp' asset url); [left; reflexivity|exact Hurl].
      * intros a u Ha Hu. apply (Hp' a u); [right; exact Ha|exact Hu].
    + intros Hpresent.
      destruct (Hskip (Hpresent asset url (or_introl eq_refl) Hurl))
        as [-> Hfiles].
      destruct Hall as [-> Hfiles2].
      { intros a u Ha Hu. rewrite Hfiles.
        apply (Hpresent a u); [right; exact Ha|exact Hu]. }
      split; [reflexivity|congruence].
Qed.

(** X7. The downloader's [main] never raises; after the listing request it
    handles the first ten assets listed and no other: one pause of a
    second for each, at most one request for each, and no file touched
    but the [hdr] files of these assets in the directory of the
    resolution.  Nothing listed, it stops after the listing request. *)
Theorem downloader_main_bounded (api : Harvester.network) (net : network)
    (dk : disk) (w : world) :
  exists assets w' more,
    get_asset_list api w =
      (Ok assets, World (trace w ++ [EGet listing_url]) (files w)) /\
    main api net dk w = (Ok tt, w') /\
    trace w' = trace w ++ EGet listing_url :: more /\
    pauses_of more = repeat (ESleep 1) (length (take 10 assets)) /\
    length (take 10 assets) <= 10 /\
    length (requests_of more) <= length (take 10 assets) /\
    (forall p,
       (forall asset url,
          In asset (take 10 assets) ->
          links_get "hdr" (get_hdri_link asset RESOLUTION) = Ok url ->
          p <> target SAVE_DIR url) ->
       files w' !! p = files w !! p).
Proof.
  destruct (downloader_get_asset_list_returns api w) as [assets Hl].
  exists assets. unfold main. rewrite prog_bind_eq, Hl.
  set (w0 := World (trace w ++ [EGet listing_url]) (files w)).
  destruct (download_assets_spec net dk (take 10 assets) w0)
    as (w' & more & E & Ht & Hp & Hr & Hf & _).
  assert (Hrun : match assets with
                 | [] => mret tt
                 | _ => download_assets net dk (take max_downloads assets)
                 end w0 = (Ok tt, w')).
  { destruct assets as [|a l]; [|exact E].
    cbn in E. inversion E. reflexivity. }
  exists w', more. split; [reflexivity|]. split; [exact Hrun|].
  split; [rewrite Ht; cbn; rewrite <- app_assoc; reflexivity|].
  split; [exact Hp|]. split; [rewrite length_take; lia|].
  split; [exact Hr|]. intros p Hp'. rewrite (Hf p Hp'). reflexivity.
Qed.

(** X8. When the [hdr] file of each of the first ten assets listed is
    there, [main] makes the listing request and no other, pauses once for
    each of them and leaves the files as they are. *)
Theorem downloader_main_rerun (api : Harvester.network) (net : network)
    (dk : disk) (w : world) (assets : list string) :
  fst (get_asset_list api w) = Ok assets ->
  (forall asset url,
     In asset (take 10 assets) ->
     links_get "hdr" (get_hdri_link asset RESOLUTION) = Ok url ->
     is_Some (files w !! target SAVE_DIR url)) ->
  main api net dk w =
    (Ok tt,
     World (trace w ++ EGet listing_url ::
              repeat (ESleep 1) (length (take 10 assets)))
           (files w)).
Proof.
  intros Hl Hpresent.
  destruct (downloader_get_asset_list_returns api w) as [assets' Hl'].
  rewrite Hl' in Hl. cbn in Hl. inversion Hl; subst assets'.
  unfold main. rewrite prog_bind_eq, Hl'.
  set (w0 := World (trace w ++ [EGet listing_url]) (files w)).
  destruct (download_assets_spec net dk (take 10 assets) w0)
    as (w' & more & E & Ht & _ & _ & _ & Hall).
  destruct (Hall Hpresent) as [-> Hfiles].
  assert (Hw' : w' = World (trace w ++ EGet listing_url ::
                              repeat (ESleep 1) (length (take 10 assets)))
                           (files w)).
  { destruct w' as [tr fs]. cbn in Ht, Hfiles. subst tr fs.
    rewrite <- app_assoc. reflexivity. }
  destruct assets as [|a l]; [reflexivity|rewrite <- Hw'; exact E].
Qed.

End DownloaderLoop.

(* ===================================================================== *)
(** ** The harvester: how much one call does *)
(* ===================================================================== *)

Section Bounds.
Import Py Outside Harvester Notions.

Lemma adds_bind {A B} j k (m : prog frame A) (f : A -> prog frame B) :
  adds j m -> (forall a, adds k (f a)) -> adds (j + k) (m ≫= f).
Proof.
  intros Hm Hf fr. rewrite prog_bind_eq.
  destruct (Hm fr) as (more1 & Ht1 & Hf1 & Hp1 & Hl1).
  destruct (m fr) as [[a|e] fr1]; cbn [snd] in *.
  - destruct (Hf a fr1) as (more2 & Ht2 & Hf2 & Hp2 & Hl2).
    exists (more1 ++ more2). rewrite Ht2, Ht1, Hf2, Hf1, app_assoc.
    unfold pauses_of in *. rewrite List.filter_app, Hp1, Hp2, length_app.
    repeat split; auto. lia.
  - exists more1. repeat split; auto. lia.
Qed.

Lemma adds_mono {A} j k (m : prog frame A) : j <= k -> adds j m -> adds k m.
Proof.
  intros Hjk Hm fr. destruct (Hm fr) as (more & ? & ? & ? & ?).
  exists more. repeat split; auto. lia.
Qed.

Lemma adds_pure {A} (m : prog frame A) :
  (forall fr, outside (snd (m fr)) = outside fr) -> adds 0 m.
Proof.
  intros H fr. exists []. rewrite H, app_nil_r. repeat split; auto.
Qed.

Lemma adds_requests_get net url : adds 1 (io (requests_get net url)).
Proof. intros fr. exists [EGet url]. repeat split; auto. Qed.

Lemma adds_request_info net : adds 2 (request_info net).
Proof.
  unfold request_info.
  apply (adds_bind 0 2); [apply adds_pure; reflexivity|]. intros aid.
  apply (adds_bind 1 1); [apply adds_requests_get|]. intros r.
  destruct (status_code r =? 404)%Z; [|apply (adds_mono 0); [lia|apply adds_pure; reflexivity]].
  apply (adds_bind 0 1); [apply adds_pure; reflexivity|]. intros _.
  apply (adds_bind 0 1); [apply adds_pure; reflexivity|]. intros aid'.
  apply adds_requests_get.
Qed.

Lemma adds_build_asset_info net r : adds 1 (build_asset_info net r).
Proof.
  unfold build_asset_info.
  destruct (status_code r =? 404)%Z;
    [apply (adds_mono 0); [lia|apply adds_pure; reflexivity]|].
  apply (adds_bind 0 1); [apply adds_pure; reflexivity|]. intros _.
  apply (adds_bind 0 1); [apply adds_pure; reflexivity|]. intros data.
  apply (adds_bind 0 1); [apply adds_pure; reflexivity|]. intros aid.
  apply (adds_bind 1 0); [apply adds_requests_get|]. intros fr.
  apply (adds_bind 0 0); [apply adds_pure; reflexivity|]. intros fd.
  apply (adds_bind 0 0); [apply adds_pure; reflexivity|]. intros mr.
  apply (adds_bind 0 0); [apply adds_pure; reflexivity|]. intros au.
  apply (adds_bind 0 0); [apply adds_pure; reflexivity|]. intros info.
  apply adds_pure. reflexivity.
Qed.

Lemma adds_try net : adds 3 (get_asset_info_try net).
Proof.
  unfold get_asset_info_try.
  apply (adds_bind 2 1); [apply adds_request_info|].
  intros r. apply adds_build_asset_info.
Qed.

(** The loop over the attempts: no exception, the files untouched, at most
    three requests for each attempt and a pause of one second between two
    attempts. *)
Lemma get_asset_info_loop_bounded net max_retries (k : nat) :
  forall (a : Z) fr,
    (a + Z.of_nat k)%Z = max_retries ->
    exists r fr' more,
      get_asset_info_loop net (seqZ a (Z.of_nat k)) max_retries fr =
        (Ok r, fr') /\
      trace (outside fr') = trace (outside fr) ++ more /\
      files (outside fr') = files (outside fr) /\
      length (requests_of more) <= 3 * k /\
      length (pauses_of more) <= k - 1 /\
      Forall (fun e => e = ESleep 1) (pauses_of more).
Proof.
  induction k as [|k IH]; intros a fr Ha.
  - exists None, fr, []. cbn. rewrite app_nil_r. repeat split; auto.
  - rewrite seqZ_cons by lia.
    replace (Z.pred (Z.of_nat (S k))) with (Z.of_nat k) by lia.
    cbn [get_asset_info_loop].
    destruct (adds_try net fr) as (more1 & Ht1 & Hf1 & Hp1 & Hl1).
    assert (Hr1 : length (requests_of more1) <= 3).
    { unfold requests_of. pose proof (List.filter_length_le is_get more1). lia. }
    assert (Hstop : forall r fr1,
      trace (outside fr1) = trace (outside fr) ++ more1 ->
      files (outside fr1) = files (outside fr) ->
      exists r' fr' more,
        (Ok r : result (option value), fr1) = (Ok r', fr') /\
        trace (outside fr') = trace (outside fr) ++ more /\
        files (outside fr') = files (outside fr) /\
        length (requests_of more) <= 3 * S k /\
        length (pauses_of more) <= S k - 1 /\
        Forall (fun e => e = ESleep 1) (pauses_of more)).
    { intros r fr1 Ht Hf. exists r, fr1, more1.
      rewrite Hp1. cbn [length]. repeat split; auto; lia. }
    destruct (get_asset_info_try net fr) as [[r|[]] fr1]; cbn [snd] in *;
      [apply Hstop; assumption| |apply Hstop; assumption].
    destruct (Z.eqb_spec a (max_retries - 1)) as [_|Hne];
      [apply Hstop; assumption|].
    destruct k as [|k']; [lia|].
    rewrite prog_bind_eq. cbn [io sleep log].
    set (fr2 := Frame (asset_id fr1)
                      (World (trace (outside fr1) ++ [ESleep 1])
                             (files (outside fr1)))).
    destruct (IH (Z.succ a) fr2) as (r & fr' & more2 & E & Ht2 & Hf2 & Hr2 & Hp2 & Hall2);
      [lia|].
    exists r, fr', (more1 ++ [ESleep 1] ++ more2).
    split; [exact E|]. split.
    { rewrite Ht2. cbn [fr2 outside trace]. rewrite Ht1, <- !app_assoc.
      reflexivity. }
    split; [rewrite Hf2; cbn [fr2 outside files]; exact Hf1|].
    unfold requests_of, pauses_of in *. rewrite !List.filter_app, !length_app.
    rewrite Hp1. cbn [List.filter is_get negb length app].
    split; [lia|]. split; [lia|].
    constructor; [reflexivity|exact Hall2].
Qed.

(** X9. [get_asset_info] never raises and never touches the files; what
    it adds to the trace is at most three requests for each of the
    [max_retries] attempts and at most [max_retries - 1] pauses, each of
    one second; with [max_retries] zero or less it does nothing and
    returns [None]. *)
Theorem get_asset_info_bounded (net : network) (id : string)
    (max_retries : Z) (w : world) :
  exists r w' more,
    get_asset_info net id max_retries w = (Ok r, w') /\
    trace w' = trace w ++ more /\
    files w' = files w /\
    length (requests_of more) <= 3 * Z.to_nat max_retries /\
    length (pauses_of more) <= Z.to_nat max_retries - 1 /\
    Forall (fun e => e = ESleep 1) (pauses_of more) /\
    ((max_retries <= 0)%Z -> r = None /\ more = []).
Proof.
  unfold get_asset_info.
  assert (Hseq : seqZ 0 max_retries = seqZ 0 (Z.of_nat (Z.to_nat max_retries))).
  { destruct (Z.le_gt_cases max_retries 0).
    - rewrite !seqZ_nil by lia. reflexivity.
    - rewrite Z2Nat.id by lia. reflexivity. }
  destruct (Z.le_gt_cases max_retries 0) as [Hle|Hgt].
  - rewrite seqZ_nil by lia. cbn.
    exists None, w, []. rewrite app_nil_r. cbn. repeat split; auto; lia.
  - rewrite Hseq.
    destruct (get_asset_info_loop_bounded net max_retries
                (Z.to_nat max_retries) 0 (Frame id w))
      as (r & fr' & more & -> & Ht & Hf & Hr & Hp & Hall); [lia|].
    exists r, (outside fr'), more. cbn [outside] in *.
    repeat split; auto; lia.
Qed.

End Bounds.

(* ===================================================================== *)
(** ** The harvester: which failures are tried again *)
(* ===================================================================== *)

Section Failures.
Import Py Outside Harvester Notions.

Variable net : network.

(** Attempts that all fail on the detail request, [asset_id] unchanged. *)
Lemma get_asset_info_loop_failing id max_retries :
  (forall tr fs,
     get_asset_info_try net (Frame id (World tr fs)) =
       (Raise RequestException,
        Frame id (World (tr ++ [EGet (info_url id)]) fs))) ->
  forall (k : nat) (a : Z) tr fs,
    (a + Z.of_nat k)%Z = max_retries ->
    get_asset_info_loop net (seqZ a (Z.of_nat k)) max_retries
                        (Frame id (World tr fs)) =
      (Ok None, Frame id (World (tr ++ retry_trace id k) fs)).
Proof.
  intros Htry k. induction k as [|k IH]; intros a tr fs Ha.
  - cbn. rewrite app_nil_r. reflexivity.
  - rewrite seqZ_cons by lia.
    replace (Z.pred (Z.of_nat (S k))) with (Z.of_nat k) by lia.
    cbn [get_asset_info_loop]. rewrite Htry.
    destruct k as [|k].
    + replace (a =? max_retries - 1)%Z with true
        by (symmetry; apply Z.eqb_eq; lia).
      reflexivity.
    + replace (a =? max_retries - 1)%Z with false
        by (symmetry; apply Z.eqb_neq; lia).
      rewrite prog_bind_eq. cbn [io sleep log outside trace files asset_id].
      rewrite IH by lia.
      rewrite retry_trace_step, <- !app_assoc. reflexivity.
Qed.

(** The detail request answered with another status than 404. *)
Lemma request_info_plain id tr fs r :
  net tr (info_url id) = Ok r ->
  status_code r <> 404%Z ->
  request_info net (Frame id (World tr fs)) =
    (Ok r, Frame id (World (tr ++ [EGet (info_url id)]) fs)).
Proof.
  intros Hr Hs. unfold request_info.
  rewrite prog_bind_eq. cbn [get_asset_id asset_id].
  rewrite prog_bind_eq. unfold io at 1, requests_get at 1.
  cbn [outside trace files asset_id]. rewrite Hr.
  destruct (Z.eqb_spec (status_code r) 404) as [E|_]; [contradiction|].
  reflexivity.
Qed.

(** X10. An error status on the detail request is tried again like a
    transport error: when every answer for [id] has a status from 400 to
    599 other than 404, [get_asset_info] makes [max_retries] requests, a
    pause of one second between two of them, and returns [None]. *)
Theorem http_error_status_retried (id : string) (max_retries : Z) (w : world) :
  (forall tr, exists r,
     net tr (info_url id) = Ok r /\ status_code r <> 404%Z /\
     (400 <= status_code r < 600)%Z) ->
  get_asset_info net id max_retries w =
    (Ok None,
     World (trace w ++ retry_trace id (Z.to_nat max_retries)) (files w)).
Proof.
  intros Hnet.
  assert (Htry : forall tr fs,
    get_asset_info_try net (Frame id (World tr fs)) =
      (Raise RequestException,
       Frame id (World (tr ++ [EGet (info_url id)]) fs))).
  { intros tr fs. destruct (Hnet tr) as (r & Hr & H404 & Hlo & Hhi).
    unfold get_asset_info_try.
    rewrite prog_bind_eq, (request_info_plain id tr fs r Hr H404).
    unfold build_asset_info.
    destruct (Z.eqb_spec (status_code r) 404) as [E|_]; [contradiction|].
    rewrite prog_bind_eq. unfold lift at 1, raise_for_status.
    replace (400 <=? status_code r)%Z with true
      by (symmetry; apply Z.leb_le; lia).
    replace (status_code r <? 600)%Z with true
      by (symmetry; apply Z.ltb_lt; lia).
    reflexivity. }
  unfold get_asset_info. destruct w as [tr fs].
  destruct (Z.le_gt_cases max_retries 0) as [Hle|Hgt].
  - rewrite seqZ_nil by lia.
    replace (Z.to_nat max_retries) with 0%nat by lia.
    cbn. rewrite app_nil_r. reflexivity.
  - rewrite <- (Z2Nat.id max_retries) at 1 by lia.
    rewrite (get_asset_info_loop_failing id max_retries Htry) by lia.
    reflexivity.
Qed.

(** X11. An exception that is not of [requests] ends the call at once:
    when the body of the detail answer is not JSON and the exception of
    [response.json()] is such a one, [get_asset_info] returns [None] after
    this one request, whatever attempts are left. *)
Theorem unexpected_error_not_retried (id : string) (max_retries : Z)
    (w : world) (r : response) :
  (0 < max_retries)%Z ->
  net (trace w) (info_url id) = Ok r ->
  status_code r <> 404%Z ->
  raise_for_status r = Ok tt ->
  json r = Raise OtherException ->
  get_asset_info net id max_retries w =
    (Ok None, World (trace w ++ [EGet (info_url id)]) (files w)).
Proof.
  intros Hpos Hr H404 Hs Hj. destruct w as [tr fs]. cbn [trace files] in *.
  unfold get_asset_info. rewrite seqZ_cons by lia.
  cbn [get_asset_info_loop]. unfold get_asset_info_try.
  rewrite prog_bind_eq, (request_info_plain id tr fs r Hr H404).
  unfold build_asset_info.
  destruct (Z.eqb_spec (status_code r) 404) as [E|_]; [contradiction|].
  rewrite prog_bind_eq. unfold lift at 1. rewrite Hs.
  rewrite prog_bind_eq. unfold lift at 1. rewrite Hj.
  reflexivity.
Qed.

End Failures.

Section Rebinding.
Import Py Outside Harvester Notions.

Variable net : network.

(** After a 404 the attempt goes on under the identifier with [_4k]. *)
Lemma request_info_404 id tr fs r1 :
  net tr (info_url id) = Ok r1 ->
  status_code r1 = 404%Z ->
  request_info net (Frame id (World tr fs)) =
    (net (tr ++ [EGet (info_url id)]) (info_url (id +:+ "_4k")),
     Frame (id +:+ "_4k")
           (World (tr ++ [EGet (info_url id); EGet (info_url (id +:+ "_4k"))])
                  fs)).
Proof.
  intros Hr1 Hs1.
  unfold request_info, get_asset_id, set_asset_id, io, requests_get.
  unfold mbind, prog_bind. cbn. rewrite Hr1, Hs1. cbn.
  rewrite <- !app_assoc. reflexivity.
Qed.

(** Every attempt starts with the detail request for the identifier
    [asset_id] names then. *)
Lemma get_asset_info_try_first fr :
  exists more,
    trace (outside (snd (get_asset_info_try net fr))) =
      trace (outside fr) ++ EGet (info_url (asset_id fr)) :: more.
Proof.
  destruct fr as [id [tr fs]]. cbn [outside trace asset_id].
  unfold get_asset_info_try. rewrite prog_bind_eq.
  destruct (net tr (info_url id)) as [r1|e] eqn:Hr1.
  - destruct (Z.eqb_spec (status_code r1) 404) as [Hs|Hs].
    + rewrite (request_info_404 id tr fs r1 Hr1 Hs).
      destruct (net _ (info_url (id +:+ "_4k"))) as [r2|e].
      * destruct (extends_build_asset_info net r2
                    (Frame (id +:+ "_4k")
                       (World (tr ++ [EGet (info_url id);
                                      EGet (info_url (id +:+ "_4k"))]) fs)))
          as [more HM].
        rewrite HM. cbn [outside trace]. rewrite <- app_assoc. eauto.
      * cbn. eauto.
    + rewrite (request_info_plain net id tr fs r1 Hr1 Hs).
      destruct (extends_build_asset_info net r1
                  (Frame id (World (tr ++ [EGet (info_url id)]) fs)))
        as [more HM].
      rewrite HM. cbn [outside trace]. rewrite <- app_assoc. eauto.
  - unfold request_info. rewrite prog_bind_eq. cbn [get_asset_id asset_id].
    rewrite prog_bind_eq. unfold io at 1, requests_get at 1.
    cbn [outside trace files asset_id]. rewrite Hr1. cbn. eauto.
Qed.

(** What the loop adds comes after what its first attempt adds. *)
Lemma get_asset_info_loop_after_try a rest max_retries fr :
  exists more,
    trace (outside (snd (get_asset_info_loop net (a :: rest) max_retries fr))) =
      trace (outside (snd (get_asset_info_try net fr))) ++ more.
Proof.
  cbn [get_asset_info_loop].
  destruct (get_asset_info_try net fr) as [[r|[]] fr1]; cbn [snd];
    try (exists []; rewrite app_nil_r; reflexivity).
  destruct (a =? max_retries - 1)%Z;
    [exists []; rewrite app_nil_r; reflexivity|].
  apply (extends_bind (io (sleep 1))
           (fun _ => get_asset_info_loop net rest max_retries)
           (extends_sleep 1) (fun _ => extends_loop net rest max_retries)).
Qed.

(** X12. The identifier rewritten by the 404 fallback stays rewritten for
    the attempts that follow: when the detail request for [id] is answered
    404 and the one for [id] with [_4k] meets a transport error, the next
    attempt, after the pause, asks for [id] with [_4k] again and not for
    [id]; and when that is answered 404, the request after it is for [id]
    with [_4k] twice. *)
Theorem fallback_identifier_sticks (id : string) (max_retries : Z)
    (w : world) (r1 : response) :
  (2 <= max_retries)%Z ->
  net (trace w) (info_url id) = Ok r1 ->
  status_code r1 = 404%Z ->
  net (trace w ++ [EGet (info_url id)]) (info_url (id +:+ "_4k")) =
    Raise RequestException ->
  exists more,
    trace (snd (get_asset_info net id max_retries w)) =
      trace w ++ [ EGet (info_url id); EGet (info_url (id +:+ "_4k"));
                   ESleep 1; EGet (info_url (id +:+ "_4k")) ] ++ more /\
    forall r3,
      net (trace w ++ [ EGet (info_url id); EGet (info_url (id +:+ "_4k"));
                        ESleep 1 ])
          (info_url (id +:+ "_4k")) = Ok r3 ->
      status_code r3 = 404%Z ->
      exists more',
        more = EGet (info_url ((id +:+ "_4k") +:+ "_4k")) :: more'.
Proof.
  intros Hn Hr1 Hs1 Hr2. destruct w as [tr fs]. cbn [trace files] in *.
  unfold get_asset_info.
  rewrite seqZ_cons by lia. rewrite (seqZ_cons (Z.succ 0)) by lia.
  set (rest := seqZ (Z.succ (Z.succ 0)) (Z.pred (Z.pred max_retries))).
  set (id4 := id +:+ "_4k") in *.
  set (tr3 := tr ++ [EGet (info_url id); EGet (info_url id4); ESleep 1]).
  assert (Hfirst :
    get_asset_info_loop net (0%Z :: Z.succ 0 :: rest) max_retries
                        (Frame id (World tr fs)) =
    get_asset_info_loop net (Z.succ 0 :: rest) max_retries
                        (Frame id4 (World tr3 fs))).
  { cbn [get_asset_info_loop]. unfold get_asset_info_try at 1.
    rewrite prog_bind_eq, (request_info_404 id tr fs r1 Hr1 Hs1).
    fold id4. rewrite Hr2.
    replace (0 =? max_retries - 1)%Z with false
      by (symmetry; apply Z.eqb_neq; lia).
    rewrite prog_bind_eq. cbn [io sleep log outside trace files asset_id].
    unfold tr3. rewrite <- !app_assoc. reflexivity. }
  rewrite Hfirst.
  destruct (get_asset_info_loop_after_try (Z.succ 0) rest max_retries
              (Frame id4 (World tr3 fs))) as [more2 Hafter].
  destruct (get_asset_info_loop net (Z.succ 0 :: rest) max_retries
              (Frame id4 (World tr3 fs))) as [res fr'] eqn:Eloop.
  cbn [snd] in *.
  destruct (get_asset_info_try_first (Frame id4 (World tr3 fs)))
    as [more1 Htry].
  cbn [outside trace asset_id] in Htry.
  exists (more1 ++ more2). split.
  - rewrite Hafter, Htry. unfold tr3. rewrite <- !app_assoc. reflexivity.
  - intros r3 Hr3 Hs3.
    destruct (get_asset_info_try_404 net id4 tr3 fs r3 Hr3 Hs3)
      as [[more3 H404] _].
    rewrite H404 in Htry. apply app_inv_head in Htry.
    cbn [app] in Htry. inversion Htry; subst more1.
    eexists. reflexivity.
Qed.

End Rebinding.

(* ===================================================================== *)
(** ** The harvester: answers that give a record *)
(* ===================================================================== *)

Section Success.
Import Py Outside Harvester Notions.

Variable net : network.

(** The second part of an attempt on good answers: one request, for the
    file listing of the identifier [asset_id] names, and the record. *)
Lemma build_asset_info_success r fr fields authors fresp fd mr :
  status_code r <> 404%Z ->
  raise_for_status r = Ok tt ->
  json r = Ok (VDict fields) ->
  collect_authors (VDict fields) = Ok authors ->
  net (trace (outside fr)) (files_url (asset_id fr)) = Ok fresp ->
  (if (status_code fresp =? 200)%Z then json fresp else Ok (VDict [])) = Ok fd ->
  scan_max_res fd = Ok mr ->
  exists info,
    format_asset_info (asset_id fr) (VDict fields) authors mr = Ok info /\
    build_asset_info net r fr =
      (Ok (Some info),
       Frame (asset_id fr)
             (World (trace (outside fr) ++ [EGet (files_url (asset_id fr))])
                    (files (outside fr)))).
Proof.
  intros H404 Hs Hj Hau Hf Hfd Hscan.
  destruct (format_asset_info (asset_id fr) (VDict fields) authors mr)
    as [info|e] eqn:Hfmt; [|discriminate Hfmt].
  exists info. split; [reflexivity|].
  unfold build_asset_info.
  destruct (Z.eqb_spec (status_code r) 404) as [E|_]; [contradiction|].
  rewrite prog_bind_eq. unfold lift at 1. rewrite Hs.
  rewrite prog_bind_eq. unfold lift at 1. rewrite Hj.
  rewrite prog_bind_eq. cbn [get_asset_id].
  rewrite prog_bind_eq. unfold io at 1, requests_get at 1. rewrite Hf.
  rewrite prog_bind_eq. unfold lift at 1. rewrite Hfd.
  rewrite prog_bind_eq. unfold lift at 1. rewrite Hscan.
  rewrite prog_bind_eq. unfold lift at 1. rewrite Hau.
  rewrite prog_bind_eq. unfold lift at 1. cbn [asset_id]. rewrite Hfmt.
  reflexivity.
Qed.

(** X13. Good answers give a record at the first attempt: the detail
    answer without error status and with a JSON object whose authors, if
    any, are an object, then a file listing that is refused or of the
    documented shape.  Two requests are made, for the details and for the
    file listing, no pause, and the record is the one built from the
    detail object. *)
Theorem get_asset_info_succeeds (id : string) (max_retries : Z) (w : world)
    (r fresp : response) (fields authors : list (string * value)) (fd : value) :
  (0 < max_retries)%Z ->
  net (trace w) (info_url id) = Ok r ->
  status_code r <> 404%Z ->
  raise_for_status r = Ok tt ->
  json r = Ok (VDict fields) ->
  collect_authors (VDict fields) = Ok authors ->
  net (trace w ++ [EGet (info_url id)]) (files_url id) = Ok fresp ->
  (if (status_code fresp =? 200)%Z then json fresp else Ok (VDict [])) = Ok fd ->
  wf_files_data fd = true ->
  exists info mr,
    scan_max_res fd = Ok mr /\
    format_asset_info id (VDict fields) authors mr = Ok info /\
    get_asset_info net id max_retries w =
      (Ok (Some info),
       World (trace w ++ [EGet (info_url id); EGet (files_url id)]) (files w)).
Proof.
  intros Hpos Hr H404 Hs Hj Hau Hf Hfd Hwf. destruct w as [tr fs].
  cbn [trace files] in *.
  destruct (scan_max_res_returns fd Hwf) as [mr Hscan].
  destruct (build_asset_info_success r
              (Frame id (World (tr ++ [EGet (info_url id)]) fs))
              fields authors fresp fd mr H404 Hs Hj Hau Hf Hfd Hscan)
    as (info & Hfmt & Hbuild).
  exists info, mr. split; [exact Hscan|]. split; [exact Hfmt|].
  unfold get_asset_info. rewrite seqZ_cons by lia.
  cbn [get_asset_info_loop]. unfold get_asset_info_try.
  rewrite prog_bind_eq, (request_info_plain net id tr fs r Hr H404), Hbuild.
  cbn [outside trace files asset_id]. rewrite <- app_assoc. reflexivity.
Qed.

(** X14. Details found through the fallback: after a 404 for [id], good
    answers for [id] with [_4k] give a record after three requests, the
    file listing asked for the rewritten identifier, and the record is
    built for that identifier: the defaults of its name and of its
    thumbnail address are those of [id] with [_4k]. *)
Theorem get_asset_info_succeeds_by_fallback (id : string) (max_retries : Z)
    (w : world) (r1 r fresp : response)
    (fields authors : list (string * value)) (fd : value) :
  let id4 := id +:+ "_4k" in
  (0 < max_retries)%Z ->
  net (trace w) (info_url id) = Ok r1 ->
  status_code r1 = 404%Z ->
  net (trace w ++ [EGet (info_url id)]) (info_url id4) = Ok r ->
  status_code r <> 404%Z ->
  raise_for_status r = Ok tt ->
  json r = Ok (VDict fields) ->
  collect_authors (VDict fields) = Ok authors ->
  net (trace w ++ [EGet (info_url id); EGet (info_url id4)]) (files_url id4) =
    Ok fresp ->
  (if (status_code fresp =? 200)%Z then json fresp else Ok (VDict [])) = Ok fd ->
  wf_files_data fd = true ->
  exists info mr,
    scan_max_res fd = Ok mr /\
    format_asset_info id4 (VDict fields) authors mr = Ok info /\
    get_asset_info net id max_retries w =
      (Ok (Some info),
       World (trace w ++ [EGet (info_url id); EGet (info_url id4);
                          EGet (files_url id4)]) (files w)) /\
    (dict_get "name" fields = None ->
     field "name" info = Some (VStr (title (replace_char "_" " " id4)))) /\
    (dict_get "thumbnail_url" fields = None ->
     field "thumbnail_url" info = Some (VStr (default_thumbnail id4))).
Proof.
  intros id4 Hpos Hr1 Hs1 Hr H404 Hs Hj Hau Hf Hfd Hwf. destruct w as [tr fs].
  cbn [trace files] in *.
  destruct (scan_max_res_returns fd Hwf) as [mr Hscan].
  destruct (build_asset_info_success r
              (Frame id4 (World (tr ++ [EGet (info_url id);
                                        EGet (info_url id4)]) fs))
              fields authors fresp fd mr H404 Hs Hj Hau Hf Hfd Hscan)
    as (info & Hfmt & Hbuild).
  cbn [asset_id outside trace files] in Hfmt, Hbuild.
  exists info, mr. split; [exact Hscan|]. split; [exact Hfmt|]. split.
  - unfold get_asset_info. rewrite seqZ_cons by lia.
    cbn [get_asset_info_loop]. unfold get_asset_info_try.
    rewrite prog_bind_eq, (request_info_404 net id tr fs r1 Hr1 Hs1).
    fold id4. rewrite Hr, Hbuild.
    cbn [outside]. rewrite <- app_assoc. reflexivity.
  - apply format_asset_info_ok in Hfmt.
    destruct Hfmt as (fields' & Hfields & ->). inversion Hfields; subst fields'.
    split; intros Hnone; cbn; rewrite Hnone; reflexivity.
Qed.

End Success.

(* ===================================================================== *)
(** ** The harvester: authors, order of the listing, malformed listings *)
(* ===================================================================== *)

Section AuthorsAndOrder.
Import Py Json Outside Harvester Notions.

Lemma fold_dict_set_fresh entries : forall acc,
  List.NoDup (map fst acc ++ map fst entries) ->
  fold_left (fun authors '(author, role) => dict_set author role authors)
            entries acc = acc ++ entries.
Proof.
  induction entries as [|[k v] entries IH]; intros acc H;
    cbn [fold_left map fst] in *.
  - rewrite app_nil_r. reflexivity.
  - pose proof (NoDup_remove_2 _ _ _ H) as Hk.
    rewrite dict_set_fresh by (intros Hin; apply Hk, in_or_app; left; exact Hin).
    rewrite IH.
    + rewrite <- app_assoc. reflexivity.
    + rewrite map_app, <- app_assoc. exact H.
Qed.

(** X15. The authors of the API's answer go into the record as they are,
    in their order, when they are an object with at least one member;
    an empty object gives the one author ["Unknown"]; authors that are not
    an object make the attempt fail with an exception that is not of
    [requests]. *)
Theorem authors_copied (fields : list (string * value)) (v : value) :
  dict_get "authors" fields = Some v ->
  (forall a,
     v = VDict a -> distinct (map fst a) = true ->
     collect_authors (VDict fields) = Ok a /\
     forall aid mr info,
       format_asset_info aid (VDict fields) a mr = Ok info ->
       field "authors" info =
         Some (match a with
               | [] => VDict [("Unknown", VStr "All")]
               | _ => VDict a
               end)) /\
  ((forall a, v <> VDict a) ->
   collect_authors (VDict fields) = Raise OtherException).
Proof.
  intros Hget. split.
  - intros a -> Hdist. split.
    + unfold collect_authors. cbn. rewrite Hget. cbn.
      unfold mret, result_ret. f_equal.
      apply (fold_dict_set_fresh a []). cbn. apply distinct_NoDup, Hdist.
    + intros aid mr info Hfmt. apply format_asset_info_ok in Hfmt.
      destruct Hfmt as (fields' & _ & ->). destruct a; reflexivity.
  - intros Hv. unfold collect_authors. cbn. rewrite Hget. cbn.
    destruct v; try reflexivity. exfalso. eapply Hv. reflexivity.
Qed.

Lemma keep_hdri_fold_order all_assets : forall acc,
  List.NoDup (map fst acc ++ map fst all_assets) ->
  fold_left keep_hdri all_assets acc =
    acc ++ map (fun e => (fst e, VStr "hdri"))
               (List.filter (fun e => is_hdri (snd e)) all_assets).
Proof.
  induction all_assets as [|[id data] rest IH]; intros acc H;
    cbn [fold_left map fst snd List.filter] in *.
  - rewrite app_nil_r. reflexivity.
  - pose proof (NoDup_remove_1 _ _ _ H) as Hrest.
    pose proof (NoDup_remove_2 _ _ _ H) as Hid.
    unfold keep_hdri at 2. destruct (is_hdri data).
    + rewrite dict_set_fresh
        by (intros Hin; apply Hid, in_or_app; left; exact Hin).
      rewrite IH.
      * cbn [map fst]. rewrite <- app_assoc. reflexivity.
      * rewrite map_app, <- app_assoc. exact H.
    + apply IH, Hrest.
Qed.

(** X16. The harvester's listing keeps the order of the API's answer: for
    an answer whose keys are distinct, the identifiers [get_asset_list]
    returns are those of the entries of type 0, in the order of the
    answer. *)
Theorem listing_keeps_order (net : network) (w : world) (r : response)
    (all_assets : list (string * value)) :
  net (trace w) listing_url = Ok r ->
  raise_for_status r = Ok tt ->
  json r = Ok (VDict all_assets) ->
  distinct (map fst all_assets) = true ->
  exists d,
    fst (get_asset_list net w) = Ok (VDict d) /\
    dict_keys d =
      map fst (List.filter (fun e => is_hdri (snd e)) all_assets).
Proof.
  intros Hr Hs Hj Hdist. exists (filter_hdri all_assets). split.
  - unfold get_asset_list, get_asset_list_try.
    rewrite prog_bind_eq. unfold requests_get. rewrite Hr.
    rewrite prog_bind_eq. unfold lift at 1. rewrite Hs.
    rewrite prog_bind_eq. unfold lift at 1. rewrite Hj.
    reflexivity.
  - unfold filter_hdri, dict_keys.
    rewrite (keep_hdri_fold_order all_assets [])
      by (cbn; apply distinct_NoDup, Hdist).
    cbn [app]. rewrite map_map. reflexivity.
Qed.

End AuthorsAndOrder.

Section MalformedListing.
Import Py Outside Harvester Notions.

Lemma for_each_raises_other {A B} (body : B -> A -> result B) l :
  (forall acc x e, body acc x = Raise e -> e = OtherException) ->
  forall acc e, for_each body l acc = Raise e -> e = OtherException.
Proof.
  intros Hbody. induction l as [|x l IH]; intros acc e; cbn; [discriminate|].
  destruct (body acc x) as [acc'|e'] eqn:E; cbn.
  - apply IH.
  - intros H. inversion H; subst. eapply Hbody, E.
Qed.

Lemma contains_raises_other key v e :
  contains key v = Raise e -> e = OtherException.
Proof. destruct v; cbn; congruence. Qed.

Lemma getitem_raises_other v key e :
  getitem v key = Raise e -> e = OtherException.
Proof.
  unfold getitem. destruct v; try congruence.
  destruct (dict_get _ _); congruence.
Qed.

Lemma unpack2_raises_other v e :
  unpack2 v = Raise e -> e = OtherException.
Proof.
  unfold unpack2.
  repeat match goal with
         | |- match ?x with _ => _ end = _ -> _ => destruct x
         end; congruence.
Qed.

Lemma larger_area_raises_other w h max_res e :
  larger_area w h max_res = Raise e -> e = OtherException.
Proof.
  unfold larger_area, mul_gt.
  destruct (as_int (fst max_res)), (as_int (snd max_res)),
    (as_int w), (as_int h); congruence.
Qed.

Lemma items_raises_other v e :
  items v = Raise e -> e = OtherException.
Proof. destruct v; cbn; congruence. Qed.

Lemma bind_raises_other {A B} (r : result A) (k : A -> result B) e :
  (forall e', r = Raise e' -> e' = OtherException) ->
  (forall x e', k x = Raise e' -> e' = OtherException) ->
  (x ← r; k x) = Raise e -> e = OtherException.
Proof.
  unfold mbind, result_bind. intros Hr Hk.
  destruct r as [x|e']; cbn [rbind].
  - apply Hk.
  - intros H; inversion H; subst. apply Hr. reflexivity.
Qed.

Lemma scan_file_raises_other max_res file_info e :
  scan_file max_res file_info = Raise e -> e = OtherException.
Proof.
  unfold scan_file. apply bind_raises_other.
  { intros e'. apply contains_raises_other. }
  intros [] e'; [|discriminate].
  apply bind_raises_other.
  { intros e''. apply getitem_raises_other. }
  intros res e''. destruct (truthy res); [|discriminate].
  apply bind_raises_other.
  { intros e3. apply unpack2_raises_other. }
  intros [w h] e3. apply bind_raises_other.
  { intros e4. apply larger_area_raises_other. }
  intros b e4. discriminate.
Qed.

Lemma scan_formats_raises_other max_res entry e :
  scan_formats max_res entry = Raise e -> e = OtherException.
Proof.
  unfold scan_formats. apply bind_raises_other.
  { intros e'. apply items_raises_other. }
  intros file_infos e'. apply for_each_raises_other.
  intros acc x e''. apply scan_file_raises_other.
Qed.

(** The scan raises no exception of [requests]. *)
Lemma scan_max_res_raises_other files_data e :
  scan_max_res files_data = Raise e -> e = OtherException.
Proof.
  unfold scan_max_res. cbv zeta. apply bind_raises_other.
  { intros e'. apply contains_raises_other. }
  intros [] e'; [|discriminate].
  apply bind_raises_other.
  { intros e''. apply getitem_raises_other. }
  intros hdri e''. apply bind_raises_other.
  { intros e3. apply items_raises_other. }
  intros by_res e3. apply for_each_raises_other.
  intros acc x e4. apply scan_formats_raises_other.
Qed.

(** X17. A file listing the scan cannot read costs the asset: when the
    details are found and the file listing is answered 200 with a body on
    which the scan raises, [get_asset_info] returns [None] after these two
    requests, without another attempt. *)
Theorem malformed_listing_drops_asset (net : network) (id : string)
    (max_retries : Z) (w : world) (r fresp : response)
    (data fd : value) (e : exn) :
  (0 < max_retries)%Z ->
  net (trace w) (info_url id) = Ok r ->
  status_code r <> 404%Z ->
  raise_for_status r = Ok tt ->
  json r = Ok data ->
  net (trace w ++ [EGet (info_url id)]) (files_url id) = Ok fresp ->
  status_code fresp = 200%Z ->
  json fresp = Ok fd ->
  scan_max_res fd = Raise e ->
  get_asset_info net id max_retries w =
    (Ok None,
     World (trace w ++ [EGet (info_url id); EGet (files_url id)]) (files w)).
Proof.
  intros Hpos Hr H404 Hs Hj Hf Hfs Hfj Hscan. destruct w as [tr fs].
  cbn [trace files] in *.
  pose proof (scan_max_res_raises_other fd e Hscan) as ->.
  unfold get_asset_info. rewrite seqZ_cons by lia.
  cbn [get_asset_info_loop]. unfold get_asset_info_try.
  rewrite prog_bind_eq, (request_info_plain net id tr fs r Hr H404).
  unfold build_asset_info.
  destruct (Z.eqb_spec (status_code r) 404) as [E|_]; [contradiction|].
  rewrite prog_bind_eq. unfold lift at 1. rewrite Hs.
  rewrite prog_bind_eq. unfold lift at 1. rewrite Hj.
  rewrite prog_bind_eq. cbn [get_asset_id].
  rewrite prog_bind_eq. unfold io at 1, requests_get at 1.
  cbn [outside trace files asset_id]. rewrite Hf.
  rewrite prog_bind_eq. unfold lift at 1. rewrite Hfs. cbn [Z.eqb Pos.eqb].
  rewrite Hfj.
  rewrite prog_bind_eq. unfold lift at 1. rewrite Hscan.
  cbn. rewrite <- app_assoc. reflexivity.
Qed.

End MalformedListing.

(* ===================================================================== *)
(** ** The harvester: a whole run *)
(* ===================================================================== *)

Section HarvesterWhole.
Import Py Json Outside Harvester Notions.

Lemma get_asset_list_world (net : network) w :
  snd (get_asset_list net w) =
    World (trace w ++ [EGet listing_url]) (files w).
Proof.
  unfold get_asset_list, get_asset_list_try.
  rewrite prog_bind_eq. unfold requests_get.
  destruct (net (trace w) listing_url) as [r|e]; [|reflexivity].
  rewrite prog_bind_eq. unfold lift at 1.
  destruct (raise_for_status r) as [[]|e]; [|reflexivity].
  rewrite prog_bind_eq. unfold lift at 1.
  destruct (json r) as [all_assets|e]; [|reflexivity].
  rewrite prog_bind_eq. unfold lift at 1.
  destruct (items all_assets) as [entries|e]; reflexivity.
Qed.

Lemma get_asset_list_keys_NoDup (net : network) w listing w1 :
  get_asset_list net w = (Ok (VDict listing), w1) ->
  List.NoDup (dict_keys listing).
Proof.
  unfold get_asset_list.
  destruct (get_asset_list_try net w) as [[v|e] w'] eqn:E;
    [|intros H; inversion H].
  apply get_asset_list_try_ok in E.
  destruct E as (r & all_assets & _ & _ & _ & -> & _).
  intros H. inversion H; subst.
  apply (filter_hdri_fold all_assets []). constructor.
Qed.

(** One asset of the loop of [main]: at most nine requests and three
    pauses, the files untouched. *)
Lemma process_asset_bounded (net : network) acc id w :
  exists acc' w' more,
    process_asset net acc id w = (Ok acc', w') /\
    trace w' = trace w ++ more /\
    files w' = files w /\
    length (requests_of more) <= 9 /\
    1 <= length (pauses_of more) <= 3.
Proof.
  unfold process_asset. rewrite prog_bind_eq. unfold get_asset_info.
  destruct (get_asset_info_loop_bounded net 3 3 0 (Frame id w) eq_refl)
    as (r & fr' & more & E & Ht & Hf & Hr & Hp & _).
  change (Z.of_nat 3) with 3%Z in E. rewrite E.
  rewrite prog_bind_eq. cbn [sleep log outside trace files] in *.
  do 2 eexists. exists (more ++ [ESleep 1]).
  split; [reflexivity|]. cbn [trace files].
  split; [rewrite Ht, app_assoc; reflexivity|].
  split; [exact Hf|].
  unfold requests_of, pauses_of in *.
  rewrite !List.filter_app, !length_app. cbn. lia.
Qed.

Lemma process_assets_bounded (net : network) ids : forall acc w,
  exists acc' w' more,
    process_assets net ids acc w = (Ok acc', w') /\
    trace w' = trace w ++ more /\
    files w' = files w /\
    length (requests_of more) <= 9 * length ids /\
    length ids <= length (pauses_of more) <= 3 * length ids.
Proof.
  induction ids as [|id rest IH]; intros acc w; cbn [process_assets].
  - exists acc, w, []. cbn. rewrite app_nil_r. repeat split; auto.
  - rewrite prog_bind_eq.
    destruct (process_asset_bounded net acc id w)
      as (acc1 & w1 & more1 & -> & Ht1 & Hf1 & Hr1 & Hp1).
    destruct (IH acc1 w1) as (acc2 & w2 & more2 & -> & Ht2 & Hf2 & Hr2 & Hp2).
    exists acc2, w2, (more1 ++ more2).
    split; [reflexivity|].
    split; [rewrite Ht2, Ht1, app_assoc; reflexivity|].
    split; [congruence|].
    unfold requests_of, pauses_of in *.
    rewrite !List.filter_app, !length_app. cbn [length]. lia.
Qed.

Lemma save_to_json_frame (dk : disk) data filename w :
  exists b w',
    save_to_json dk data filename w = (Ok b, w') /\
    trace w' = trace w /\
    forall p, p <> filename -> files w' !! p = files w !! p.
Proof.
  unfold save_to_json, save_to_json_try. rewrite prog_bind_eq.
  destruct (open_w_frame dk filename w) as [Ht Hf].
  destruct (open_w dk filename w) as [[[]|e] w1]; cbn [snd] in *; [|eauto].
  rewrite prog_bind_eq.
  destruct (write_frame dk filename (dumps data) w1) as [Ht' Hf'].
  destruct (write dk filename (dumps data) w1) as [[[]|e] w2];
    cbn [snd] in *;
    (do 2 eexists; split; [reflexivity|]; split; [congruence|];
     intros p Hp; rewrite Hf', Hf by exact Hp; reflexivity).
Qed.

(** What [main] does after a listing that is a dict with entries. *)
Lemma main_listed (net : network) (dk : disk) w listing w1 :
  get_asset_list net w = (Ok (VDict listing), w1) ->
  listing <> [] ->
  main net dk w =
    let '(r, w2) := process_assets net (take 843 (dict_keys listing)) [] w1 in
    match r with
    | Ok d =>
        match d with
        | [] => (Ok (Some (VDict d)), w2)
        | _ => (Ok (Some (VDict d)),
                snd (save_to_json dk (VDict d) "hdri_metadata.json" w2))
        end
    | Raise e => (Raise e, w2)
    end.
Proof.
  intros E Hne. unfold main. rewrite prog_bind_eq, E.
  destruct listing as [|e0 l]; [contradiction|]. cbn [truthy negb].
  rewrite prog_bind_eq. cbn [lift items]. rewrite prog_bind_eq.
  destruct (process_assets net _ [] w1) as [[d|e] w2]; [|reflexivity].
  rewrite prog_bind_eq. destruct d as [|e1 d]; [reflexivity|].
  cbn [truthy].
  destruct (save_to_json_frame dk (VDict (e1 :: d)) "hdri_metadata.json" w2)
    as (b & w3 & -> & _). reflexivity.
Qed.

(** X18. A whole run of the harvester: [main] never raises; its first
    request is the listing; after it come at most nine requests and
    three pauses for each of at most 843 assets; and no file other than
    [hdri_metadata.json] is created or changed. *)
Theorem harvester_main_footprint (net : network) (dk : disk) (w : world) :
  exists r w' more,
    main net dk w = (Ok r, w') /\
    trace w' = trace w ++ EGet listing_url :: more /\
    length (requests_of more) <= 9 * 843 /\
    length (pauses_of more) <= 3 * 843 /\
    forall path, path <> "hdri_metadata.json" ->
                 files w' !! path = files w !! path.
Proof.
  pose proof (get_asset_list_world net w) as Hw1.
  destruct (get_asset_list_shape net w) as (v & w1 & E & Hv).
  rewrite E in Hw1. cbn [snd] in Hw1.
  assert (Hnone : main net dk w = (Ok None, w1) ->
    exists r w' more,
      main net dk w = (Ok r, w') /\
      trace w' = trace w ++ EGet listing_url :: more /\
      length (requests_of more) <= 9 * 843 /\
      length (pauses_of more) <= 3 * 843 /\
      forall path, path <> "hdri_metadata.json" ->
                   files w' !! path = files w !! path).
  { intros ->. exists None, w1, []. subst w1. cbn [trace files].
    split; [reflexivity|]. split; [reflexivity|]. cbn.
    split; [lia|]. split; [lia|]. reflexivity. }
  destruct Hv as [->|(listing & ->)].
  { apply Hnone. unfold main. rewrite prog_bind_eq, E. reflexivity. }
  destruct listing as [|e0 l].
  { apply Hnone. unfold main. rewrite prog_bind_eq, E. reflexivity. }
  rewrite (main_listed net dk w (e0 :: l) w1 E) by discriminate.
  set (ids := take 843 (dict_keys (e0 :: l))).
  assert (Hlen : length ids <= 843) by (unfold ids; rewrite length_take; lia).
  destruct (process_assets_bounded net ids [] w1)
    as (d & w2 & more & -> & Ht & Hf & Hr & Hp).
  assert (Ht2 : trace w2 = trace w ++ EGet listing_url :: more).
  { rewrite Ht. subst w1. cbn [trace]. rewrite <- app_assoc. reflexivity. }
  assert (Hf2 : files w2 = files w) by (rewrite Hf; subst w1; reflexivity).
  destruct d as [|e1 d].
  - exists (Some (VDict [])), w2, more.
    split; [reflexivity|]. split; [exact Ht2|].
    split; [lia|]. split; [lia|]. intros path _. rewrite Hf2. reflexivity.
  - destruct (save_to_json_frame dk (VDict (e1 :: d)) "hdri_metadata.json" w2)
      as (b & w3 & -> & Ht3 & Hf3). cbn [snd].
    exists (Some (VDict (e1 :: d))), w3, more.
    split; [reflexivity|]. split; [congruence|].
    split; [lia|]. split; [lia|].
    intros path Hpath. rewrite Hf3, Hf2 by exact Hpath. reflexivity.
Qed.

(** X19. When the listing gives nothing -- the request fails, the answer
    is no JSON object, or no entry has type 0 -- [main] returns [None]
    after that one request: no asset is asked for, no pause is made and
    no file is written, so a [hdri_metadata.json] of an earlier run is
    left as it is. *)
Theorem harvester_main_nothing_listed (net : network) (dk : disk)
    (w : world) (v : value) :
  fst (get_asset_list net w) = Ok v ->
  truthy v = false ->
  main net dk w =
    (Ok None, World (trace w ++ [EGet listing_url]) (files w)).
Proof.
  intros Hv Ht. pose proof (get_asset_list_world net w) as Hw.
  unfold main. rewrite prog_bind_eq.
  destruct (get_asset_list net w) as [r w1]. cbn [fst snd] in *.
  subst r w1. rewrite Ht. reflexivity.
Qed.

(** X20. What a run leaves on the disk.  When [main] returns an empty
    collection it has written nothing.  When it returns a collection with
    entries, and [hdri_metadata.json] can be opened and has room for the
    text, the file holds the text of [json.dump] for exactly the
    collection returned; when the file cannot be opened, the files are as
    they were, and the collection is returned all the same. *)
Theorem harvester_main_saves_collection (net : network) (dk : disk)
    (w : world) (d : list (string * value)) :
  fst (main net dk w) = Ok (Some (VDict d)) ->
  (d = [] -> files (snd (main net dk w)) = files w) /\
  (d <> [] ->
   can_open dk "hdri_metadata.json" = true ->
   match room dk "hdri_metadata.json" with
   | Some n => String.length (dumps (VDict d)) <= n
   | None => True
   end ->
   files (snd (main net dk w)) !! "hdri_metadata.json" =
     Some (dumps (VDict d))) /\
  (d <> [] ->
   can_open dk "hdri_metadata.json" = false ->
   files (snd (main net dk w)) = files w).
Proof.
  intros Hmain. pose proof (get_asset_list_world net w) as Hw1.
  destruct (main_inv net dk w d Hmain) as (listing & w1 & w2 & E & Hp).
  rewrite E in Hw1. cbn [snd] in Hw1.
  assert (Hne : listing <> []).
  { intros ->. revert Hmain. unfold main. rewrite prog_bind_eq, E.
    cbn. discriminate. }
  destruct (process_assets_bounded net (take 843 (dict_keys listing)) [] w1)
    as (d' & w2' & more & E2 & _ & Hf & _).
  rewrite Hp in E2. inversion E2; subst d' w2'.
  assert (Hf2 : files w2 = files w) by (rewrite Hf; subst w1; reflexivity).
  rewrite (main_listed net dk w listing w1 E Hne), Hp.
  split; [|split].
  - intros ->. exact Hf2.
  - intros Hd Hopen Hroom. destruct d as [|e1 d]; [contradiction|]. cbn [snd].
    rewrite save_to_json_opened by exact Hopen.
    unfold write. cbn [files trace]. rewrite lookup_insert_eq.
    cbn [default from_option id].
    destruct (room dk "hdri_metadata.json") as [n|];
      [match goal with
       | |- context [(?a <? ?b)%nat] =>
           replace (a <? b)%nat with false
             by (symmetry; apply Nat.ltb_ge; cbn [String.length]; lia)
       end|];
      cbn [snd files]; rewrite lookup_insert_eq, append_nil_l; reflexivity.
  - intros Hd Hopen. destruct d as [|e1 d]; [contradiction|]. cbn [snd].
    rewrite save_to_json_refused by exact Hopen. exact Hf2.
Qed.

Lemma process_assets_order (net : network) ids : forall acc w acc' w',
  List.NoDup ids ->
  (forall k, In k ids -> ~ In k (dict_keys acc)) ->
  process_assets net ids acc w = (Ok acc', w') ->
  exists kept, dict_keys acc' = dict_keys acc ++ kept /\ sublist kept ids.
Proof.
  induction ids as [|id rest IH]; intros acc w acc' w' Hnd Hfresh;
    cbn [process_assets].
  - intros H. inversion H; subst. exists []. rewrite app_nil_r.
    split; [reflexivity|constructor].
  - rewrite prog_bind_eq.
    destruct (process_asset_returns net acc id w) as (acc1 & w1 & -> & Hacc).
    inversion Hnd as [|? ? Hid Hrest]; subst.
    intros H. destruct Hacc as [->|[info ->]].
    + destruct (IH acc w1 acc' w' Hrest) as (kept & Hk & Hs); [|exact H|].
      * intros k Hin. apply Hfresh. right. exact Hin.
      * exists kept. split; [exact Hk|]. apply sublist_cons, Hs.
    + assert (Hset : dict_set id info acc = acc ++ [(id, info)]).
      { apply dict_set_fresh. apply Hfresh. left. reflexivity. }
      rewrite Hset in H.
      destruct (IH (acc ++ [(id, info)]) w1 acc' w' Hrest) as (kept & Hk & Hs);
        [|exact H|].
      * intros k Hin. unfold dict_keys. rewrite map_app, in_app_iff.
        intros [Hacc|[<-|[]]]; [|contradiction].
        apply (Hfresh k); [right; exact Hin|exact Hacc].
      * exists (id :: kept). split; [|apply sublist_skip, Hs].
        rewrite Hk. unfold dict_keys. rewrite map_app, <- app_assoc.
        reflexivity.
Qed.

(** X21. The collection [main] returns is in the order of the listing:
    its keys are a subsequence of the first 843 identifiers listed, so no
    identifier comes twice and none comes before one listed earlier. *)
Theorem collection_in_listing_order (net : network) (dk : disk)
    (w : world) (d : list (string * value)) :
  fst (main net dk w) = Ok (Some (VDict d)) ->
  exists listing,
    fst (get_asset_list net w) = Ok (VDict listing) /\
    sublist (dict_keys d) (take 843 (dict_keys listing)) /\
    List.NoDup (dict_keys d).
Proof.
  intros Hmain.
  destruct (main_inv net dk w d Hmain) as (listing & w1 & w2 & E & Hp).
  exists listing. split; [rewrite E; reflexivity|].
  pose proof (get_asset_list_keys_NoDup net w listing w1 E) as Hnd.
  assert (Hnd' : List.NoDup (take 843 (dict_keys listing))).
  { apply NoDup_ListNoDup.
    apply (sublist_NoDup _ (dict_keys listing));
      [apply NoDup_ListNoDup, Hnd|apply sublist_take]. }
  destruct (process_assets_order net _ [] w1 d w2 Hnd') as (kept & Hk & Hs);
    [intros k _ []|exact Hp|].
  cbn [dict_keys map app] in Hk. fold (dict_keys d) in Hk. rewrite Hk.
  split; [exact Hs|]. apply NoDup_ListNoDup.
  eapply sublist_NoDup; [apply NoDup_ListNoDup, Hnd'|exact Hs].
Qed.

(** X22. [save_to_json] does not write its file in one piece: the file is
    emptied when it is opened, so when the disk fails after [n] characters
    the file holds the first [n] characters of the text, whatever it held
    before, and [False] is returned. *)
Theorem save_to_json_not_atomic (dk : disk) (data : value)
    (filename : string) (w : world) (n : nat) :
  can_open dk filename = true ->
  room dk filename = Some n ->
  n < String.length (dumps data) ->
  exists w',
    save_to_json dk data filename w = (Ok false, w') /\
    trace w' = trace w /\
    files w' !! filename = Some (take_str n (dumps data)) /\
    forall path, path <> filename -> files w' !! path = files w !! path.
Proof.
  intros Hopen Hroom Hn. rewrite save_to_json_opened by exact Hopen.
  unfold write. cbn [files trace]. rewrite lookup_insert_eq.
  cbn [default from_option id]. rewrite Hroom.
  match goal with
  | |- context [(?a <? ?b)%nat] =>
      replace (a <? b)%nat with true
        by (symmetry; apply Nat.ltb_lt; cbn [String.length]; lia)
  end.
  eexists. split; [reflexivity|]. cbn [trace files].
  split; [reflexivity|]. split.
  - rewrite lookup_insert_eq, append_nil_l. reflexivity.
  - intros path Hpath. rewrite !lookup_insert_ne by congruence. reflexivity.
Qed.

End HarvesterWhole.

(* ===================================================================== *)
(** ** The further properties on the example runs *)
(* ===================================================================== *)

Section FurtherRuns.
Import Py Json Outside Notions.

Lemma filename_is_last_piece_witness :
  no_slash (Downloader.filename_of example_url) = true.
Proof.
  exact (proj1 (filename_is_last_piece Downloader.SAVE_DIR example_url)).
Defined.

Lemma hdri_link_names_witness :
  target Downloader.SAVE_DIR example_url = asset_target "rural_road".
Proof.
  exact (proj2 (hdri_link_names "rural_road" "4k" eq_refl eq_refl)
           example_url eq_refl).
Defined.

Lemma download_file_confined_witness :
  exists w',
    Downloader.download_file origin_ok disk_ok example_url Downloader.SAVE_DIR
      fresh = (Ok tt, w') /\
    files w' !! "notes.txt" = None.
Proof.
  destruct (download_file_confined origin_ok disk_ok example_url
              Downloader.SAVE_DIR fresh) as (w' & E & _ & Hf & _).
  exists w'. split; [exact E|].
  rewrite Hf; [reflexivity|]. intros H. vm_compute in H. discriminate H.
Defined.

Lemma download_failure_leaves_no_file_witness :
  Downloader.download_file origin_down disk_ok example_url Downloader.SAVE_DIR
    fresh = (Ok tt, World [EGet example_url] ∅).
Proof.
  exact (proj1 (download_failure_leaves_no_file origin_down disk_ok
                  example_url Downloader.SAVE_DIR fresh eq_refl
                  (or_introl (ex_intro _ RequestException eq_refl)))).
Defined.

Lemma download_disk_full_witness :
  exists w1,
    Downloader.download_file origin_ok disk_small example_url
      Downloader.SAVE_DIR fresh = (Ok tt, w1) /\
    files w1 !! "hdri_4k/rural_road_4k.hdr" = Some "RADIA" /\
    Downloader.download_file origin_ok disk_ok example_url Downloader.SAVE_DIR
      w1 = (Ok tt, w1).
Proof.
  destruct (download_disk_full origin_ok disk_small example_url
              Downloader.SAVE_DIR fresh
              (Downloader.Response 200 ["RADIANCE"; "pixels"] None) 5)
    as (w1 & E & Hf & Hagain);
    [reflexivity|reflexivity|reflexivity|reflexivity|reflexivity|
     vm_compute; lia|].
  exists w1. split; [exact E|]. split; [exact Hf|]. apply Hagain.
Defined.

Lemma downloader_get_asset_list_result_witness :
  Downloader.get_asset_list net_catalogue fresh =
    (Ok ["rural_road"; "chair"], World [EGet Downloader.listing_url] ∅).
Proof.
  exact (proj2 (proj2 (downloader_get_asset_list_result net_catalogue fresh))
           _ _ eq_refl eq_refl eq_refl).
Defined.

Lemma downloader_main_bounded_witness :
  exists w',
    Downloader.main net_catalogue origin_ok disk_ok fresh = (Ok tt, w') /\
    files w' !! "notes.txt" = None.
Proof.
  destruct (downloader_main_bounded net_catalogue origin_ok disk_ok fresh)
    as (assets & w' & more & El & E & _ & _ & _ & _ & Hf).
  exists w'. split; [exact E|].
  rewrite Hf; [reflexivity|].
  vm_compute in El. inversion El; subst assets.
  intros asset url [<-|[<-|[]]] Hl Heq;
    vm_compute in Hl; inversion Hl; subst url;
    vm_compute in Heq; discriminate Heq.
Defined.

Lemma downloader_main_rerun_witness :
  Downloader.main net_catalogue origin_down disk_locked stocked =
    (Ok tt,
     World [EGet Downloader.listing_url; ESleep 1; ESleep 1] (files stocked)).
Proof.
  apply (downloader_main_rerun net_catalogue origin_down disk_locked stocked
           ["rural_road"; "chair"] eq_refl).
  intros asset url [<-|[<-|[]]] Hl;
    vm_compute in Hl; inversion Hl; subst url;
    vm_compute; eexists; reflexivity.
Defined.

Lemma get_asset_info_bounded_witness :
  exists r w',
    Harvester.get_asset_info net_down "rural_road" 0 fresh = (Ok r, w') /\
    r = None.
Proof.
  destruct (get_asset_info_bounded net_down "rural_road" 0 fresh)
    as (r & w' & more & E & _ & _ & _ & _ & _ & H0).
  exists r, w'. split; [exact E|]. apply H0. lia.
Defined.

Lemma http_error_status_retried_witness :
  Harvester.get_asset_info net_500 "rural_road" 3 fresh =
    (Ok None,
     World [ EGet (Harvester.info_url "rural_road"); ESleep 1;
             EGet (Harvester.info_url "rural_road"); ESleep 1;
             EGet (Harvester.info_url "rural_road") ] ∅).
Proof.
  apply (http_error_status_retried net_500 "rural_road" 3 fresh).
  intros tr. eexists. split; [reflexivity|]. cbn. lia.
Defined.

Lemma unexpected_error_not_retried_witness :
  Harvester.get_asset_info net_garbled "rural_road" 3 fresh =
    (Ok None, World [EGet (Harvester.info_url "rural_road")] ∅).
Proof.
  apply (unexpected_error_not_retried net_garbled "rural_road" 3 fresh
           (Harvester.Response 200 (Raise OtherException)));
    [lia|reflexivity|cbn; lia|reflexivity|reflexivity].
Defined.

Lemma fallback_identifier_sticks_witness :
  exists more,
    trace (snd (Harvester.get_asset_info net_flaky "rural_road" 3 fresh)) =
      [ EGet (Harvester.info_url "rural_road");
        EGet (Harvester.info_url "rural_road_4k");
        ESleep 1;
        EGet (Harvester.info_url "rural_road_4k") ] ++ more.
Proof.
  destruct (fallback_identifier_sticks net_flaky "rural_road" 3 fresh
              (Harvester.Response 404 (Raise OtherException)))
    as (more & H & _); [lia|reflexivity|reflexivity|reflexivity|].
  exists more. exact H.
Defined.

Lemma get_asset_info_succeeds_witness :
  exists info,
    Harvester.get_asset_info net_direct "rural_road" 3 fresh =
      (Ok (Some info),
       World [ EGet (Harvester.info_url "rural_road");
               EGet (Harvester.files_url "rural_road") ] ∅).
Proof.
  destruct (get_asset_info_succeeds net_direct "rural_road" 3 fresh
              (Harvester.Response 200 (Ok (VDict example_details)))
              (Harvester.Response 200 (Ok example_files_data))
              example_details
              [("Greg Zaal", VStr "All"); ("Jarod Guest", VStr "Processing")]
              example_files_data)
    as (info & mr & _ & _ & E);
    [lia|reflexivity|cbn; lia|reflexivity|reflexivity|reflexivity|
     reflexivity|reflexivity|reflexivity|].
  exists info. exact E.
Defined.

Lemma get_asset_info_succeeds_by_fallback_witness :
  exists info,
    Harvester.get_asset_info net_catalogue "rural_road" 3 fresh =
      (Ok (Some info),
       World [ EGet (Harvester.info_url "rural_road");
               EGet (Harvester.info_url "rural_road_4k");
               EGet (Harvester.files_url "rural_road_4k") ] ∅) /\
    field "thumbnail_url" info =
      Some (VStr (Harvester.default_thumbnail "rural_road_4k")).
Proof.
  destruct (get_asset_info_succeeds_by_fallback net_catalogue "rural_road" 3
              fresh
              (Harvester.Response 404 (Raise OtherException))
              (Harvester.Response 200 (Ok (VDict [("name", VStr "Rural Road")])))
              (Harvester.Response 404 (Raise OtherException))
              [("name", VStr "Rural Road")] [] (VDict []))
    as (info & mr & _ & _ & E & _ & Hthumb);
    [lia|reflexivity|reflexivity|reflexivity|cbn; lia|reflexivity|
     reflexivity|reflexivity|reflexivity|reflexivity|reflexivity|].
  exists info. split; [exact E|]. apply Hthumb. reflexivity.
Defined.

Lemma authors_copied_witness :
  Harvester.collect_authors (VDict example_details) =
    Ok [("Greg Zaal", VStr "All"); ("Jarod Guest", VStr "Processing")].
Proof.
  exact (proj1 (proj1 (authors_copied example_details _ eq_refl)
                  _ eq_refl eq_refl)).
Defined.

Lemma listing_keeps_order_witness :
  exists d,
    fst (Harvester.get_asset_list net_catalogue fresh) = Ok (VDict d) /\
    dict_keys d = ["rural_road"].
Proof.
  exact (listing_keeps_order net_catalogue fresh _ _
           eq_refl eq_refl eq_refl eq_refl).
Defined.

Lemma malformed_listing_drops_asset_witness :
  Harvester.get_asset_info net_malformed "rural_road" 3 fresh =
    (Ok None,
     World [ EGet (Harvester.info_url "rural_road");
             EGet (Harvester.files_url "rural_road") ] ∅).
Proof.
  apply (malformed_listing_drops_asset net_malformed "rural_road" 3 fresh
           (Harvester.Response 200 (Ok (VDict example_details)))
           (Harvester.Response 200 (Ok (VDict [("hdri", VList [])])))
           (VDict example_details) (VDict [("hdri", VList [])])
           OtherException);
    [lia|reflexivity|cbn; lia|reflexivity|reflexivity|reflexivity|
     reflexivity|reflexivity|reflexivity].
Defined.

Lemma harvester_main_footprint_witness :
  exists r w',
    Harvester.main net_catalogue disk_ok fresh = (Ok r, w') /\
    files w' !! "notes.txt" = None.
Proof.
  destruct (harvester_main_footprint net_catalogue disk_ok fresh)
    as (r & w' & more & E & _ & _ & _ & Hf).
  exists r, w'. split; [exact E|].
  rewrite Hf; [reflexivity|]. intros H. discriminate H.
Defined.

Lemma harvester_main_nothing_listed_witness :
  Harvester.main net_down disk_ok fresh =
    (Ok None, World [EGet Harvester.listing_url] ∅).
Proof.
  exact (harvester_main_nothing_listed net_down disk_ok fresh (VList [])
           eq_refl eq_refl).
Defined.

Lemma harvester_main_saves_collection_witness :
  exists d,
    fst (Harvester.main net_catalogue disk_ok fresh) = Ok (Some (VDict d)) /\
    files (snd (Harvester.main net_catalogue disk_ok fresh))
      !! "hdri_metadata.json" = Some (dumps (VDict d)).
Proof.
  edestruct (harvester_main_saves_collection net_catalogue disk_ok fresh)
    as (_ & Hsave & _); [vm_compute; reflexivity|].
  eexists. split; [vm_compute; reflexivity|].
  apply Hsave; [discriminate|reflexivity|exact I].
Defined.

Lemma collection_in_listing_order_witness :
  exists d,
    fst (Harvester.main net_catalogue disk_ok fresh) = Ok (Some (VDict d)) /\
    List.NoDup (dict_keys d).
Proof.
  edestruct (collection_in_listing_order net_catalogue disk_ok fresh)
    as (listing & _ & _ & Hnd); [vm_compute; reflexivity|].
  eexists. split; [vm_compute; reflexivity|exact Hnd].
Defined.

Lemma save_to_json_not_atomic_witness :
  exists w',
    Harvester.save_to_json disk_small example_collection "hdri_metadata.json"
      fresh = (Ok false, w') /\
    files w' !! "hdri_metadata.json" =
      Some (take_str 5 (dumps example_collection)).
Proof.
  destruct (save_to_json_not_atomic disk_small example_collection
              "hdri_metadata.json" fresh 5)
    as (w' & E & _ & Hf & _); [reflexivity|reflexivity|vm_compute; lia|].
  exists w'. split; [exact E|exact Hf].
Defined.

End FurtherRuns.
